(** * build_js.py: the OpenCV.js build orchestrator

    A shallow embedding of [text-detection/scripts/assets/opencv/build_js.py]
    and the properties of it that the specification states.

    The script is sequential Python that talks to three pieces of its
    environment: the file system (through [os.path], [os], [shutil], [glob]),
    child processes (through [subprocess.call]) and the logger.  The embedding
    keeps that shape:

    - Python [str] is [string]; [None] where a [str] is expected is [option];
    - the functions of [posixpath] the script calls ([join], [normpath],
      [abspath]) are transcribed on strings, character for character;
    - the file system is a tree of directories and regular files, as
      [os.stat] shows it, and the primitives used by the script are
      functions on it; the module [Linked] adds symbolic links and a working
      directory that may be gone, for the functions that can tell; special
      files and permissions are left out;
    - a child process is a function that receives the command and the world
      and gives back an exit status (or a launch error) and a new file system;
    - the script's own functions live in the monad [M] of state and
      exceptions, one definition per source function, under its source name. *)

From Stdlib Require Import String Ascii List ZArith Lia Bool.
From Stdlib Require Import DecimalString DecimalZ.
Import ListNotations.

Set Warnings "-register-all".
Open Scope string_scope.

(* ------------------------------------------------------------------------- *)
(** ** Python strings *)

Module Str.

(** [s.startswith(p)] *)
Fixpoint startswith (s p : string) {struct p} : bool :=
  match p with
  | EmptyString => true
  | String a p' =>
      match s with
      | EmptyString => false
      | String b s' => Ascii.eqb a b && startswith s' p'
      end
  end.

(** [s.endswith('/')] *)
Fixpoint endswith_sep (s : string) : bool :=
  match s with
  | EmptyString => false
  | String c EmptyString => Ascii.eqb c "/"
  | String _ s' => endswith_sep s'
  end.

(** [s.split('/')]: never empty, [''.split('/') == ['']]. *)
Fixpoint split_sep (s : string) : list string :=
  match s with
  | EmptyString => [EmptyString]
  | String c s' =>
      if Ascii.eqb c "/" then EmptyString :: split_sep s'
      else match split_sep s' with
           | [] => [String c EmptyString]
           | x :: xs => String c x :: xs
           end
  end.

(** ['/'.join(l)] *)
Fixpoint join_sep (l : list string) : string :=
  match l with
  | [] => EmptyString
  | [x] => x
  | x :: l' => x ++ "/" ++ join_sep l'
  end.

(** ['/' * k] *)
Fixpoint seps (k : nat) : string :=
  match k with
  | O => EmptyString
  | S k' => String "/" (seps k')
  end.

(** ['/' in s] *)
Fixpoint has_sep (s : string) : bool :=
  match s with
  | EmptyString => false
  | String c s' => Ascii.eqb c "/" || has_sep s'
  end.

(** Truth value of a string in a condition: [if flags:]. *)
Definition truthy (s : string) : bool :=
  match s with EmptyString => false | _ => true end.

(** [str(n)] and ['%s' % n], ['%d' % n] for an integer. *)
Definition of_int (n : Z) : string := NilZero.string_of_int (Z.to_int n).

(** [fmt % args] for a format whose directives are [%s] and [%d] and whose
    arguments are already strings; every use in the script supplies as many
    arguments as the format has directives. *)
Fixpoint percent (fmt : string) (args : list string) : string :=
  match fmt with
  | EmptyString => EmptyString
  | String c rest =>
      match rest with
      | String d rest' =>
          if Ascii.eqb c "%" && (Ascii.eqb d "s" || Ascii.eqb d "d") then
            match args with
            | a :: args' =>
                match rest' with
                | EmptyString => a
                | _ => a ++ percent rest' args'
                end
            | [] => String c (percent rest args)
            end
          else String c (percent rest args)
      | EmptyString => String c EmptyString
      end
  end.

(** [x in l] for a list of strings. *)
Definition mem (x : string) (l : list string) : bool :=
  existsb (String.eqb x) l.

End Str.

(* ------------------------------------------------------------------------- *)
(** ** posixpath *)

Module Posixpath.
Import Str.

(** [isabs(s)]: [s.startswith('/')] *)
Definition isabs (s : string) : bool := startswith s "/".

(** One iteration of the loop of [join(a, *p)]. *)
Definition join2 (path b : string) : string :=
  if startswith b "/" then b
  else if negb (truthy path) || endswith_sep path then path ++ b
  else path ++ "/" ++ b.

(** [join(a, *p)] *)
Definition join (a : string) (p : list string) : string :=
  fold_left join2 p a.

Definition is_nil {A} (l : list A) : bool :=
  match l with [] => true | _ => false end.

(** [new_comps and new_comps[-1] == '..'] *)
Definition last_is_dotdot (new_comps : list string) : bool :=
  negb (is_nil new_comps) && String.eqb (last new_comps EmptyString) "..".

(** The body of [for comp in comps:] of [normpath]; [new_comps.append] adds
    at the end, [new_comps.pop()] removes the last element. *)
Definition normpath_step (initial_slashes : nat)
    (new_comps : list string) (comp : string) : list string :=
  if String.eqb comp EmptyString || String.eqb comp "." then new_comps
  else if negb (String.eqb comp "..")
          || (Nat.eqb initial_slashes 0 && is_nil new_comps)
          || last_is_dotdot new_comps
       then new_comps ++ [comp]
       else if negb (is_nil new_comps) then removelast new_comps
            else new_comps.

(** [initial_slashes]: 0, 1, or 2 when the path starts with exactly two. *)
Definition initial_slashes (path : string) : nat :=
  if startswith path "/" then
    if startswith path "//" && negb (startswith path "///") then 2 else 1
  else 0.

(** [normpath(path)] *)
Definition normpath (path : string) : string :=
  if String.eqb path EmptyString then "."
  else
    let i := initial_slashes path in
    let comps := fold_left (normpath_step i) (split_sep path) [] in
    let path := seps i ++ join_sep comps in
    if truthy path then path else ".".

(** [abspath(path)], with [os.getcwd()] passed in. *)
Definition abspath (cwd path : string) : string :=
  normpath (if isabs path then path else join cwd [path]).

(** A directory entry name: not empty, not [.] or [..], no separator. *)
Definition valid_name (c : string) : bool :=
  negb (String.eqb c EmptyString) && negb (String.eqb c ".")
  && negb (String.eqb c "..") && negb (has_sep c).

(** The normal absolute spelling of the directory reached from the root
    through the names [cs]. *)
Definition abs_of (cs : list string) : string := "/" ++ join_sep cs.

(** How the kernel reads an absolute path: the names between separators,
    empty names and [.] skipped.  Every path the script hands to the
    operating system is an output of [abspath], possibly extended by [join]
    with fixed names, so [..] never reaches it. *)
Definition components (s : string) : list string :=
  filter (fun c => negb (String.eqb c EmptyString || String.eqb c ".")) (split_sep s).

End Posixpath.

(* ------------------------------------------------------------------------- *)
(** ** The file system *)

Module FS.

(** A file-system object: a regular file, or a directory with its named
    entries.  The root of the tree is the directory [/]. *)
Inductive node :=
| File
| Dir (entries : list (string * node)).

Inductive kind := IsFile | IsDir.

Definition kind_of (n : node) : kind :=
  match n with File => IsFile | Dir _ => IsDir end.

(** The entry called [x]; the first one decides. *)
Fixpoint assoc (x : string) (es : list (string * node)) : option node :=
  match es with
  | [] => None
  | (y, c) :: es' => if String.eqb y x then Some c else assoc x es'
  end.

(** Replace the entry called [x]. *)
Fixpoint update (x : string) (c : node) (es : list (string * node))
  : list (string * node) :=
  match es with
  | [] => []
  | (y, d) :: es' =>
      if String.eqb y x then (y, c) :: es' else (y, d) :: update x c es'
  end.

(** Drop the entries called [x]. *)
Definition remove_entry (x : string) (es : list (string * node))
  : list (string * node) :=
  filter (fun e => negb (String.eqb (fst e) x)) es.

(** The object a path of names leads to. *)
Fixpoint lookup (p : list string) (n : node) : option node :=
  match p with
  | [] => Some n
  | x :: p' =>
      match n with
      | File => None
      | Dir es =>
          match assoc x es with
          | Some c => lookup p' c
          | None => None
          end
      end
  end.

(** [stat]: what is at [p], if anything. *)
Definition stat (root : node) (p : list string) : option kind :=
  option_map kind_of (lookup p root).

Definition exists_ (root : node) (p : list string) : bool :=
  match stat root p with Some _ => true | None => false end.

Definition isdir (root : node) (p : list string) : bool :=
  match stat root p with Some IsDir => true | _ => false end.

Definition isfile (root : node) (p : list string) : bool :=
  match stat root p with Some IsFile => true | _ => false end.

(** Remove the object at [p] together with everything below it. *)
Fixpoint unlink (p : list string) (n : node) : node :=
  match n, p with
  | Dir es, [x] => Dir (remove_entry x es)
  | Dir es, x :: p' =>
      match assoc x es with
      | Some c => Dir (update x (unlink p' c) es)
      | None => n
      end
  | _, _ => n
  end.

(** A fresh chain of empty directories. *)
Fixpoint mkchain (p : list string) : node :=
  match p with
  | [] => Dir []
  | x :: p' => Dir [(x, mkchain p')]
  end.

Definition EEXIST : Z := 17.
Definition ENOTDIR : Z := 20.
Definition ENOENT : Z := 2.
Definition EISDIR : Z := 21.
Definition EBUSY : Z := 16.

(** [os.makedirs(p)] with [exist_ok=False]: the missing directories along
    [p] are created; an error number when the leaf exists already or a
    regular file is in the way. *)
Fixpoint mkdirs (p : list string) (n : node) : Z + node :=
  match n, p with
  | File, [] => inl EEXIST
  | File, _ :: _ => inl ENOTDIR
  | Dir _, [] => inl EEXIST
  | Dir es, x :: p' =>
      match assoc x es with
      | None => inr (Dir (es ++ [(x, mkchain p')]))
      | Some c =>
          match mkdirs p' c with
          | inl e => inl e
          | inr c' => inr (Dir (update x c' es))
          end
      end
  end.

(** Names of the sub-directories and of the other entries of a directory,
    in listing order. *)
Definition dirs_of (es : list (string * node)) : list string :=
  map fst (filter (fun e => match snd e with Dir _ => true | File => false end) es).

Definition files_of (es : list (string * node)) : list string :=
  map fst (filter (fun e => match snd e with Dir _ => false | File => true end) es).

Definition listdir (n : node) : list string :=
  match n with File => [] | Dir es => map fst es end.

(** [os.walk(top)], top down, errors ignored: the triples
    [(root, dirs, files)] in the order they are yielded. *)
Fixpoint walk (top : string) (n : node)
  : list (string * list string * list string) :=
  match n with
  | File => []
  | Dir es =>
      (top, dirs_of es, files_of es)
      :: flat_map (fun e => walk (Posixpath.join top [fst e]) (snd e)) es
  end.

End FS.

(* ------------------------------------------------------------------------- *)
(** ** Command line *)

(** What the user typed: the positional directory, the two optional
    directories, and the [store_true] flags. *)
Module Argv.
Record t := Make {
  build_dir : string;
  opencv_dir : option string;
  emscripten_dir : option string;
  build_wasm : bool;
  disable_wasm : bool;
  build_test : bool;
  build_doc : bool;
  clean_build_dir : bool;
  skip_config : bool;
  config_only : bool;
  enable_exception : bool
}.
End Argv.

(** The namespace [parser.parse_args()] returns.  [emscripten_dir] is [None]
    when neither the option nor the environment gives it. *)
Module Args.
Record t := Make {
  build_dir : string;
  opencv_dir : string;
  emscripten_dir : option string;
  build_wasm : bool;
  disable_wasm : bool;
  build_test : bool;
  build_doc : bool;
  clean_build_dir : bool;
  skip_config : bool;
  config_only : bool;
  enable_exception : bool
}.
End Args.

(* ------------------------------------------------------------------------- *)
(** ** World, exceptions and the monad of the script *)

(** The exceptions that occur: [Fail] is the script's own class; the others
    are Python's. *)
Inductive exn :=
| Fail (t : option string)
| OSError (errno : Z) (strerror : string)
| TypeError
| SystemExit (code : Z).

(** [Fail.__str__] *)
Definition Fail_str (t : option string) : string :=
  match t with None => "ERROR" | Some s => s end.

Inductive level := DEBUG | INFO.

(** An argument of a logging call. *)
Inductive pyval :=
| PStr (s : string)
| PBool (b : bool)
| PList (l : list string)
| PNamespace (a : Args.t).

(** A logging call: the format and its arguments, not yet merged. *)
Record log_record := LogRecord {
  lvl : level;
  fmt : string;
  fargs : list pyval
}.

(** The mutable part of the world: the file-system tree, the working
    directory, what was logged and which commands were handed to
    [subprocess.call], both oldest first. *)
Record world := World {
  fs : FS.node;
  cwd : string;
  log : list log_record;
  spawned : list (list string)
}.

(** How a call of [subprocess.call] ends: the child's return code (negative
    when a signal killed it), or the launch fails with an [OSError]. *)
Inductive child_result :=
| Returned (retcode : Z)
| LaunchError (errno : Z) (strerror : string).

(** The fixed part of the world: the [EMSCRIPTEN] variable of [os.environ],
    the directory of the script, the processor count, and the behaviour of
    child processes, which see the command and the world and leave a file
    system behind. *)
Record Env := MkEnv {
  environ_EMSCRIPTEN : option string;
  SCRIPT_DIR : string;
  cpu_count : Z;
  child : list string -> bool -> world -> child_result * FS.node
}.

Inductive result (A : Type) :=
| Ok (a : A)
| Raise (e : exn).
Arguments Ok {A} a.
Arguments Raise {A} e.

Definition M (A : Type) : Type := world -> result A * world.

Definition ret {A} (a : A) : M A := fun w => (Ok a, w).

Definition bind {A B} (c : M A) (k : A -> M B) : M B :=
  fun w =>
    match c w with
    | (Ok a, w') => k a w'
    | (Raise e, w') => (Raise e, w')
    end.

Definition raise {A} (e : exn) : M A := fun w => (Raise e, w).

Declare Scope script_scope.
Delimit Scope script_scope with script.
Notation "x <- c ;; k" := (bind c (fun x => k))
  (at level 61, c at next level, right associativity) : script_scope.
Notation "c ;; k" := (bind c (fun _ => k))
  (at level 61, right associativity) : script_scope.
Open Scope script_scope.

(** [if b: body] *)
Definition when (b : bool) (body : M unit) : M unit :=
  if b then body else ret tt.

(** [for x in l: body x] *)
Fixpoint for_each {A} (l : list A) (body : A -> M unit) : M unit :=
  match l with
  | [] => ret tt
  | x :: l' => body x ;; for_each l' body
  end.

(** [try: body / except OSError as e: handler e.errno e.strerror] *)
Definition try_except_OSError {A} (body : M A)
    (handler : Z -> string -> M A) : M A :=
  fun w =>
    match body w with
    | (Raise (OSError errno strerror), w') => handler errno strerror w'
    | r => r
    end.

(** [sys.exit(code)] *)
Definition sys_exit {A} (code : Z) : M A := raise (SystemExit code).

Definition log_call (l : level) (f : string) (args : list pyval) : M unit :=
  fun w => (Ok tt, World (fs w) (cwd w) (log w ++ [LogRecord l f args]) (spawned w)).

Definition log_info := log_call INFO.
Definition log_debug := log_call DEBUG.

(* ------------------------------------------------------------------------- *)
(** ** The operating system, as the script uses it *)

Module Os.
Import Posixpath.

(** The names the kernel follows for path [d] from working directory [c]. *)
Definition key (c d : string) : list string :=
  components (if isabs d then d else join c [d]).

Definition strerror (errno : Z) : string :=
  if Z.eqb errno FS.EEXIST then "File exists"
  else if Z.eqb errno FS.ENOTDIR then "Not a directory"
  else if Z.eqb errno FS.ENOENT then "No such file or directory"
  else if Z.eqb errno FS.EISDIR then "Is a directory"
  else if Z.eqb errno FS.EBUSY then "Device or resource busy"
  else "Unknown error".

Definition oserror {A} (errno : Z) : M A :=
  raise (OSError errno (strerror errno)).

(** [os.path.abspath(d)] *)
Definition path_abspath (d : string) : M string :=
  fun w => (Ok (abspath (cwd w) d), w).

(** [os.path.abspath(d)] when [d] may be [None]: [os.fspath(None)] raises
    [TypeError]. *)
Definition path_abspath_opt (d : option string) : M string :=
  match d with
  | Some s => path_abspath s
  | None => raise TypeError
  end.

Definition path_exists (d : string) : M bool :=
  fun w => (Ok (FS.exists_ (fs w) (key (cwd w) d)), w).

Definition path_isdir (d : string) : M bool :=
  fun w => (Ok (FS.isdir (fs w) (key (cwd w) d)), w).

Definition path_isfile (d : string) : M bool :=
  fun w => (Ok (FS.isfile (fs w) (key (cwd w) d)), w).

Definition set_fs (n : FS.node) (w : world) : world :=
  World n (cwd w) (log w) (spawned w).

(** [os.makedirs(d)] *)
Definition makedirs (d : string) : M unit :=
  fun w =>
    match FS.mkdirs (key (cwd w) d) (fs w) with
    | inr n => (Ok tt, set_fs n w)
    | inl e => oserror e w
    end.

(** [shutil.rmtree(d)]: [d] must be a directory, and not the root. *)
Definition rmtree (d : string) : M unit :=
  fun w =>
    let p := key (cwd w) d in
    match FS.stat (fs w) p, p with
    | None, _ => oserror FS.ENOENT w
    | Some FS.IsFile, _ => oserror FS.ENOTDIR w
    | Some FS.IsDir, [] => oserror FS.EBUSY w
    | Some FS.IsDir, _ :: _ => (Ok tt, set_fs (FS.unlink p (fs w)) w)
    end.

(** [os.remove(d)]: [d] must be a regular file. *)
Definition remove (d : string) : M unit :=
  fun w =>
    let p := key (cwd w) d in
    match FS.stat (fs w) p with
    | None => oserror FS.ENOENT w
    | Some FS.IsDir => oserror FS.EISDIR w
    | Some FS.IsFile => (Ok tt, set_fs (FS.unlink p (fs w)) w)
    end.

(** [os.chdir(d)]; afterwards [os.getcwd()] is the normal spelling of the
    directory. *)
Definition chdir (d : string) : M unit :=
  fun w =>
    match FS.stat (fs w) (key (cwd w) d) with
    | None => oserror FS.ENOENT w
    | Some FS.IsFile => oserror FS.ENOTDIR w
    | Some FS.IsDir =>
        (Ok tt, World (fs w) (abs_of (key (cwd w) d)) (log w) (spawned w))
    end.

(** [glob.glob(os.path.join(d, "*"))]: the entries of [d] whose names do
    not start with a dot, each joined to [d]. *)
Definition glob_star (d : string) : M (list string) :=
  fun w =>
    let names :=
      match FS.lookup (key (cwd w) d) (fs w) with
      | Some n => FS.listdir n
      | None => []
      end in
    (Ok (map (fun x => join d [x])
           (filter (fun x => negb (Str.startswith x ".")) names)), w).

(** [os.walk(path)], run to the end. *)
Definition walk (path : string)
  : M (list (string * list string * list string)) :=
  fun w =>
    (Ok match FS.lookup (key (cwd w) path) (fs w) with
        | Some n => FS.walk path n
        | None => []
        end, w).

(** [subprocess.call(cmd, shell=shell, env=env)]: the command is recorded,
    the child changes the file system as it likes, and its return code
    comes back unless the launch itself fails. *)
Definition subprocess_call (E : Env) (cmd : list string) (shell : bool)
  : M Z :=
  fun w =>
    let '(r, n) := child E cmd shell w in
    let w' := World n (cwd w) (log w) (spawned w ++ [cmd]) in
    match r with
    | Returned retcode => (Ok retcode, w')
    | LaunchError errno msg => (Raise (OSError errno msg), w')
    end.

End Os.

(* ------------------------------------------------------------------------- *)
(** ** The module-level functions of build_js.py *)

Section Functions.
Variable E : Env.

(** [execute(cmd, shell=False)].  The copy of the environment with
    [VERBOSE=1] that the child receives is part of [child E]. *)
Definition execute (cmd : list string) (shell : bool) : M unit :=
  try_except_OSError
    (log_info "Executing: %s" [PList cmd] ;;
     retcode <- Os.subprocess_call E cmd shell ;;
     if (retcode <? 0)%Z then
       raise (Fail (Some (Str.percent "Child was terminated by signal: %s"
                            [Str.of_int (- retcode)])))
     else if (retcode >? 0)%Z then
       raise (Fail (Some (Str.percent "Child returned: %s"
                            [Str.of_int retcode])))
     else ret tt)
    (fun errno strerror =>
       raise (Fail (Some (Str.percent "Execution failed: %d / %s"
                            [Str.of_int errno; strerror])))).

(** [rm_one(d)] *)
Definition rm_one (d : string) : M unit :=
  d <- Os.path_abspath d ;;
  e <- Os.path_exists d ;;
  if e then
    isd <- Os.path_isdir d ;;
    if isd then
      log_info "Removing dir: %s" [PStr d] ;;
      Os.rmtree d
    else
      isf <- Os.path_isfile d ;;
      if isf then
        log_info "Removing file: %s" [PStr d] ;;
        Os.remove d
      else ret tt
  else ret tt.

(** [check_dir(d, create=False, clean=False)] *)
Definition check_dir (d : string) (create clean : bool) : M string :=
  d <- Os.path_abspath d ;;
  log_info "Check dir %s (create: %s, clean: %s)"
    [PStr d; PBool create; PBool clean] ;;
  e <- Os.path_exists d ;;
  (if e then
     isd <- Os.path_isdir d ;;
     when (negb isd) (raise (Fail (Some (Str.percent "Not a directory: %s" [d])))) ;;
     when clean (xs <- Os.glob_star d ;; for_each xs rm_one)
   else
     when create (Os.makedirs d)) ;;
  ret d.

(** [check_file(d)]; the argument is [None] when [find_file] found
    nothing. *)
Definition check_file (d : option string) : M bool :=
  d <- Os.path_abspath_opt d ;;
  e <- Os.path_exists d ;;
  if e then
    isf <- Os.path_isfile d ;;
    if isf then ret true else ret false
  else ret false.

(** The loop of [find_file] over the triples of [os.walk]; falling off the
    end of the function returns [None]. *)
Fixpoint find_file_loop (name : string)
    (triples : list (string * list string * list string))
  : option string :=
  match triples with
  | [] => None
  | (root, _, files) :: rest =>
      if Str.mem name files then Some (Posixpath.join root [name])
      else find_file_loop name rest
  end.

(** [find_file(name, path)] *)
Definition find_file (name path : string) : M (option string) :=
  triples <- Os.walk path ;;
  ret (find_file_loop name triples).

End Functions.

(* ------------------------------------------------------------------------- *)
(** ** class Builder *)

Module Builder.

Record t := Make {
  options : Args.t;
  build_dir : string;
  opencv_dir : string;
  emscripten_dir : string
}.

Section Methods.
Variable E : Env.

(** [Builder.__init__(self, options)].  [check_dir(None)] cannot go past
    [os.path.abspath]. *)
Definition init (options : Args.t) : M t :=
  build_dir <- check_dir (Args.build_dir options) true false ;;
  opencv_dir <- check_dir (Args.opencv_dir options) false false ;;
  emscripten_dir <-
    match Args.emscripten_dir options with
    | Some d => check_dir d false false
    | None => raise TypeError
    end ;;
  ret (Make options build_dir opencv_dir emscripten_dir).

Definition get_toolchain_file (self : t) : string :=
  Posixpath.join (emscripten_dir self)
    ["cmake"; "Modules"; "Platform"; "Emscripten.cmake"].

Definition clean_targets : list string :=
  ["CMakeCache.txt"; "CMakeFiles/"; "bin/"; "libs/"; "lib/"; "modules"].

Definition clean_build_dir (self : t) : M unit :=
  for_each clean_targets rm_one.

Definition get_build_flags (self : t) : string :=
  let flags := EmptyString in
  let flags := flags ++ "-s USE_PTHREADS=0 " in
  let flags :=
    if Args.build_wasm (options self) then flags ++ "-s WASM=1 "
    else if Args.disable_wasm (options self) then flags ++ "-s WASM=0 "
    else flags in
  let flags :=
    if Args.enable_exception (options self)
    then flags ++ "-s DISABLE_EXCEPTION_CATCHING=0 "
    else flags in
  flags.

Definition get_cmake_cmd (self : t) : list string :=
  let cmd := [
    "cmake";
    "-DCMAKE_BUILD_TYPE=Release";
    Str.percent "-DCMAKE_TOOLCHAIN_FILE='%s'" [get_toolchain_file self];
    "-DCPU_BASELINE=''";
    "-DCPU_DISPATCH=''";
    "-DCV_TRACE=OFF";
    "-DBUILD_SHARED_LIBS=OFF";
    "-DWITH_1394=OFF";
    "-DWITH_ADE=OFF";
    "-DWITH_VTK=OFF";
    "-DWITH_EIGEN=OFF";
    "-DWITH_FFMPEG=OFF";
    "-DWITH_GSTREAMER=OFF";
    "-DWITH_GTK=OFF";
    "-DWITH_GTK_2_X=OFF";
    "-DWITH_IPP=OFF";
    "-DWITH_JASPER=OFF";
    "-DWITH_JPEG=OFF";
    "-DWITH_WEBP=OFF";
    "-DWITH_OPENEXR=OFF";
    "-DWITH_OPENGL=OFF";
    "-DWITH_OPENVX=OFF";
    "-DWITH_OPENNI=OFF";
    "-DWITH_OPENNI2=OFF";
    "-DWITH_PNG=OFF";
    "-DWITH_TBB=OFF";
    "-DWITH_PTHREADS_PF=OFF";
    "-DWITH_TIFF=OFF";
    "-DWITH_V4L=OFF";
    "-DWITH_OPENCL=OFF";
    "-DWITH_OPENCL_SVM=OFF";
    "-DWITH_OPENCLAMDFFT=OFF";
    "-DWITH_OPENCLAMDBLAS=OFF";
    "-DWITH_GPHOTO2=OFF";
    "-DWITH_LAPACK=OFF";
    "-DWITH_ITT=OFF";
    "-DWITH_QUIRC=OFF";
    "-DBUILD_ZLIB=ON";
    "-DBUILD_opencv_apps=OFF";
    "-DBUILD_opencv_calib3d=ON";
    "-DBUILD_opencv_dnn=ON";
    "-DBUILD_opencv_features2d=ON";
    "-DBUILD_opencv_flann=ON";
    "-DBUILD_opencv_gapi=OFF";
    "-DBUILD_opencv_ml=OFF";
    "-DBUILD_opencv_photo=ON";
    "-DBUILD_opencv_imgcodecs=OFF";
    "-DBUILD_opencv_shape=OFF";
    "-DBUILD_opencv_videoio=OFF";
    "-DBUILD_opencv_videostab=OFF";
    "-DBUILD_opencv_highgui=OFF";
    "-DBUILD_opencv_superres=OFF";
    "-DBUILD_opencv_stitching=OFF";
    "-DBUILD_opencv_java=OFF";
    "-DBUILD_opencv_java_bindings_generator=OFF";
    "-DBUILD_opencv_js=ON";
    "-DBUILD_opencv_python2=OFF";
    "-DBUILD_opencv_python3=OFF";
    "-DBUILD_opencv_python_bindings_generator=OFF";
    "-DBUILD_EXAMPLES=OFF";
    "-DBUILD_PACKAGE=OFF";
    "-DBUILD_TESTS=OFF";
    "-DBUILD_PERF_TESTS=OFF"
  ] in
  let cmd :=
    if Args.build_doc (options self)
    then (cmd ++ ["-DBUILD_DOCS=ON"])%list
    else (cmd ++ ["-DBUILD_DOCS=OFF"])%list in
  let flags := get_build_flags self in
  if Str.truthy flags then
    (cmd ++ [Str.percent "-DCMAKE_C_FLAGS='%s'" [flags];
             Str.percent "-DCMAKE_CXX_FLAGS='%s'" [flags]])%list
  else cmd.

Definition config (self : t) : M unit :=
  let cmd := get_cmake_cmd self in
  let cmd := (cmd ++ [opencv_dir self])%list in
  execute E cmd false.

(** [["make", "-j", str(multiprocessing.cpu_count()), target]] *)
Definition make_cmd (target : string) : list string :=
  ["make"; "-j"; Str.of_int (cpu_count E); target].

Definition build_opencvjs (self : t) : M unit :=
  execute E (make_cmd "opencv.js") false.

Definition build_test (self : t) : M unit :=
  execute E (make_cmd "opencv_js_test") false.

Definition build_doc (self : t) : M unit :=
  execute E (make_cmd "doxygen") false.

End Methods.
End Builder.

(* ------------------------------------------------------------------------- *)
(** ** The main program *)

Section Main.
Variable E : Env.

(** [parser.parse_args()]: the defaults fill what the user left out. *)
Definition parse_args (opencv_dir : string) (emscripten_dir : option string)
    (argv : Argv.t) : Args.t :=
  Args.Make
    (Argv.build_dir argv)
    (match Argv.opencv_dir argv with Some d => d | None => opencv_dir end)
    (match Argv.emscripten_dir argv with
     | Some d => Some d
     | None => emscripten_dir
     end)
    (Argv.build_wasm argv) (Argv.disable_wasm argv)
    (Argv.build_test argv) (Argv.build_doc argv)
    (Argv.clean_build_dir argv) (Argv.skip_config argv)
    (Argv.config_only argv) (Argv.enable_exception argv).

Definition banner (line : string) (args : list pyval) : M unit :=
  log_info "=====" [] ;;
  log_info line args ;;
  log_info "=====" [].

(** The body of [if __name__ == "__main__":]. *)
Definition main (argv : Argv.t) : M unit :=
  opencv_dir <- Os.path_abspath (Posixpath.join (SCRIPT_DIR E) ["../.."]) ;;
  let emscripten_dir := environ_EMSCRIPTEN E in
  let args := parse_args opencv_dir emscripten_dir argv in
  log_debug "Args: %s" [PNamespace args] ;;
  when (match Args.emscripten_dir args with None => true | Some _ => false end)
    (log_info "Cannot get Emscripten path, please specify it either by EMSCRIPTEN environment variable or --emscripten_dir option." [] ;;
     sys_exit (-1)) ;;
  builder <- Builder.init args ;;
  Os.chdir (Builder.build_dir builder) ;;
  when (Args.clean_build_dir args)
    (banner "===== Clean build dir %s" [PStr (Builder.build_dir builder)] ;;
     Builder.clean_build_dir builder) ;;
  when (negb (Args.skip_config args))
    (let target := "default target" in
     let target :=
       if Args.build_wasm args then "wasm"
       else if Args.disable_wasm args then "asm.js"
       else target in
     banner "===== Config OpenCV.js build for %s" [PStr target] ;;
     Builder.config E builder) ;;
  when (Args.config_only args) (sys_exit 0) ;;
  banner "===== Building OpenCV.js" [] ;;
  Builder.build_opencvjs E builder ;;
  when (Args.build_test args)
    (banner "===== Building OpenCV.js tests" [] ;;
     Builder.build_test E builder) ;;
  when (Args.build_doc args)
    (banner "===== Building OpenCV.js tutorials" [] ;;
     Builder.build_doc E builder) ;;
  banner "===== Build finished" [] ;;
  let opencvjs_path :=
    Posixpath.join (Builder.build_dir builder) ["bin"; "opencv.js"] in
  found <- check_file (Some opencvjs_path) ;;
  when found (log_info "OpenCV.js location: %s" [PStr opencvjs_path]) ;;
  when (Args.build_test args)
    (let opencvjs_test_path :=
       Posixpath.join (Builder.build_dir builder) ["bin"; "tests.html"] in
     found <- check_file (Some opencvjs_test_path) ;;
     when found
       (log_info "OpenCV.js tests location: %s" [PStr opencvjs_test_path])) ;;
  when (Args.build_doc args)
    (opencvjs_tutorial_path <-
       find_file "tutorial_js_root.html"
         (Posixpath.join (Builder.build_dir builder)
            ["doc"; "doxygen"; "html"]) ;;
     found <- check_file opencvjs_tutorial_path ;;
     when found
       (log_info "OpenCV.js tutorials location: %s"
          [match opencvjs_tutorial_path with
           | Some p => PStr p
           | None => PStr EmptyString
           end])).

(** How the interpreter ends: [sys.exit(code)], or an exception nobody
    caught, which prints a traceback. *)
Inductive outcome :=
| Exit (code : Z)
| Traceback (e : exn).

Definition run_script (argv : Argv.t) (w : world) : outcome * world :=
  match main argv w with
  | (Ok _, w') => (Exit 0, w')
  | (Raise (SystemExit code), w') => (Exit code, w')
  | (Raise e, w') => (Traceback e, w')
  end.

(** The status the parent process sees: the low byte of the exit code, and
    1 after a traceback. *)
Definition exit_status (o : outcome) : Z :=
  match o with
  | Exit code => (code mod 256)%Z
  | Traceback _ => 1%Z
  end.

End Main.

(* ------------------------------------------------------------------------- *)
(** ** Symbolic links, and a working directory that is gone *)

(** The functions above see the file system as [os.stat] shows it, where a
    symbolic link looks like the object it leads to, and they take the
    working directory for granted.  Three library calls of the script do
    more: [shutil.rmtree] refuses a symbolic link, [os.walk] lists a linked
    directory without going into it, and [os.path.abspath] of a relative
    path asks for the working directory, which the kernel no longer gives
    once that directory has been removed.

    [Linked] holds the script's functions that reach these calls, again one
    definition per source function.  The tree remains what [os.stat] shows;
    [islink] tells which of its paths are symbolic links.  Removing a link
    removes its entry and leaves the object it led to where it is. *)

Module Linked.
Section Links.
Variable islink : list string -> bool.

(** [os.getcwd()]: [FileNotFoundError] when the working directory is no
    longer there. *)
Definition getcwd : M string :=
  fun w =>
    if FS.isdir (fs w) (Posixpath.components (cwd w)) then (Ok (cwd w), w)
    else Os.oserror FS.ENOENT w.

(** [os.path.abspath(d)] *)
Definition path_abspath (d : string) : M string :=
  if Posixpath.isabs d then ret (Posixpath.normpath d)
  else
    c <- getcwd ;;
    ret (Posixpath.normpath (Posixpath.join c [d])).

Definition path_abspath_opt (d : option string) : M string :=
  match d with
  | Some s => path_abspath s
  | None => raise TypeError
  end.

(** An [OSError] made from a message alone has no [errno]; it is written
    with the number 0, which no system call gives. *)
Definition no_errno : Z := 0.

Definition symlink_error : exn :=
  OSError no_errno "Cannot call rmtree on a symbolic link".

(** [shutil.rmtree(d)] *)
Definition rmtree (d : string) : M unit :=
  fun w =>
    if islink (Os.key (cwd w) d) then raise symlink_error w
    else Os.rmtree d w.

(** [rm_one(d)] *)
Definition rm_one (d : string) : M unit :=
  d <- path_abspath d ;;
  e <- Os.path_exists d ;;
  if e then
    isd <- Os.path_isdir d ;;
    if isd then
      log_info "Removing dir: %s" [PStr d] ;;
      rmtree d
    else
      isf <- Os.path_isfile d ;;
      if isf then
        log_info "Removing file: %s" [PStr d] ;;
        Os.remove d
      else ret tt
  else ret tt.

(** [check_dir(d, create=False, clean=False)] *)
Definition check_dir (d : string) (create clean : bool) : M string :=
  d <- path_abspath d ;;
  log_info "Check dir %s (create: %s, clean: %s)"
    [PStr d; PBool create; PBool clean] ;;
  e <- Os.path_exists d ;;
  (if e then
     isd <- Os.path_isdir d ;;
     when (negb isd) (raise (Fail (Some (Str.percent "Not a directory: %s" [d])))) ;;
     when clean (xs <- Os.glob_star d ;; for_each xs rm_one)
   else
     when create (Os.makedirs d)) ;;
  ret d.

(** [check_file(d)] *)
Definition check_file (d : option string) : M bool :=
  d <- path_abspath_opt d ;;
  e <- Os.path_exists d ;;
  if e then
    isf <- Os.path_isfile d ;;
    if isf then ret true else ret false
  else ret false.

(** [os.walk(top)] with [followlinks=False]: a sub-directory that is a
    symbolic link is listed among the directories and not gone into; [p]
    is the path of [top]. *)
Fixpoint walk_tree (top : string) (p : list string) (n : FS.node)
  : list (string * list string * list string) :=
  match n with
  | FS.File => []
  | FS.Dir es =>
      (top, FS.dirs_of es, FS.files_of es)
      :: flat_map
           (fun e =>
              if islink (p ++ [fst e]) then []
              else walk_tree (Posixpath.join top [fst e]) (p ++ [fst e])
                     (snd e))
           es
  end.

Definition walk (path : string)
  : M (list (string * list string * list string)) :=
  fun w =>
    (Ok match FS.lookup (Os.key (cwd w) path) (fs w) with
        | Some n => walk_tree path (Os.key (cwd w) path) n
        | None => []
        end, w).

(** [find_file(name, path)] *)
Definition find_file (name path : string) : M (option string) :=
  triples <- walk path ;;
  ret (find_file_loop name triples).

(** [Builder.clean_build_dir] *)
Definition clean_build_dir (self : Builder.t) : M unit :=
  for_each Builder.clean_targets rm_one.

End Links.
End Linked.

(* ------------------------------------------------------------------------- *)
(** ** Vocabulary of the statements *)

(** [int(s)] for the decimal text of an integer. *)
Definition decimal_value (s : string) : option Z :=
  option_map Z.of_int (NilZero.int_of_string s).

(** The sixty feature toggles that follow the first three words of the
    configure command. *)
Definition cmake_toggles (cmd : list string) : list string :=
  firstn 60 (skipn 3 cmd).

(** The same builder with another value of [--build_test]. *)
Definition with_build_test (v : bool) (b : Builder.t) : Builder.t :=
  let o := Builder.options b in
  Builder.Make
    (Args.Make (Args.build_dir o) (Args.opencv_dir o) (Args.emscripten_dir o)
       (Args.build_wasm o) (Args.disable_wasm o) v (Args.build_doc o)
       (Args.clean_build_dir o) (Args.skip_config o) (Args.config_only o)
       (Args.enable_exception o))
    (Builder.build_dir b) (Builder.opencv_dir b) (Builder.emscripten_dir b).

(** The world in which a child started by [execute] runs: the call has been
    logged already. *)
Definition world_at_call (cmd : list string) (w : world) : world :=
  snd (log_info "Executing: %s" [PList cmd] w).

(** [p] is an initial segment of [q]. *)
Fixpoint is_prefix (p q : list string) : bool :=
  match p, q with
  | [], _ => true
  | x :: p', y :: q' => String.eqb x y && is_prefix p' q'
  | _ :: _, [] => false
  end.

(** One step of the kernel along a path: an empty name and [.] stay, [..]
    goes to the parent (and stays at the root), a name goes down. *)
Definition follow (at_ : list string) (comp : string) : list string :=
  if String.eqb comp EmptyString || String.eqb comp "." then at_
  else if String.eqb comp ".." then removelast at_
  else (at_ ++ [comp])%list.

(** The directory a spelling [s] names from the working directory with
    names [cs], when what is named on the way is a directory and no
    symbolic link: an absolute spelling starts from the root, any other
    from the working directory. *)
Definition resolve (cs : list string) (s : string) : list string :=
  fold_left follow (Str.split_sep s)
    (if Posixpath.isabs s then [] else cs).

(** The separators [check_dir] returns in front: two for a spelling that
    begins with exactly two, which POSIX allows to mean something of its
    own, and one for every other. *)
Definition leading (s : string) : nat :=
  if Str.startswith s "//" && negb (Str.startswith s "///") then 2 else 1.

(** Some name on the way to [p], [p] included, is a regular file. *)
Fixpoint file_in_the_way (n : FS.node) (p : list string) : bool :=
  match n with
  | FS.File => true
  | FS.Dir es =>
      match p with
      | [] => false
      | x :: p' =>
          match FS.assoc x es with
          | Some c => file_in_the_way c p'
          | None => false
          end
      end
  end.

(** The world after the first logging call of [check_dir]. *)
Definition world_at_check (d : string) (create clean : bool) (w : world)
  : world :=
  snd (log_info "Check dir %s (create: %s, clean: %s)"
         [PStr (Posixpath.abspath (cwd w) d); PBool create; PBool clean] w).

(** The names [clean_build_dir] removes, as directory entries. *)
Definition cleaned_names : list string :=
  ["CMakeCache.txt"; "CMakeFiles"; "bin"; "libs"; "lib"; "modules"].

(** The namespace [main] works with, started in world [w]. *)
Definition args_of (E : Env) (argv : Argv.t) (w : world) : Args.t :=
  parse_args
    (Posixpath.abspath (cwd w) (Posixpath.join (SCRIPT_DIR E) ["../.."]))
    (environ_EMSCRIPTEN E) argv.

(** The world in which [Builder(args)] is constructed: the arguments have
    been logged. *)
Definition world_at_init (E : Env) (argv : Argv.t) (w : world) : world :=
  snd (log_debug "Args: %s" [PNamespace (args_of E argv w)] w).

(** The command [Builder.config] executes. *)
Definition configure_cmd (b : Builder.t) : list string :=
  (Builder.get_cmake_cmd b ++ [Builder.opencv_dir b])%list.

(** The external steps the options ask for, in order. *)
Definition expected_steps (E : Env) (a : Args.t) (b : Builder.t)
  : list (list string) :=
  ((if Args.skip_config a then [] else [configure_cmd b])
   ++ (if Args.config_only a then []
       else [Builder.make_cmd E "opencv.js"]
            ++ (if Args.build_test a
                then [Builder.make_cmd E "opencv_js_test"] else [])
            ++ (if Args.build_doc a
                then [Builder.make_cmd E "doxygen"] else [])))%list.

(** Every child process returns 0. *)
Definition children_succeed (E : Env) : Prop :=
  forall cmd shell w, fst (child E cmd shell w) = Returned 0.

(** What [find_file] finds for the documentation root page in world [w]. *)
Definition tutorial_page (b : Builder.t) (w : world) : option string :=
  match fst (find_file "tutorial_js_root.html"
               (Posixpath.join (Builder.build_dir b)
                  ["doc"; "doxygen"; "html"]) w) with
  | Ok o => o
  | Raise _ => None
  end.

(** [c], started in [w], ends with a result and a world that satisfy [Q]. *)
Definition wp {A} (c : M A) (Q : result A -> world -> Prop) (w : world)
  : Prop :=
  Q (fst (c w)) (snd (c w)).

(** [c] starts no child process and does not leave through [sys.exit]. *)
Definition plain {A} (c : M A) : Prop :=
  forall w,
    spawned (snd (c w)) = spawned w
    /\ forall code, fst (c w) <> Raise (SystemExit code).

(** [--build_wasm] and [--build_test] are given and no other flag. *)
Definition only_wasm_and_test (argv : Argv.t) : bool :=
  Argv.build_wasm argv && Argv.build_test argv
  && negb (Argv.disable_wasm argv) && negb (Argv.build_doc argv)
  && negb (Argv.clean_build_dir argv) && negb (Argv.skip_config argv)
  && negb (Argv.config_only argv) && negb (Argv.enable_exception argv).

(** The steps of a build for WebAssembly with tests. *)
Definition wasm_test_steps (E : Env) (b : Builder.t) : list (list string) :=
  [configure_cmd b;
   Builder.make_cmd E "opencv.js";
   Builder.make_cmd E "opencv_js_test"].

(** The Emscripten directory is given neither on the command line nor in
    the environment. *)
Definition unresolved (E : Env) (argv : Argv.t) : Prop :=
  Argv.emscripten_dir argv = None /\ environ_EMSCRIPTEN E = None.

(** The world [main] leaves when it gives up for want of Emscripten: two
    lines more in the log, and nothing else. *)
Definition world_at_early_exit (E : Env) (argv : Argv.t) (w : world) : world :=
  World (fs w) (cwd w)
    ((log w
      ++ [LogRecord DEBUG "Args: %s" [PNamespace (args_of E argv w)]])
     ++ [LogRecord INFO
           "Cannot get Emscripten path, please specify it either by EMSCRIPTEN environment variable or --emscripten_dir option."
           []])
    (spawned w).

(* ------------------------------------------------------------------------- *)
(** ** Sample worlds *)

(** A small file system: the OpenCV sources under [/src], Emscripten under
    [/em], a regular file [/f], and nothing else. *)
Definition sample_fs : FS.node :=
  FS.Dir [("src", FS.Dir [("platforms", FS.Dir [("js", FS.Dir [])])]);
          ("em", FS.Dir []);
          ("f", FS.File)].

Definition sample_world : world := World sample_fs "/" [] [].

(** Children that all end the same way and touch nothing. *)
Definition sample_env (emscripten : option string) (r : child_result) : Env :=
  MkEnv emscripten "/src/platforms/js" 4 (fun _ _ w => (r, fs w)).

(** The same with a build directory [/b] that holds products of an earlier
    build and a file of the user, seen from inside [/b]. *)
Definition build_fs : FS.node :=
  FS.Dir [("src", FS.Dir [("platforms", FS.Dir [("js", FS.Dir [])])]);
          ("em", FS.Dir []);
          ("b", FS.Dir [("CMakeCache.txt", FS.File);
                        ("bin", FS.Dir [("opencv.js", FS.File)]);
                        ("keep.txt", FS.File)])].

Definition build_world : world := World build_fs "/b" [] [].

(** Command lines for the build directory [/b]: the flags are, in order,
    [--build_wasm], [--build_test], [--build_doc], [--config_only]. *)
Definition sample_argv (build_wasm build_test build_doc config_only : bool)
  : Argv.t :=
  Argv.Make "/b" None None build_wasm false build_test build_doc
    false false config_only false.

Definition sample_args (build_test build_doc : bool) : Args.t :=
  Args.Make "/b" "/src" (Some "/em") true false build_test build_doc
    false false false false.

Definition sample_builder (build_test build_doc : bool) : Builder.t :=
  Builder.Make (sample_args build_test build_doc) "/b" "/src" "/em".

(** A build directory [/b] in which [bin] is a symbolic link to the
    directory [/out], seen from inside [/b]: the tree shows below [bin]
    what the link leads to, and [bin_is_link] tells that [bin] is a link. *)
Definition linked_fs : FS.node :=
  FS.Dir [("out", FS.Dir [("opencv.js", FS.File)]);
          ("b", FS.Dir [("CMakeCache.txt", FS.File);
                        ("bin", FS.Dir [("opencv.js", FS.File)]);
                        ("modules", FS.Dir [])])].

Definition linked_world : world := World linked_fs "/b" [] [].

Definition same_path (p q : list string) : bool :=
  is_prefix p q && is_prefix q p.

Definition bin_is_link (q : list string) : bool := same_path ["b"; "bin"] q.

(** A file system without symbolic links. *)
Definition no_link (q : list string) : bool := false.

(* ------------------------------------------------------------------------- *)
(** ** Vocabulary of the further properties *)

(** [sub in s] for strings. *)
Fixpoint contains (s sub : string) : bool :=
  Str.startswith s sub
  || match s with
     | EmptyString => false
     | String _ s' => contains s' sub
     end.

(** A string that holds a null character: no system call takes it, and
    Python raises [ValueError] where it is handed to one. *)
Definition has_nul (s : string) : bool :=
  contains s (String Ascii.zero EmptyString).

(** A name that [glob("*")] skips. *)
Definition hidden (x : string) : bool := Str.startswith x ".".

(** Every child process fails: it returns a code other than 0, or cannot be
    launched. *)
Definition children_fail (E : Env) : Prop :=
  forall cmd shell w,
    match fst (child E cmd shell w) with
    | Returned retcode => retcode <> 0%Z
    | LaunchError _ _ => True
    end.

(** A command line whose [--opencv_dir] is the regular file [/f]. *)
Definition bad_source_argv : Argv.t :=
  Argv.Make "/b" (Some "/f") None false false false false
    false false false false.



(** A command [subprocess.call] hands to the kernel: [Popen] raises
    [IndexError] on an empty list and [ValueError] on an argument that holds
    a null character, neither of them an [OSError]. *)
Definition launchable (cmd : list string) : bool :=
  negb (Posixpath.is_nil cmd) && forallb (fun a => negb (has_nul a)) cmd.

(** [glob.has_magic]: the characters [glob] reads as a pattern. *)
Definition has_magic (s : string) : bool :=
  contains s "*" || contains s "?" || contains s "[".

(** The names listed in the directory at [p]. *)
Definition entry_names (root : FS.node) (p : list string) : list string :=
  match FS.lookup p root with
  | Some n => FS.listdir n
  | None => []
  end.

(** A build directory [/b] with a hidden directory among its entries, seen
    from inside [/b]. *)
Definition dotted_world : world :=
  World (FS.Dir [("em", FS.Dir []);
                 ("b", FS.Dir [(".cache", FS.Dir [("x", FS.File)]);
                               ("bin", FS.Dir [("opencv.js", FS.File)]);
                               ("keep.txt", FS.File)])])
        "/b" [] [].

Fixpoint nodupb (l : list string) : bool :=
  match l with
  | [] => true
  | x :: l' => negb (Str.mem x l') && nodupb l'
  end.

(** A tree as a file system holds it: in every directory the entries have
    names a file system accepts, and no two entries share a name. *)
Fixpoint tree_ok (n : FS.node) : bool :=
  match n with
  | FS.File => true
  | FS.Dir es =>
      nodupb (map fst es)
      && forallb (fun e => Posixpath.valid_name (fst e) && tree_ok (snd e)) es
  end.

(** A documentation tree below [/b] in which the page looked for lies two
    directories down, next to a directory of the same name higher up. *)
Definition doc_world : world :=
  World (FS.Dir
           [("b", FS.Dir
              [("doc", FS.Dir
                 [("index.html", FS.File);
                  ("page.html", FS.Dir []);
                  ("js", FS.Dir
                     [("html", FS.Dir [("page.html", FS.File)])])])])])
        "/" [] [].

(** Children that remove and change nothing that is there: what they find
    at a path is still there when they end (they may add files). *)
Definition children_keep (E : Env) : Prop :=
  forall cmd shell w q,
    FS.stat (fs w) q <> None ->
    FS.stat (snd (child E cmd shell w)) q = FS.stat (fs w) q.

(** A computation that removes and changes nothing that is there. *)
Definition keeps_files {A} (c : M A) : Prop :=
  forall w q,
    FS.stat (fs w) q <> None ->
    FS.stat (fs (snd (c w))) q = FS.stat (fs w) q.
(* ------------------------------------------------------------------------- *)
(** * Properties *)

(** ** The transcriptions at work *)

Example normpath_examples :
  Posixpath.normpath "/a//b/./c/../d/" = "/a/b/d"
  /\ Posixpath.normpath "//a" = "//a"
  /\ Posixpath.normpath "///a" = "/a"
  /\ Posixpath.normpath "a/../.." = ".."
  /\ Posixpath.normpath "/.." = "/"
  /\ Posixpath.normpath EmptyString = "."
  /\ Posixpath.abspath "/w" "bin/" = "/w/bin"
  /\ Posixpath.abspath "/w" "/x/../y" = "/y"
  /\ Posixpath.join "/b" ["doc"; "doxygen"; "html"] = "/b/doc/doxygen/html"
  /\ Posixpath.join "/b" ["/c"; "d"] = "/c/d"
  /\ Posixpath.join "/b/" ["c"] = "/b/c".
Proof. repeat split; reflexivity. Qed.

Example string_examples :
  Str.split_sep "/a//b" = [EmptyString; "a"; EmptyString; "b"]
  /\ Str.join_sep ["a"; "b"; "c"] = "a/b/c"
  /\ Str.of_int (-9) = "-9"
  /\ Str.of_int 0 = "0"
  /\ Str.percent "Execution failed: %d / %s" ["2"; "gone"]
     = "Execution failed: 2 / gone"
  /\ Str.percent "-DCMAKE_C_FLAGS='%s'" ["-s WASM=1 "]
     = "-DCMAKE_C_FLAGS='-s WASM=1 '".
Proof. repeat split; reflexivity. Qed.

Example file_system_examples :
  FS.stat build_fs ["b"; "bin"; "opencv.js"] = Some FS.IsFile
  /\ FS.stat (FS.unlink ["b"; "bin"] build_fs) ["b"; "bin"; "opencv.js"]
     = None
  /\ FS.mkdirs ["f"; "x"] sample_fs = inl FS.ENOTDIR
  /\ FS.mkdirs ["src"] sample_fs = inl FS.EEXIST
  /\ FS.walk "/b" (FS.Dir [("bin", FS.Dir [("opencv.js", FS.File)]);
                           ("keep.txt", FS.File)])
     = [("/b", ["bin"], ["keep.txt"]); ("/b/bin", [], ["opencv.js"])]
  /\ find_file_loop "opencv.js"
       [("/b", ["bin"], ["keep.txt"]); ("/b/bin", [], ["opencv.js"])]
     = Some "/b/bin/opencv.js".
Proof. repeat split; reflexivity. Qed.

(** A whole run: build for WebAssembly with tests, from [/], every child
    returning 0. *)
Example run_examples :
  let '(out, w) :=
    run_script (sample_env (Some "/em") (Returned 0))
      (sample_argv true true false false) sample_world in
  out = Exit 0
  /\ cwd w = "/b"
  /\ FS.stat (fs w) ["b"] = Some FS.IsDir
  /\ map (fun c => (hd EmptyString c, last c EmptyString)) (spawned w)
     = [("cmake", "/src"); ("make", "opencv.js"); ("make", "opencv_js_test")].
Proof. vm_compute. repeat split. Qed.

(** ** Strings *)

Lemma mem_In (x : string) (l : list string) :
  Str.mem x l = true <-> In x l.
Proof.
  unfold Str.mem. rewrite existsb_exists. split.
  - intros (y & Hy & Heq). apply String.eqb_eq in Heq. now subst.
  - intros H. exists x. split; [assumption | apply String.eqb_refl].
Qed.

Lemma decimal_value_of_int (n : Z) :
  decimal_value (Str.of_int n) = Some n.
Proof.
  unfold decimal_value, Str.of_int.
  assert (H : forall d, option_map Z.of_int
                (NilZero.int_of_string (NilZero.string_of_int d))
              = Some (Z.of_int d)).
  { intros [u | u]; destruct u;
      try reflexivity; rewrite NilZero.isi; try reflexivity; discriminate. }
  rewrite H. now rewrite DecimalZ.of_to.
Qed.

(** ** execute *)

(** What [execute] does with the way the child ended. *)
Lemma execute_run (E : Env) (cmd : list string) (shell : bool) (w : world) :
  execute E cmd shell w =
  let w1 := world_at_call cmd w in
  let w2 := World (snd (child E cmd shell w1)) (cwd w) (log w1)
              (spawned w ++ [cmd]) in
  (match fst (child E cmd shell w1) with
   | Returned retcode =>
       if (retcode <? 0)%Z then
         Raise (Fail (Some ("Child was terminated by signal: "
                            ++ Str.of_int (- retcode))))
       else if (retcode >? 0)%Z then
         Raise (Fail (Some ("Child returned: " ++ Str.of_int retcode)))
       else Ok tt
   | LaunchError errno msg =>
       Raise (Fail (Some ("Execution failed: " ++ Str.of_int errno
                          ++ " / " ++ msg)))
   end, w2).
Proof.
  unfold execute, try_except_OSError, bind, Os.subprocess_call, world_at_call,
    log_info, log_call, raise, ret.
  cbn [fst snd fs cwd log spawned].
  destruct (child E cmd shell _) as [[retcode | errno msg] n];
    cbn [fst snd fs cwd log spawned].
  - destruct (retcode <? 0)%Z; [reflexivity |].
    destruct (retcode >? 0)%Z; reflexivity.
  - reflexivity.
Qed.

(** C4.  [execute] returns normally when the child returns 0; a positive
    return code [n] raises [Fail] with the text "Child returned: n"; a child
    killed by signal [k] (return code [-k]) raises [Fail] with the text
    "Child was terminated by signal: k"; a launch failure raises [Fail] with
    the text "Execution failed: errno / strerror".  The numbers are written
    in decimal, so the text determines them. *)
Theorem execute_outcomes (E : Env) (cmd : list string) (shell : bool)
    (w : world) :
  let r := fst (child E cmd shell (world_at_call cmd w)) in
  let out := fst (execute E cmd shell w) in
  (r = Returned 0 -> out = Ok tt)
  /\ (forall n, (0 < n)%Z -> r = Returned n ->
        out = Raise (Fail (Some ("Child returned: " ++ Str.of_int n))))
  /\ (forall k, (0 < k)%Z -> r = Returned (- k) ->
        out = Raise (Fail (Some ("Child was terminated by signal: "
                                 ++ Str.of_int k))))
  /\ (forall errno msg, r = LaunchError errno msg ->
        out = Raise (Fail (Some ("Execution failed: " ++ Str.of_int errno
                                 ++ " / " ++ msg))))
  /\ (forall n, decimal_value (Str.of_int n) = Some n).
Proof.
  intros r out. subst r out. rewrite execute_run. cbn [fst].
  repeat split.
  - intros ->. reflexivity.
  - intros n Hn ->.
    destruct (Z.ltb_spec n 0); [lia |].
    destruct (Z.gtb_spec n 0); [reflexivity | lia].
  - intros k Hk ->.
    destruct (Z.ltb_spec (- k) 0); [| lia].
    now rewrite Z.opp_involutive.
  - intros errno msg ->. reflexivity.
  - apply decimal_value_of_int.
Qed.

Lemma execute_outcomes_witness :
  fst (execute (sample_env None (Returned 0)) ["make"] false sample_world)
  = Ok tt
  /\ fst (execute (sample_env None (Returned 7)) ["make"] false sample_world)
     = Raise (Fail (Some "Child returned: 7"))
  /\ fst (execute (sample_env None (Returned (-9))) ["make"] false sample_world)
     = Raise (Fail (Some "Child was terminated by signal: 9"))
  /\ fst (execute (sample_env None (LaunchError 2 "No such file or directory"))
            ["make"] false sample_world)
     = Raise (Fail (Some "Execution failed: 2 / No such file or directory")).
Proof.
  split; [| split; [| split]].
  - apply (execute_outcomes (sample_env None (Returned 0))). reflexivity.
  - destruct (execute_outcomes (sample_env None (Returned 7)) ["make"] false
                sample_world) as (_ & Hpos & _).
    exact (Hpos 7%Z eq_refl eq_refl).
  - destruct (execute_outcomes (sample_env None (Returned (-9))) ["make"]
                false sample_world) as (_ & _ & Hsig & _).
    exact (Hsig 9%Z eq_refl eq_refl).
  - destruct (execute_outcomes
                (sample_env None (LaunchError 2 "No such file or directory"))
                ["make"] false sample_world) as (_ & _ & _ & Herr & _).
    exact (Herr 2%Z "No such file or directory" eq_refl).
Defined.

(** ** The configure command *)

Lemma get_build_flags_cases (b : Builder.t) :
  exists rest,
    Builder.get_build_flags b = "-s USE_PTHREADS=0 " ++ rest.
Proof.
  unfold Builder.get_build_flags.
  destruct (Args.build_wasm (Builder.options b)),
    (Args.disable_wasm (Builder.options b)),
    (Args.enable_exception (Builder.options b)); eexists; reflexivity.
Qed.

Lemma get_build_flags_truthy (b : Builder.t) :
  Str.truthy (Builder.get_build_flags b) = true.
Proof.
  destruct (get_build_flags_cases b) as (rest & ->). reflexivity.
Qed.

(** The command, with the guard [if flags:] resolved. *)
Lemma get_cmake_cmd_unfold (b : Builder.t) :
  Builder.get_cmake_cmd b =
  (["cmake"; "-DCMAKE_BUILD_TYPE=Release";
    ("-DCMAKE_TOOLCHAIN_FILE='" ++ Builder.get_toolchain_file b ++ "'")%string]
   ++ cmake_toggles (Builder.get_cmake_cmd b)
   ++ [if Args.build_doc (Builder.options b)
       then "-DBUILD_DOCS=ON" else "-DBUILD_DOCS=OFF"]
   ++ [("-DCMAKE_C_FLAGS='" ++ Builder.get_build_flags b ++ "'")%string;
       ("-DCMAKE_CXX_FLAGS='" ++ Builder.get_build_flags b ++ "'")%string])%list.
Proof.
  unfold cmake_toggles, Builder.get_cmake_cmd.
  rewrite get_build_flags_truthy.
  destruct (Args.build_doc (Builder.options b)); reflexivity.
Qed.

Lemma cmake_toggles_sample (b : Builder.t) :
  cmake_toggles (Builder.get_cmake_cmd b)
  = cmake_toggles (Builder.get_cmake_cmd (sample_builder false false)).
Proof.
  unfold cmake_toggles, Builder.get_cmake_cmd at 1.
  rewrite get_build_flags_truthy.
  destruct (Args.build_doc (Builder.options b)); vm_compute; reflexivity.
Qed.

Lemma cmake_toggles_fixed (b b' : Builder.t) :
  cmake_toggles (Builder.get_cmake_cmd b)
  = cmake_toggles (Builder.get_cmake_cmd b').
Proof.
  now rewrite (cmake_toggles_sample b), (cmake_toggles_sample b').
Qed.

(** C10.  Whatever the options, [get_build_flags] returns a string that
    begins with "-s USE_PTHREADS=0 " and is therefore not empty, so the guard
    [if flags:] of [get_cmake_cmd] is always taken: the command always ends
    with the CMAKE_C_FLAGS and CMAKE_CXX_FLAGS arguments built from it. *)
Theorem get_build_flags_never_empty (b : Builder.t) :
  let flags := Builder.get_build_flags b in
  Str.startswith flags "-s USE_PTHREADS=0 " = true
  /\ flags <> EmptyString
  /\ Str.truthy flags = true
  /\ exists front,
       Builder.get_cmake_cmd b =
       (front ++ [("-DCMAKE_C_FLAGS='" ++ flags ++ "'")%string;
                  ("-DCMAKE_CXX_FLAGS='" ++ flags ++ "'")%string])%list
       /\ length front = 64.
Proof.
  cbv zeta. repeat split.
  - destruct (get_build_flags_cases b) as (rest & ->). reflexivity.
  - destruct (get_build_flags_cases b) as (rest & ->). discriminate.
  - apply get_build_flags_truthy.
  - rewrite get_cmake_cmd_unfold.
    eexists. split.
    + rewrite !app_assoc. reflexivity.
    + unfold cmake_toggles, Builder.get_cmake_cmd.
      rewrite get_build_flags_truthy.
      destruct (Args.build_doc (Builder.options b)); reflexivity.
Qed.

(** C3 (amended).  The configure command is a function of the builder: the
    words "cmake" and "-DCMAKE_BUILD_TYPE=Release", the toolchain-file flag
    for [<emscripten_dir>/cmake/Modules/Platform/Emscripten.cmake], sixty
    toggles that are the same for every option record, the docs toggle, which
    is ON exactly when [--build_doc] is given, and the two compiler-flag
    arguments.  The toggles BUILD_EXAMPLES, BUILD_TESTS and BUILD_PERF_TESTS
    are among the sixty and are OFF whether or not [--build_test] is given:
    the command does not depend on that option. *)
Theorem get_cmake_cmd_shape (b : Builder.t) :
  let cmd := Builder.get_cmake_cmd b in
  cmd =
    (["cmake"; "-DCMAKE_BUILD_TYPE=Release";
      ("-DCMAKE_TOOLCHAIN_FILE='"
       ++ Posixpath.join (Builder.emscripten_dir b)
            ["cmake"; "Modules"; "Platform"; "Emscripten.cmake"]
       ++ "'")%string]
     ++ cmake_toggles cmd
     ++ [if Args.build_doc (Builder.options b)
         then "-DBUILD_DOCS=ON" else "-DBUILD_DOCS=OFF"]
     ++ [("-DCMAKE_C_FLAGS='" ++ Builder.get_build_flags b ++ "'")%string;
         ("-DCMAKE_CXX_FLAGS='" ++ Builder.get_build_flags b ++ "'")%string])%list
  /\ (forall b', cmake_toggles (Builder.get_cmake_cmd b') = cmake_toggles cmd)
  /\ In "-DBUILD_EXAMPLES=OFF" (cmake_toggles cmd)
  /\ In "-DBUILD_TESTS=OFF" (cmake_toggles cmd)
  /\ In "-DBUILD_PERF_TESTS=OFF" (cmake_toggles cmd)
  /\ ~ In "-DBUILD_DOCS=ON" (cmake_toggles cmd)
  /\ ~ In "-DBUILD_DOCS=OFF" (cmake_toggles cmd)
  /\ (forall v, Builder.get_cmake_cmd (with_build_test v b) = cmd).
Proof.
  cbv zeta.
  split; [apply get_cmake_cmd_unfold |].
  split; [intros b'; apply cmake_toggles_fixed |].
  rewrite (cmake_toggles_fixed b (sample_builder true false)).
  repeat split.
  - apply mem_In. reflexivity.
  - apply mem_In. reflexivity.
  - apply mem_In. reflexivity.
  - rewrite <- mem_In. discriminate.
  - rewrite <- mem_In. discriminate.
Qed.

(** C3, as stated, fails: with [--build_test] given, the toggles that
    disable the tests are still passed. *)
Lemma get_cmake_cmd_keeps_tests_off :
  Args.build_test (Builder.options (sample_builder true false)) = true
  /\ In "-DBUILD_TESTS=OFF" (Builder.get_cmake_cmd (sample_builder true false))
  /\ In "-DBUILD_PERF_TESTS=OFF"
       (Builder.get_cmake_cmd (sample_builder true false)).
Proof.
  split; [reflexivity |].
  split; apply mem_In; reflexivity.
Qed.

(** ** Paths *)

Section PathFacts.
Import Str Posixpath.

Lemma append_nil_r (s : string) : s ++ EmptyString = s.
Proof. induction s; simpl; congruence. Qed.

Lemma append_assoc (a b c : string) : (a ++ b) ++ c = a ++ (b ++ c).
Proof. induction a; simpl; congruence. Qed.

Lemma split_sep_not_nil (s : string) : split_sep s <> [].
Proof.
  induction s as [| c s IH]; simpl; [discriminate |].
  destruct (Ascii.eqb c "/"); [discriminate |].
  destruct (split_sep s); discriminate.
Qed.

Lemma split_sep_app_sep (a b : string) :
  split_sep (a ++ String "/" b) = (split_sep a ++ split_sep b)%list.
Proof.
  induction a as [| c a IH]; simpl; [reflexivity |].
  destruct (Ascii.eqb c "/"); rewrite IH; [reflexivity |].
  pose proof (split_sep_not_nil a) as Hne.
  destruct (split_sep a); [contradiction | reflexivity].
Qed.

Lemma split_sep_name (c : string) :
  has_sep c = false -> split_sep c = [c].
Proof.
  induction c as [| a c IH]; simpl; [reflexivity |].
  destruct (Ascii.eqb a "/"); simpl; [discriminate |].
  intros H. now rewrite (IH H).
Qed.

Lemma split_sep_seps (k : nat) : split_sep (seps k) = repeat EmptyString (S k).
Proof. induction k as [| k IH]; simpl; [reflexivity | now rewrite IH]. Qed.

Lemma split_sep_app_seps (s : string) (k : nat) :
  split_sep (s ++ seps k) = (split_sep s ++ repeat EmptyString k)%list.
Proof.
  destruct k as [| k]; simpl.
  - now rewrite append_nil_r, app_nil_r.
  - now rewrite split_sep_app_sep, split_sep_seps.
Qed.

Lemma valid_name_inv (c : string) :
  valid_name c = true ->
  (c =? EmptyString) = false /\ (c =? ".") = false /\ (c =? "..") = false
  /\ has_sep c = false.
Proof.
  unfold valid_name. intros H.
  repeat (apply andb_prop in H; destruct H as [H ?]).
  repeat match goal with
         | H : negb _ = true |- _ => apply negb_true_iff in H
         end.
  auto.
Qed.

Lemma valid_names_no_sep (cs : list string) :
  Forall (fun c => valid_name c = true) cs ->
  Forall (fun c => has_sep c = false) cs.
Proof.
  intros H. eapply Forall_impl; [| exact H].
  intros c Hc. now apply valid_name_inv in Hc.
Qed.

Lemma split_sep_join (cs : list string) :
  cs <> [] -> Forall (fun c => has_sep c = false) cs ->
  split_sep (join_sep cs) = cs.
Proof.
  induction cs as [| c cs IH]; [contradiction |].
  intros _ H. inversion H as [| ? ? Hc Hcs]; subst.
  destruct cs as [| c' cs'].
  - simpl. now apply split_sep_name.
  - change (join_sep (c :: c' :: cs'))
      with (c ++ String "/" (join_sep (c' :: cs'))).
    rewrite split_sep_app_sep, split_sep_name by assumption.
    rewrite IH by (assumption || discriminate). reflexivity.
Qed.

Lemma join_sep_app (cs rs : list string) :
  cs <> [] -> rs <> [] ->
  join_sep (cs ++ rs) = join_sep cs ++ "/" ++ join_sep rs.
Proof.
  induction cs as [| c cs IH]; [contradiction |].
  intros _ Hrs. destruct cs as [| c' cs'].
  - destruct rs; [contradiction | reflexivity].
  - change (join_sep ((c :: c' :: cs') ++ rs))
      with (c ++ String "/" (join_sep ((c' :: cs') ++ rs))).
    rewrite IH by (assumption || discriminate).
    change (join_sep (c :: c' :: cs'))
      with (c ++ String "/" (join_sep (c' :: cs'))).
    simpl. rewrite append_assoc. reflexivity.
Qed.

(** The loop of [normpath] keeps names and skips empty components. *)
Lemma normpath_fold_names (i : nat) (cs acc : list string) :
  Forall (fun c => valid_name c = true) cs ->
  fold_left (normpath_step i) cs acc = (acc ++ cs)%list.
Proof.
  intros H. revert acc.
  induction H as [| c cs Hc Hcs IH]; intros acc; simpl.
  - now rewrite app_nil_r.
  - rewrite IH. unfold normpath_step.
    apply valid_name_inv in Hc. destruct Hc as (-> & -> & -> & _).
    simpl. now rewrite <- app_assoc.
Qed.

Lemma normpath_fold_empties (i k : nat) (acc : list string) :
  fold_left (normpath_step i) (repeat EmptyString k) acc = acc.
Proof. induction k as [| k IH]; simpl; [reflexivity | exact IH]. Qed.

Lemma valid_name_head (c : string) :
  valid_name c = true ->
  exists a t, c = String a t /\ Ascii.eqb a "/" = false.
Proof.
  intros H. apply valid_name_inv in H. destruct H as (He & _ & _ & Hs).
  destruct c as [| a t]; [discriminate |].
  exists a, t. split; [reflexivity |].
  simpl in Hs. now apply orb_false_elim in Hs.
Qed.

Lemma join_sep_head (c : string) (cs : list string) (a : ascii) (t : string) :
  c = String a t -> exists t', join_sep (c :: cs) = String a t'.
Proof.
  intros ->. destruct cs; simpl; eexists; reflexivity.
Qed.

Lemma names_head (ds : list string) :
  ds <> [] -> Forall (fun c => valid_name c = true) ds ->
  exists a t, join_sep ds = String a t /\ Ascii.eqb a "/" = false.
Proof.
  intros Hne H. destruct ds as [| c cs]; [contradiction |].
  inversion H as [| ? ? Hc _]; subst.
  destruct (valid_name_head c Hc) as (a & t & Hct & Ha).
  destruct (join_sep_head c cs a t Hct) as (t' & ->).
  now exists a, t'.
Qed.

Lemma endswith_sep_no_sep (s : string) :
  has_sep s = false -> endswith_sep s = false.
Proof.
  induction s as [| a s IH]; simpl; [reflexivity |].
  intros H. apply orb_false_elim in H. destruct H as [Ha Hs].
  destruct s; [exact Ha | now apply IH].
Qed.

Lemma endswith_sep_app (a b : string) :
  b <> EmptyString -> endswith_sep (a ++ b) = endswith_sep b.
Proof.
  intros Hb. induction a as [| x a IH]; [reflexivity |].
  simpl. destruct (a ++ b) eqn:Hab; [| exact IH].
  destruct a; simpl in Hab; [contradiction | discriminate].
Qed.

Lemma endswith_sep_names (cs : list string) :
  cs <> [] -> Forall (fun c => valid_name c = true) cs ->
  endswith_sep (abs_of cs) = false.
Proof.
  intros Hne H. unfold abs_of.
  destruct (names_head cs Hne H) as (a & t & Hj & _).
  rewrite endswith_sep_app by (rewrite Hj; discriminate).
  clear a t Hj.
  induction cs as [| c cs IH]; [contradiction |].
  inversion H as [| ? ? Hc Hcs]; subst.
  destruct cs as [| c' cs'].
  - simpl. apply endswith_sep_no_sep. now apply valid_name_inv in Hc.
  - change (join_sep (c :: c' :: cs'))
      with (c ++ String "/" (join_sep (c' :: cs'))).
    rewrite endswith_sep_app by discriminate.
    destruct (names_head (c' :: cs')) as (a & t & Hj & _);
      [discriminate | assumption |].
    change (String "/" (join_sep (c' :: cs')))
      with ("/" ++ join_sep (c' :: cs')).
    rewrite endswith_sep_app by (rewrite Hj; discriminate).
    apply IH; [discriminate | assumption].
Qed.

Lemma startswith_sep_head (s : string) (a : ascii) (t : string) :
  s = String a t -> Ascii.eqb a "/" = false -> startswith s "/" = false.
Proof.
  intros -> Ha.
  change (startswith (String a t) "/") with (Ascii.eqb "/" a && true).
  now rewrite Ascii.eqb_sym, Ha.
Qed.

Lemma initial_slashes_one (s : string) (a : ascii) (t : string) :
  s = String a t -> Ascii.eqb a "/" = false ->
  initial_slashes (String "/" s) = 1.
Proof.
  intros -> Ha. unfold initial_slashes.
  change (startswith (String "/" (String a t)) "/") with true.
  change (startswith (String "/" (String a t)) "//")
    with (Ascii.eqb "/" "/" && (Ascii.eqb "/" a && true)).
  now rewrite (Ascii.eqb_sym "/" a), Ha, andb_false_r.
Qed.

(** [normpath] of the normal spelling followed by separators. *)
Lemma normpath_abs_of (ds : list string) (k : nat) :
  ds <> [] -> Forall (fun c => valid_name c = true) ds ->
  normpath (abs_of ds ++ seps k) = abs_of ds.
Proof.
  intros Hne H.
  destruct (names_head ds Hne H) as (a & t & Hj & Ha).
  assert (HX : join_sep ds ++ seps k = String a (t ++ seps k))
    by (now rewrite Hj).
  change (abs_of ds ++ seps k) with (String "/" (join_sep ds ++ seps k)).
  unfold normpath.
  change (String "/" (join_sep ds ++ seps k) =? EmptyString) with false. cbv iota.
  rewrite (initial_slashes_one _ _ _ HX Ha).
  change (split_sep (String "/" (join_sep ds ++ seps k)))
    with (EmptyString :: split_sep (join_sep ds ++ seps k)).
  rewrite split_sep_app_seps, split_sep_join
    by first [assumption | apply valid_names_no_sep; assumption].
  change (fold_left (normpath_step 1) (EmptyString :: ds ++ repeat EmptyString k) [])
    with (fold_left (normpath_step 1) (ds ++ repeat EmptyString k) []).
  rewrite fold_left_app, (normpath_fold_names 1 ds []) by assumption.
  rewrite normpath_fold_empties.
  reflexivity.
Qed.

Lemma abspath_absolute (c : string) (ds : list string) (k : nat) :
  ds <> [] -> Forall (fun c => valid_name c = true) ds ->
  abspath c (abs_of ds ++ seps k) = abs_of ds.
Proof.
  intros Hne H. unfold abspath.
  change (isabs (abs_of ds ++ seps k)) with true. cbv iota.
  now apply normpath_abs_of.
Qed.

Lemma abspath_relative (cs rs : list string) (k : nat) :
  Forall (fun c => valid_name c = true) cs ->
  rs <> [] -> Forall (fun c => valid_name c = true) rs ->
  abspath (abs_of cs) (join_sep rs ++ seps k) = abs_of (cs ++ rs).
Proof.
  intros Hcs Hne Hrs.
  destruct (names_head rs Hne Hrs) as (a & t & Hj & Ha).
  assert (Hrel : startswith (join_sep rs ++ seps k) "/" = false).
  { apply (startswith_sep_head _ a (t ++ seps k)); [now rewrite Hj | exact Ha]. }
  unfold abspath, isabs, join. rewrite Hrel. simpl fold_left.
  unfold join2. rewrite Hrel.
  destruct cs as [| c cs'].
  - change (abs_of [] ++ join_sep rs ++ seps k)
      with (abs_of rs ++ seps k).
    simpl. now apply normpath_abs_of.
  - rewrite endswith_sep_names by (assumption || discriminate).
    change (negb (truthy (abs_of (c :: cs'))) || false) with false.
    cbv iota.
    replace (abs_of (c :: cs') ++ "/" ++ join_sep rs ++ seps k)
      with (abs_of ((c :: cs') ++ rs) ++ seps k).
    + apply normpath_abs_of.
      * discriminate.
      * apply Forall_app. now split.
    + unfold abs_of. rewrite join_sep_app by (assumption || discriminate).
      now rewrite !append_assoc.
Qed.

(** The root written with separators only: all of them collapse to one,
    unless there are exactly two. *)
Lemma normpath_root (k : nat) :
  k <> 1 -> normpath (abs_of [] ++ seps k) = abs_of [].
Proof.
  intros Hk. destruct k as [| [| k]]; [reflexivity | contradiction |].
  change (abs_of [] ++ seps (S (S k))) with (seps (S (S (S k)))).
  unfold normpath.
  change (seps (S (S (S k))) =? EmptyString) with false. cbv iota.
  change (initial_slashes (seps (S (S (S k))))) with 1.
  rewrite split_sep_seps, normpath_fold_empties. reflexivity.
Qed.

Lemma filter_names (cs : list string) :
  Forall (fun c => valid_name c = true) cs ->
  filter (fun c => negb (String.eqb c EmptyString || String.eqb c ".")) cs = cs.
Proof.
  induction 1 as [| c cs Hc _ IH]; [reflexivity |].
  simpl. apply valid_name_inv in Hc. destruct Hc as (-> & -> & _).
  simpl. now rewrite IH.
Qed.

Lemma components_abs_of (ds : list string) :
  Forall (fun c => valid_name c = true) ds ->
  components (abs_of ds) = ds.
Proof.
  intros H. destruct ds as [| d ds']; [reflexivity |].
  unfold components.
  change (abs_of (d :: ds')) with (String "/" (join_sep (d :: ds'))).
  change (split_sep (String "/" (join_sep (d :: ds'))))
    with (EmptyString :: split_sep (join_sep (d :: ds'))).
  rewrite split_sep_join
    by first [discriminate | apply valid_names_no_sep; assumption].
  change (filter (fun c => negb ((c =? EmptyString) || (c =? "."))) (EmptyString :: d :: ds'))
    with (filter (fun c => negb ((c =? EmptyString) || (c =? "."))) (d :: ds')).
  now apply filter_names.
Qed.

Lemma key_abs_of (c : string) (ds : list string) :
  Forall (fun c => valid_name c = true) ds ->
  Os.key c (abs_of ds) = ds.
Proof.
  intros H. unfold Os.key.
  change (isabs (abs_of ds)) with true. cbv iota.
  now apply components_abs_of.
Qed.

(** *** Any absolute path *)

Lemma split_sep_no_sep (s : string) :
  Forall (fun c => has_sep c = false) (split_sep s).
Proof.
  induction s as [| a s IH]; simpl; [now repeat constructor |].
  destruct (Ascii.eqb a "/") eqn:Ha; [now constructor |].
  destruct (split_sep s) as [| x xs];
    [constructor; [simpl; now rewrite Ha | constructor] |].
  inversion IH as [| ? ? Hx Hxs]; subst.
  constructor; [| assumption]. simpl. now rewrite Ha.
Qed.

Lemma valid_removelast (acc : list string) :
  Forall (fun c => valid_name c = true) acc ->
  Forall (fun c => valid_name c = true) (removelast acc).
Proof.
  induction 1 as [| c cs Hc Hcs IH]; [constructor |].
  simpl. destruct cs; [constructor | now constructor].
Qed.

Lemma valid_last_not_dotdot (acc : list string) :
  Forall (fun c => valid_name c = true) acc ->
  last_is_dotdot acc = false.
Proof.
  unfold last_is_dotdot. intros H.
  destruct acc as [| c cs]; [reflexivity |].
  assert (Hl : valid_name (last (c :: cs) EmptyString) = true).
  { rewrite Forall_forall in H. apply H.
    rewrite (app_removelast_last EmptyString (l := c :: cs)) at 2 by discriminate.
    apply in_or_app. right. now left. }
  apply valid_name_inv in Hl. destruct Hl as (_ & _ & -> & _). reflexivity.
Qed.

Lemma normpath_step_valid (i : nat) (acc : list string) (c : string) :
  i <> 0 ->
  Forall (fun c => valid_name c = true) acc ->
  has_sep c = false ->
  Forall (fun c => valid_name c = true) (normpath_step i acc c).
Proof.
  intros Hi Hacc Hc. unfold normpath_step.
  destruct (String.eqb c EmptyString) eqn:He; [assumption |].
  destruct (String.eqb c ".") eqn:Hd; [assumption |].
  cbn [orb].
  destruct (String.eqb c "..") eqn:Hdd; cbn [negb orb].
  - rewrite (valid_last_not_dotdot acc Hacc).
    apply Nat.eqb_neq in Hi. rewrite Hi. cbn [andb orb].
    destruct (negb (is_nil acc)); [now apply valid_removelast | assumption].
  - apply Forall_app. split; [assumption |].
    constructor; [| constructor].
    unfold valid_name. now rewrite He, Hd, Hdd, Hc.
Qed.

Lemma normpath_fold_valid (i : nat) (l acc : list string) :
  i <> 0 ->
  Forall (fun c => has_sep c = false) l ->
  Forall (fun c => valid_name c = true) acc ->
  Forall (fun c => valid_name c = true) (fold_left (normpath_step i) l acc).
Proof.
  intros Hi Hl. revert acc.
  induction Hl as [| c l Hc _ IH]; intros acc Hacc; [exact Hacc |].
  simpl. apply IH. now apply normpath_step_valid.
Qed.

(** [normpath] of an absolute path: one or two separators, then names. *)
Lemma normpath_absolute (s : string) :
  isabs s = true ->
  exists i comps,
    (i = 1 \/ i = 2)
    /\ Forall (fun c => valid_name c = true) comps
    /\ normpath s = seps i ++ join_sep comps.
Proof.
  intros Habs. unfold isabs in Habs.
  destruct s as [| a s]; [discriminate |].
  unfold normpath. change (String a s =? EmptyString) with false. cbv iota.
  assert (Hi : initial_slashes (String a s) = 1
               \/ initial_slashes (String a s) = 2).
  { unfold initial_slashes. rewrite Habs.
    destruct (_ && _); [now right | now left]. }
  set (i := initial_slashes (String a s)) in *.
  exists i, (fold_left (normpath_step i) (split_sep (String a s)) []).
  split; [exact Hi |]. split.
  - apply normpath_fold_valid;
      [destruct Hi as [-> | ->]; discriminate
      | apply split_sep_no_sep | constructor].
  - destruct Hi as [-> | ->]; reflexivity.
Qed.

Lemma components_normal (i : nat) (comps : list string) :
  i = 1 \/ i = 2 ->
  Forall (fun c => valid_name c = true) comps ->
  isabs (seps i ++ join_sep comps) = true
  /\ components (seps i ++ join_sep comps) = comps.
Proof.
  intros Hi H. split; [destruct Hi as [-> | ->]; reflexivity |].
  destruct comps as [| c cs].
  - destruct Hi as [-> | ->]; reflexivity.
  - unfold components.
    assert (Hs : split_sep (join_sep (c :: cs)) = c :: cs)
      by (apply split_sep_join;
          [discriminate | now apply valid_names_no_sep]).
    destruct Hi as [-> | ->].
    + change (split_sep (seps 1 ++ join_sep (c :: cs)))
        with (EmptyString :: split_sep (join_sep (c :: cs))).
      rewrite Hs. now apply (filter_names (c :: cs)).
    + change (split_sep (seps 2 ++ join_sep (c :: cs)))
        with (EmptyString :: EmptyString :: split_sep (join_sep (c :: cs))).
      rewrite Hs. now apply (filter_names (c :: cs)).
Qed.

(** Seen from a working directory in normal form, [abspath] of any string
    is an absolute path that the kernel reads as a list of names. *)
Lemma key_abspath (cs : list string) (c' d : string) :
  exists ks,
    Forall (fun c => valid_name c = true) ks
    /\ Os.key c' (abspath (abs_of cs) d) = ks.
Proof.
  assert (Habs : isabs (if isabs d then d else join (abs_of cs) [d]) = true).
  { destruct (isabs d) eqn:Hd; [exact Hd |].
    unfold isabs in *. unfold join. simpl fold_left. unfold join2.
    rewrite Hd. destruct (_ || _); reflexivity. }
  destruct (normpath_absolute _ Habs) as (i & comps & Hi & Hv & Hn).
  exists comps. split; [exact Hv |].
  unfold Os.key, abspath. rewrite Hn.
  destruct (components_normal i comps Hi Hv) as [-> ->]. reflexivity.
Qed.

(** *** Any spelling *)

(** On names, a step of [normpath] from an absolute start is a step of the
    kernel. *)
Lemma normpath_step_follow (i : nat) (acc : list string) (c : string) :
  i <> 0 ->
  Forall (fun c => valid_name c = true) acc ->
  normpath_step i acc c = follow acc c.
Proof.
  intros Hi Hacc. unfold normpath_step, follow.
  destruct (String.eqb c EmptyString || String.eqb c "."); [reflexivity |].
  destruct (String.eqb c ".."); cbn [negb orb]; [| reflexivity].
  rewrite (valid_last_not_dotdot acc Hacc).
  apply Nat.eqb_neq in Hi. rewrite Hi. cbn [andb orb].
  destruct acc; reflexivity.
Qed.

Lemma normpath_fold_follow (i : nat) (l acc : list string) :
  i <> 0 ->
  Forall (fun c => has_sep c = false) l ->
  Forall (fun c => valid_name c = true) acc ->
  fold_left (normpath_step i) l acc = fold_left follow l acc.
Proof.
  intros Hi Hl. revert acc.
  induction Hl as [| c l Hc _ IH]; intros acc Hacc; [reflexivity |].
  simpl. rewrite <- (normpath_step_follow i acc c Hi Hacc).
  apply IH. now apply normpath_step_valid.
Qed.

Lemma resolve_valid (cs : list string) (s : string) :
  Forall (fun c => valid_name c = true) cs ->
  Forall (fun c => valid_name c = true) (resolve cs s).
Proof.
  intros Hcs. unfold resolve.
  assert (Hstart : Forall (fun c => valid_name c = true)
                     (if isabs s then [] else cs))
    by (destruct (isabs s); [constructor | assumption]).
  rewrite <- (normpath_fold_follow 1)
    by (discriminate || apply split_sep_no_sep || assumption).
  apply normpath_fold_valid;
    [discriminate | apply split_sep_no_sep | assumption].
Qed.

Lemma leading_cases (s : string) : leading s = 1 \/ leading s = 2.
Proof. unfold leading. destruct (_ && _); [now right | now left]. Qed.

Lemma startswith_two (s : string) :
  startswith s "/" = false -> startswith s "//" = false.
Proof.
  destruct s as [| b s']; [reflexivity |]. simpl.
  rewrite andb_true_r. now intros ->.
Qed.

Lemma leading_relative (s : string) : isabs s = false -> leading s = 1.
Proof.
  unfold isabs, leading. intros H. now rewrite (startswith_two s H).
Qed.

(** What [abspath] makes of any spelling, seen from a working directory in
    normal form: the directory the spelling leads to, after one separator,
    or after two when the spelling begins with exactly two. *)
Lemma abspath_resolve (cs : list string) (s : string) :
  Forall (fun c => valid_name c = true) cs ->
  abspath (abs_of cs) s = seps (leading s) ++ join_sep (resolve cs s).
Proof.
  intros Hcs. unfold abspath, resolve. destruct (isabs s) eqn:Habs.
  - unfold normpath. destruct s as [| a s']; [discriminate |].
    change (String a s' =? EmptyString) with false. cbv iota.
    assert (Hi : initial_slashes (String a s') = leading (String a s')).
    { unfold initial_slashes, leading. unfold isabs in Habs.
      now rewrite Habs. }
    rewrite Hi.
    rewrite normpath_fold_follow;
      [| destruct (leading_cases (String a s')) as [-> | ->]; discriminate
       | apply split_sep_no_sep | constructor].
    destruct (leading_cases (String a s')) as [-> | ->]; reflexivity.
  - rewrite (leading_relative s Habs).
    unfold join. cbn [fold_left]. unfold join2.
    unfold isabs in Habs. rewrite Habs.
    destruct cs as [| c cs'].
    + change (abs_of []) with "/".
      change (if negb (truthy "/") || endswith_sep "/"
              then "/" ++ s else "/" ++ "/" ++ s)
        with (String "/" s).
      unfold normpath.
      change (String "/" s =? EmptyString) with false. cbv iota.
      assert (H1 : initial_slashes (String "/" s) = 1).
      { unfold initial_slashes.
        change (startswith (String "/" s) "/") with true.
        change (startswith (String "/" s) "//") with (startswith s "/").
        now rewrite Habs. }
      rewrite H1.
      change (split_sep (String "/" s)) with (EmptyString :: split_sep s).
      change (fold_left (normpath_step 1) (EmptyString :: split_sep s) [])
        with (fold_left (normpath_step 1) (split_sep s) []).
      rewrite normpath_fold_follow
        by (discriminate || apply split_sep_no_sep || constructor).
      reflexivity.
    + assert (Hne : c :: cs' <> []) by discriminate.
      rewrite (endswith_sep_names (c :: cs') Hne Hcs).
      change (truthy (abs_of (c :: cs'))) with true. cbn [negb orb].
      destruct (names_head (c :: cs') Hne Hcs) as (a & t & Hj & Ha).
      change (abs_of (c :: cs') ++ "/" ++ s)
        with (String "/" (join_sep (c :: cs') ++ String "/" s)).
      unfold normpath.
      change (String "/" (join_sep (c :: cs') ++ String "/" s)
              =? EmptyString) with false. cbv iota.
      assert (Hj2 : join_sep (c :: cs') ++ String "/" s
                    = String a (t ++ String "/" s)) by now rewrite Hj.
      rewrite (initial_slashes_one _ a _ Hj2 Ha).
      change (split_sep (String "/" (join_sep (c :: cs') ++ String "/" s)))
        with (EmptyString
                :: split_sep (join_sep (c :: cs') ++ String "/" s)).
      rewrite split_sep_app_sep, split_sep_join
        by (assumption || now apply valid_names_no_sep).
      change (fold_left (normpath_step 1)
                (EmptyString :: (c :: cs') ++ split_sep s) [])
        with (fold_left (normpath_step 1) ((c :: cs') ++ split_sep s) []).
      rewrite fold_left_app, (normpath_fold_names 1 (c :: cs') [])
        by assumption.
      cbn [app].
      rewrite normpath_fold_follow
        by (discriminate || apply split_sep_no_sep || assumption).
      reflexivity.
Qed.

Lemma key_resolve (c : string) (cs : list string) (s : string) :
  Forall (fun c => valid_name c = true) cs ->
  Os.key c (seps (leading s) ++ join_sep (resolve cs s)) = resolve cs s.
Proof.
  intros Hcs. unfold Os.key.
  destruct (components_normal (leading s) (resolve cs s)
              (leading_cases s) (resolve_valid cs s Hcs)) as [-> ->].
  reflexivity.
Qed.

Lemma string_not_longer (a : ascii) (s : string) : s <> String a s.
Proof.
  revert a. induction s as [| b s IH]; intros a; [discriminate |].
  intros H. injection H as _ H. exact (IH b H).
Qed.

End PathFacts.

(** ** The file-system tree *)

Section TreeFacts.
Import FS.

Lemma assoc_update_eq (x : string) (c c' : node) (es : list (string * node)) :
  assoc x es = Some c -> assoc x (update x c' es) = Some c'.
Proof.
  induction es as [| [y d] es IH]; simpl; [discriminate |].
  destruct (String.eqb y x) eqn:Hyx; simpl; rewrite Hyx; auto.
Qed.

Lemma assoc_update_ne (x y : string) (c' : node) (es : list (string * node)) :
  String.eqb x y = false -> assoc y (update x c' es) = assoc y es.
Proof.
  intros Hxy. induction es as [| [z d] es IH]; simpl; [reflexivity |].
  destruct (String.eqb z x) eqn:Hzx; simpl.
  - apply String.eqb_eq in Hzx. subst z. now rewrite Hxy.
  - now rewrite IH.
Qed.

Lemma assoc_remove_eq (x : string) (es : list (string * node)) :
  assoc x (remove_entry x es) = None.
Proof.
  induction es as [| [y d] es IH]; simpl; [reflexivity |].
  destruct (String.eqb y x) eqn:Hyx; simpl; [exact IH |].
  now rewrite Hyx.
Qed.

Lemma assoc_remove_ne (x y : string) (es : list (string * node)) :
  String.eqb x y = false -> assoc y (remove_entry x es) = assoc y es.
Proof.
  intros Hxy. induction es as [| [z d] es IH]; simpl; [reflexivity |].
  destruct (String.eqb z x) eqn:Hzx; simpl.
  - apply String.eqb_eq in Hzx. subst z. now rewrite Hxy.
  - now rewrite IH.
Qed.

Lemma assoc_app_new (x : string) (c : node) (es : list (string * node)) :
  assoc x es = None -> assoc x (es ++ [(x, c)]) = Some c.
Proof.
  induction es as [| [y d] es IH]; simpl.
  - now rewrite String.eqb_refl.
  - destruct (String.eqb y x); [discriminate | exact IH].
Qed.

Lemma assoc_app_old (x y : string) (c d : node) (es : list (string * node)) :
  assoc y es = Some d -> assoc y (es ++ [(x, c)]) = Some d.
Proof.
  induction es as [| [z e] es IH]; simpl; [discriminate |].
  destruct (String.eqb z y); auto.
Qed.

Lemma stat_nil (n : node) : stat n [] = Some (kind_of n).
Proof. reflexivity. Qed.

Lemma stat_file_cons (y : string) (q : list string) :
  stat File (y :: q) = None.
Proof. reflexivity. Qed.

Lemma stat_dir_cons (es : list (string * node)) (y : string)
    (q : list string) :
  stat (Dir es) (y :: q) =
  match assoc y es with Some c => stat c q | None => None end.
Proof. unfold stat. simpl. destruct (assoc y es); reflexivity. Qed.

(** Below something that does not exist, nothing exists. *)
Lemma stat_below_absent (p r : list string) (n : node) :
  stat n p = None -> stat n (p ++ r) = None.
Proof.
  revert n. induction p as [| x p IH]; intros n; [discriminate |].
  destruct n as [| es]; [reflexivity |].
  simpl app. rewrite !stat_dir_cons.
  destruct (assoc x es); [apply IH | reflexivity].
Qed.

(** Below a regular file, nothing exists. *)
Lemma stat_below_file (p r : list string) (n : node) :
  stat n p = Some IsFile -> r <> [] -> stat n (p ++ r) = None.
Proof.
  revert n. induction p as [| x p IH]; intros n H Hr.
  - destruct n; [| discriminate]. destruct r; [contradiction | reflexivity].
  - destruct n as [| es]; [discriminate |].
    simpl app. rewrite stat_dir_cons in *.
    destruct (assoc x es); [now apply IH | discriminate].
Qed.

Lemma is_prefix_app (p q : list string) :
  is_prefix p q = true <-> exists r, q = (p ++ r)%list.
Proof.
  revert q. induction p as [| x p IH]; intros q; simpl.
  - split; [intros _; now exists q | reflexivity].
  - destruct q as [| y q].
    + split; [discriminate | intros (r & Hr); discriminate].
    + rewrite andb_true_iff, String.eqb_eq, IH. split.
      * intros (-> & r & ->). now exists r.
      * intros (r & Hr). injection Hr as -> ->. split; [reflexivity |].
        now exists r.
Qed.

(** [unlink] removes the object at [p] with all that is below it, and
    leaves every other path as it was. *)
Lemma stat_unlink (p : list string) :
  forall (n : node) (q : list string),
    p <> [] ->
    stat (unlink p n) q = if is_prefix p q then None else stat n q.
Proof.
  induction p as [| x p IH]; intros n q Hne; [contradiction |].
  destruct n as [| es].
  - replace (unlink (x :: p) File) with File by (destruct p; reflexivity).
    destruct q as [| y q]; [reflexivity |].
    rewrite stat_file_cons. now destruct (is_prefix _ _).
  - destruct p as [| x2 p2].
    + change (unlink [x] (Dir es)) with (Dir (remove_entry x es)).
      destruct q as [| y q]; [reflexivity |].
      rewrite !stat_dir_cons. simpl is_prefix.
      destruct (String.eqb x y) eqn:Hxy; simpl.
      * apply String.eqb_eq in Hxy. subst y.
        now rewrite assoc_remove_eq.
      * now rewrite assoc_remove_ne.
    + change (unlink (x :: x2 :: p2) (Dir es))
        with (match assoc x es with
              | Some c => Dir (update x (unlink (x2 :: p2) c) es)
              | None => Dir es
              end).
      destruct (assoc x es) as [c |] eqn:Hx.
      * destruct q as [| y q]; [reflexivity |].
        rewrite !stat_dir_cons.
        change (is_prefix (x :: x2 :: p2) (y :: q))
          with (String.eqb x y && is_prefix (x2 :: p2) q).
        destruct (String.eqb x y) eqn:Hxy.
        -- apply String.eqb_eq in Hxy. subst y.
           rewrite (assoc_update_eq _ _ _ _ Hx), Hx.
           apply IH. discriminate.
        -- now rewrite assoc_update_ne.
      * destruct q as [| y q]; [reflexivity |].
        rewrite stat_dir_cons.
        change (is_prefix (x :: x2 :: p2) (y :: q))
          with (String.eqb x y && is_prefix (x2 :: p2) q).
        destruct (String.eqb x y) eqn:Hxy; [| reflexivity].
        apply String.eqb_eq in Hxy. subst y. rewrite Hx.
        now destruct (is_prefix _ _).
Qed.

Lemma stat_mkchain (p : list string) : stat (mkchain p) p = Some IsDir.
Proof.
  induction p as [| x p IH]; [reflexivity |].
  simpl mkchain. rewrite stat_dir_cons. simpl. now rewrite String.eqb_refl.
Qed.

(** After [mkdirs] the path is a directory. *)
Lemma mkdirs_isdir (p : list string) :
  forall n n', mkdirs p n = inr n' -> stat n' p = Some IsDir.
Proof.
  induction p as [| x p IH]; intros n n' H.
  - destruct n; discriminate.
  - destruct n as [| es]; [discriminate |]. simpl in H.
    destruct (assoc x es) as [c |] eqn:Hx.
    + destruct (mkdirs p c) as [e | c'] eqn:Hc; [discriminate |].
      injection H as <-. rewrite stat_dir_cons.
      rewrite (assoc_update_eq _ _ _ _ Hx). now apply (IH c).
    + injection H as <-. rewrite stat_dir_cons.
      rewrite (assoc_app_new _ _ _ Hx). apply stat_mkchain.
Qed.

(** [mkdirs] keeps what exists. *)
Lemma mkdirs_keeps (p : list string) :
  forall n n' q k,
    mkdirs p n = inr n' -> stat n q = Some k -> stat n' q = Some k.
Proof.
  induction p as [| x p IH]; intros n n' q k H Hq.
  - destruct n; discriminate.
  - destruct n as [| es]; [discriminate |]. simpl in H.
    destruct q as [| y q]; [destruct (assoc x es) as [c |];
      [destruct (mkdirs p c); [discriminate |] |];
      injection H as <-; exact Hq |].
    rewrite stat_dir_cons in Hq.
    destruct (assoc y es) as [d |] eqn:Hy; [| discriminate].
    destruct (assoc x es) as [c |] eqn:Hx.
    + destruct (mkdirs p c) as [e | c'] eqn:Hc; [discriminate |].
      injection H as <-. rewrite stat_dir_cons.
      destruct (String.eqb x y) eqn:Hxy.
      * apply String.eqb_eq in Hxy. subst y.
        rewrite (assoc_update_eq _ _ _ _ Hx).
        rewrite Hx in Hy. injection Hy as ->. now apply (IH d).
      * now rewrite assoc_update_ne, Hy.
    + injection H as <-. rewrite stat_dir_cons.
      now rewrite (assoc_app_old _ _ _ _ _ Hy).
Qed.

(** What [file_in_the_way] computes. *)
Lemma file_in_the_way_iff (p : list string) :
  forall n,
    file_in_the_way n p = true
    <-> exists q r, p = (q ++ r)%list /\ stat n q = Some IsFile.
Proof.
  induction p as [| x p IH]; intros n.
  - destruct n as [| es]; simpl.
    + split; [intros _; now exists [], [] | reflexivity].
    + split; [discriminate |].
      intros (q & r & Hp & Hq). symmetry in Hp.
      apply app_eq_nil in Hp. destruct Hp as [-> _]. discriminate.
  - destruct n as [| es]; simpl.
    + split; [intros _; now exists [], (x :: p) | reflexivity].
    + split.
      * destruct (assoc x es) as [c |] eqn:Hx; [| discriminate].
        intros H. apply IH in H. destruct H as (q & r & -> & Hq).
        exists (x :: q), r. split; [reflexivity |].
        now rewrite stat_dir_cons, Hx.
      * intros (q & r & Hp & Hq).
        destruct q as [| y q]; [discriminate |].
        injection Hp as <- ->. rewrite stat_dir_cons in Hq.
        destruct (assoc x es) as [c |]; [| discriminate].
        apply IH. now exists q, r.
Qed.

(** [mkdirs] on a path that does not exist succeeds unless a regular file
    is in the way, and fails if one is. *)
Lemma mkdirs_succeeds (p : list string) :
  forall n,
    stat n p = None -> file_in_the_way n p = false ->
    exists n', mkdirs p n = inr n'.
Proof.
  induction p as [| x p IH]; intros n Habs Hway; [discriminate |].
  destruct n as [| es]; [discriminate |].
  simpl in *. rewrite stat_dir_cons in Habs.
  destruct (assoc x es) as [c |] eqn:Hx; [| eexists; reflexivity].
  destruct (IH c Habs Hway) as (c' & ->). eexists; reflexivity.
Qed.


End TreeFacts.

(** ** check_dir *)

Lemma forallb_Forall (f : string -> bool) (l : list string) :
  forallb f l = true -> Forall (fun c => f c = true) l.
Proof.
  intros H. apply Forall_forall. now apply forallb_forall.
Qed.

(** The four ways through [check_dir] when nothing is to be cleaned. *)
Lemma check_dir_run (d : string) (create : bool) (w : world) :
  let a := Posixpath.abspath (cwd w) d in
  let p := Os.key (cwd w) a in
  let w1 := world_at_check d create false w in
  check_dir d create false w =
  match FS.stat (fs w) p with
  | Some FS.IsDir => (Ok a, w1)
  | Some FS.IsFile => (Raise (Fail (Some ("Not a directory: " ++ a))), w1)
  | None =>
      if create then
        match FS.mkdirs p (fs w) with
        | inr n => (Ok a, Os.set_fs n w1)
        | inl e => (Raise (OSError e (Os.strerror e)), w1)
        end
      else (Ok a, w1)
  end.
Proof.
  intros a p w1. subst w1.
  unfold check_dir, world_at_check, bind, Os.path_abspath, Os.path_exists,
    Os.path_isdir, Os.makedirs, Os.oserror, log_info, log_call, when, ret,
    raise, FS.exists_, FS.isdir.
  cbn [fst snd fs cwd log spawned]. fold a. fold p.
  destruct (FS.stat (fs w) p) as [[|] |] eqn:Hp;
    cbn [fst snd fs cwd log spawned]; fold a; fold p;
    rewrite ?Hp; cbn [negb fst snd]; try reflexivity.
  destruct create; [| reflexivity].
  cbn [fst snd fs cwd log spawned]. fold p.
  destruct (FS.mkdirs p (fs w)); reflexivity.
Qed.




(** C9 (amended).  From a working directory in normal form, and for every
    string [s] that leads to an existing directory, [check_dir] returns the
    names of that directory in normal spelling, after one separator, or
    after two when [s] begins with exactly two; nothing but the log
    changes.  So two spellings of one directory, absolute or relative, with
    [.], [..], repeated or trailing separators, get the same path if and
    only if both or neither begin with exactly two separators.  (A relative
    spelling needs the working directory to be there.) *)
Theorem check_dir_spellings (w : world) (cs : list string) (s : string) :
  cwd w = Posixpath.abs_of cs ->
  forallb Posixpath.valid_name cs = true ->
  Posixpath.isabs s = true \/ FS.isdir (fs w) cs = true ->
  FS.isdir (fs w) (resolve cs s) = true ->
  check_dir s false false w
  = (Ok (Str.seps (leading s) ++ Str.join_sep (resolve cs s)),
     world_at_check s false false w)
  /\ fs (world_at_check s false false w) = fs w
  /\ forall s',
       Posixpath.isabs s' = true \/ FS.isdir (fs w) cs = true ->
       resolve cs s' = resolve cs s ->
       (fst (check_dir s' false false w) = fst (check_dir s false false w)
        <-> leading s' = leading s).
Proof.
  intros Hcwd Hcs _ Hdir.
  apply forallb_Forall in Hcs.
  assert (Hrun : forall t,
            FS.isdir (fs w) (resolve cs t) = true ->
            check_dir t false false w
            = (Ok (Str.seps (leading t) ++ Str.join_sep (resolve cs t)),
               world_at_check t false false w)).
  { intros t Ht. rewrite check_dir_run. cbv zeta. rewrite Hcwd.
    rewrite (abspath_resolve cs t Hcs), key_resolve by assumption.
    unfold FS.isdir in Ht.
    destruct (FS.stat (fs w) (resolve cs t)) as [[|] |]; try discriminate.
    reflexivity. }
  split; [now apply Hrun |]. split; [reflexivity |].
  intros s' _ Hsame.
  rewrite (Hrun s) by assumption.
  rewrite (Hrun s') by now rewrite Hsame.
  rewrite Hsame. cbn [fst]. split.
  - intros H. injection H as H.
    destruct (leading_cases s') as [H1 | H1], (leading_cases s) as [H2 | H2];
      rewrite H1, H2 in *; try reflexivity; exfalso;
      injection H as H.
    + exact (string_not_longer _ _ H).
    + symmetry in H. exact (string_not_longer _ _ H).
  - now intros ->.
Qed.

Lemma check_dir_spellings_witness :
  fst (check_dir "/src/platforms///" false false build_world)
  = Ok "/src/platforms"
  /\ fst (check_dir "../src/./platforms" false false build_world)
     = Ok "/src/platforms"
  /\ fst (check_dir "." false false build_world) = Ok "/b"
  /\ fst (check_dir "//src/platforms" false false build_world)
     = Ok "//src/platforms"
  /\ (fst (check_dir "../src/platforms/" false false build_world)
      = fst (check_dir "///src//platforms" false false build_world)).
Proof.
  split; [| split; [| split; [| split]]].
  - destruct (check_dir_spellings build_world ["b"] "/src/platforms///")
      as (H & _); [reflexivity | reflexivity | now left | reflexivity |].
    now rewrite H.
  - destruct (check_dir_spellings build_world ["b"] "../src/./platforms")
      as (H & _); [reflexivity | reflexivity | now right | reflexivity |].
    now rewrite H.
  - destruct (check_dir_spellings build_world ["b"] ".")
      as (H & _); [reflexivity | reflexivity | now right | reflexivity |].
    now rewrite H.
  - destruct (check_dir_spellings build_world ["b"] "//src/platforms")
      as (H & _); [reflexivity | reflexivity | now left | reflexivity |].
    now rewrite H.
  - destruct (check_dir_spellings build_world ["b"] "///src//platforms")
      as (_ & _ & H); [reflexivity | reflexivity | now left | reflexivity |].
    apply (H "../src/platforms/"); [now right | reflexivity | reflexivity].
Defined.

(** C9, as stated, fails: [/] and [//] lead to the same existing directory,
    and so do [/src/platforms] and [//src/platforms], yet [check_dir]
    returns each as it is written, since [normpath] keeps exactly two
    leading separators. *)
Lemma check_dir_root_spellings :
  resolve [] "/" = []
  /\ resolve [] "//" = []
  /\ cwd sample_world = Posixpath.abs_of []
  /\ FS.isdir (fs sample_world) [] = true
  /\ fst (check_dir "/" false false sample_world) = Ok "/"
  /\ fst (check_dir "//" false false sample_world) = Ok "//"
  /\ fst (check_dir "/" false false sample_world)
     <> fst (check_dir "//" false false sample_world)
  /\ resolve [] "/src/platforms" = resolve [] "//src/platforms"
  /\ FS.isdir (fs sample_world) (resolve [] "//src/platforms") = true
  /\ fst (check_dir "/src/platforms" false false sample_world)
     = Ok "/src/platforms"
  /\ fst (check_dir "//src/platforms" false false sample_world)
     = Ok "//src/platforms".
Proof. repeat split. discriminate. Qed.

(** ** rm_one and clean_build_dir *)

(** [rm_one] on the name [t], written with [k] trailing separators, in the
    working directory with names [cs]: the entry and all that is below it
    disappear, every other path keeps its status, and no exception is
    raised whether or not the entry exists. *)
Lemma rm_one_entry (w : world) (cs : list string) (t : string) (k : nat) :
  cwd w = Posixpath.abs_of cs ->
  Forall (fun c => Posixpath.valid_name c = true) cs ->
  Posixpath.valid_name t = true ->
  exists w',
    rm_one (t ++ Str.seps k) w = (Ok tt, w')
    /\ cwd w' = cwd w
    /\ spawned w' = spawned w
    /\ forall q,
         FS.stat (fs w') q
         = if is_prefix (cs ++ [t]) q then None else FS.stat (fs w) q.
Proof.
  intros Hcwd Hcs Ht.
  assert (Hp : Forall (fun c => Posixpath.valid_name c = true) (cs ++ [t]))
    by (apply Forall_app; split; [assumption | now constructor]).
  assert (Ha : Posixpath.abspath (cwd w) (t ++ Str.seps k)
               = Posixpath.abs_of (cs ++ [t])).
  { rewrite Hcwd.
    apply (abspath_relative cs [t] k); [assumption | discriminate |].
    now constructor. }
  assert (Hne : (cs ++ [t])%list <> []) by (now destruct cs).
  unfold rm_one, bind, Os.path_abspath, Os.path_exists, Os.path_isdir,
    Os.path_isfile, Os.rmtree, Os.remove, log_info, log_call, ret,
    FS.exists_, FS.isdir, FS.isfile.
  cbn [fst snd fs cwd log spawned].
  rewrite Ha, key_abs_of by assumption.
  destruct (FS.stat (fs w) (cs ++ [t])) as [[|] |] eqn:Hst;
    repeat (progress (cbn [fst snd fs cwd log spawned];
                      rewrite ?key_abs_of by assumption; rewrite ?Hst)).
  - eexists. split; [reflexivity |]. cbn [fs cwd spawned Os.set_fs].
    repeat split. intros q. now apply stat_unlink.
  - destruct (cs ++ [t])%list as [| x l] eqn:Hl; [contradiction |].
    eexists. split; [reflexivity |]. cbn [fs cwd spawned Os.set_fs].
    repeat split. intros q. now apply stat_unlink.
  - eexists. split; [reflexivity |]. repeat split. intros q.
    destruct (is_prefix (cs ++ [t]) q) eqn:Hpre; [| reflexivity].
    apply is_prefix_app in Hpre. destruct Hpre as (r & ->).
    now apply stat_below_absent.
Qed.

(** The six calls of [rm_one] made by [clean_build_dir]. *)
Lemma clean_build_dir_run (b : Builder.t) (w : world) (cs : list string) :
  cwd w = Posixpath.abs_of cs ->
  Forall (fun c => Posixpath.valid_name c = true) cs ->
  exists w',
    Builder.clean_build_dir b w = (Ok tt, w')
    /\ cwd w' = cwd w
    /\ spawned w' = spawned w
    /\ forall q,
         FS.stat (fs w') q
         = if existsb (fun t => is_prefix (cs ++ [t]) q) cleaned_names
           then None else FS.stat (fs w) q.
Proof.
  intros Hcwd Hcs.
  unfold Builder.clean_build_dir, Builder.clean_targets, for_each, bind.
  destruct (rm_one_entry w cs "CMakeCache.txt" 0 Hcwd Hcs eq_refl)
    as (w1 & H1 & Hc1 & Hs1 & Hq1).
  cbn [append Str.seps] in H1. rewrite H1. rewrite <- Hc1 in Hcwd.
  destruct (rm_one_entry w1 cs "CMakeFiles" 1 Hcwd Hcs eq_refl)
    as (w2 & H2 & Hc2 & Hs2 & Hq2).
  cbn [append Str.seps] in H2. rewrite H2. rewrite <- Hc2 in Hcwd.
  destruct (rm_one_entry w2 cs "bin" 1 Hcwd Hcs eq_refl)
    as (w3 & H3 & Hc3 & Hs3 & Hq3).
  cbn [append Str.seps] in H3. rewrite H3. rewrite <- Hc3 in Hcwd.
  destruct (rm_one_entry w3 cs "libs" 1 Hcwd Hcs eq_refl)
    as (w4 & H4 & Hc4 & Hs4 & Hq4).
  cbn [append Str.seps] in H4. rewrite H4. rewrite <- Hc4 in Hcwd.
  destruct (rm_one_entry w4 cs "lib" 1 Hcwd Hcs eq_refl)
    as (w5 & H5 & Hc5 & Hs5 & Hq5).
  cbn [append Str.seps] in H5. rewrite H5. rewrite <- Hc5 in Hcwd.
  destruct (rm_one_entry w5 cs "modules" 0 Hcwd Hcs eq_refl)
    as (w6 & H6 & Hc6 & Hs6 & Hq6).
  cbn [append Str.seps] in H6. rewrite H6.
  exists w6. split; [reflexivity |].
  split; [congruence |]. split; [congruence |].
  intros q. rewrite Hq6, Hq5, Hq4, Hq3, Hq2, Hq1.
  unfold cleaned_names, existsb.
  destruct (is_prefix (cs ++ ["CMakeCache.txt"]) q),
    (is_prefix (cs ++ ["CMakeFiles"]) q), (is_prefix (cs ++ ["bin"]) q),
    (is_prefix (cs ++ ["libs"]) q), (is_prefix (cs ++ ["lib"]) q),
    (is_prefix (cs ++ ["modules"]) q); reflexivity.
Qed.

(** *** With symbolic links *)

Lemma is_prefix_app_same (p a b : list string) :
  is_prefix (p ++ a) (p ++ b) = is_prefix a b.
Proof.
  induction p as [| x p IH]; [reflexivity |].
  simpl. now rewrite String.eqb_refl, IH.
Qed.

Lemma is_prefix_longer (p : list string) (x : string) (l : list string) :
  is_prefix (p ++ x :: l) p = false.
Proof.
  induction p as [| y p IH]; [reflexivity |].
  simpl. rewrite IH. apply andb_false_r.
Qed.

(** With the working directory in place, or an absolute argument,
    [abspath] is the function of the path alone. *)
Lemma linked_path_abspath (d : string) (w : world) :
  Posixpath.isabs d = true
  \/ FS.isdir (fs w) (Posixpath.components (cwd w)) = true ->
  Linked.path_abspath d w = Os.path_abspath d w.
Proof.
  intros H. unfold Linked.path_abspath, Os.path_abspath, Posixpath.abspath.
  destruct (Posixpath.isabs d) eqn:Hd; [reflexivity |].
  destruct H as [H | H]; [discriminate |].
  unfold bind, Linked.getcwd. now rewrite H.
Qed.

(** Without it, a relative argument ends in [FileNotFoundError]. *)
Lemma linked_path_abspath_gone (d : string) (w : world) :
  Posixpath.isabs d = false ->
  FS.isdir (fs w) (Posixpath.components (cwd w)) = false ->
  Linked.path_abspath d w
  = (Raise (OSError FS.ENOENT "No such file or directory"), w).
Proof.
  intros Hd H. unfold Linked.path_abspath. rewrite Hd.
  unfold bind, Linked.getcwd. now rewrite H.
Qed.

(** Where nothing is a symbolic link, [rm_one] is the function of the first
    part. *)
Lemma linked_rm_one_plain (islink : list string -> bool) (d : string)
    (w : world) :
  (forall q, islink q = false) ->
  Posixpath.isabs d = true
  \/ FS.isdir (fs w) (Posixpath.components (cwd w)) = true ->
  Linked.rm_one islink d w = rm_one d w.
Proof.
  intros Hno Hd. unfold Linked.rm_one, rm_one.
  unfold bind at 1. rewrite (linked_path_abspath d w Hd).
  unfold bind, Os.path_abspath, Os.path_exists, Os.path_isdir,
    Os.path_isfile, Linked.rmtree, log_info, log_call, ret,
    FS.exists_, FS.isdir, FS.isfile.
  cbn [fst snd fs cwd log spawned].
  destruct (FS.stat (fs w) _) as [[|] |] eqn:Hst;
    cbn [fst snd fs cwd log spawned]; rewrite ?Hst, ?Hno; reflexivity.
Qed.

Lemma linked_rm_one_entry (islink : list string -> bool) (w : world)
    (cs : list string) (t : string) (k : nat) :
  (forall q, islink q = false) ->
  cwd w = Posixpath.abs_of cs ->
  Forall (fun c => Posixpath.valid_name c = true) cs ->
  Posixpath.valid_name t = true ->
  FS.isdir (fs w) cs = true ->
  exists w',
    Linked.rm_one islink (t ++ Str.seps k) w = (Ok tt, w')
    /\ rm_one (t ++ Str.seps k) w = (Ok tt, w')
    /\ cwd w' = cwd w
    /\ FS.isdir (fs w') cs = true.
Proof.
  intros Hno Hcwd Hcs Ht Hdir.
  destruct (rm_one_entry w cs t k Hcwd Hcs Ht) as (w' & Hrun & Hc & _ & Hq).
  exists w'. rewrite linked_rm_one_plain;
    [| exact Hno | right; now rewrite Hcwd, components_abs_of].
  split; [exact Hrun |]. split; [exact Hrun |]. split; [exact Hc |].
  unfold FS.isdir in *. rewrite Hq.
  now rewrite (is_prefix_longer cs t []).
Qed.

Lemma linked_for_each_entries (islink : list string -> bool)
    (cs : list string) (ts : list (string * nat)) :
  (forall q, islink q = false) ->
  Forall (fun c => Posixpath.valid_name c = true) cs ->
  Forall (fun tk => Posixpath.valid_name (fst tk) = true) ts ->
  forall w,
    cwd w = Posixpath.abs_of cs ->
    FS.isdir (fs w) cs = true ->
    for_each (map (fun tk => fst tk ++ Str.seps (snd tk)) ts)
      (Linked.rm_one islink) w
    = for_each (map (fun tk => fst tk ++ Str.seps (snd tk)) ts) rm_one w.
Proof.
  intros Hno Hcs Hts.
  induction Hts as [| [t k] ts Ht _ IH]; intros w Hcwd Hdir; [reflexivity |].
  cbn [map for_each fst snd]. unfold bind.
  destruct (linked_rm_one_entry islink w cs t k Hno Hcwd Hcs Ht Hdir)
    as (w' & Hl & Hp & Hc & Hd).
  rewrite Hl, Hp. apply IH; [now rewrite Hc | exact Hd].
Qed.

Lemma linked_clean_build_dir (islink : list string -> bool) (b : Builder.t)
    (w : world) (cs : list string) :
  (forall q, islink q = false) ->
  cwd w = Posixpath.abs_of cs ->
  Forall (fun c => Posixpath.valid_name c = true) cs ->
  FS.isdir (fs w) cs = true ->
  Linked.clean_build_dir islink b w = Builder.clean_build_dir b w.
Proof.
  intros Hno Hcwd Hcs Hdir.
  unfold Linked.clean_build_dir, Builder.clean_build_dir.
  change Builder.clean_targets
    with (map (fun tk => fst tk ++ Str.seps (snd tk))
            [("CMakeCache.txt", 0); ("CMakeFiles", 1); ("bin", 1);
             ("libs", 1); ("lib", 1); ("modules", 0)]).
  apply (linked_for_each_entries islink cs); try assumption.
  now repeat constructor.
Qed.

(** C7 (amended).  In a working directory in normal form that is there, and
    in a file system of directories and regular files without symbolic
    links, [clean_build_dir] never raises, whichever of its targets exist,
    and afterwards exactly the entries
    [CMakeCache.txt], [CMakeFiles], [bin], [libs], [lib] and [modules] of
    the working directory are gone, with what was below them: every other
    path has the status it had. *)
Theorem clean_build_dir_exact (islink : list string -> bool)
    (b : Builder.t) (w : world) (cs : list string) :
  (forall q, islink q = false) ->
  cwd w = Posixpath.abs_of cs ->
  forallb Posixpath.valid_name cs = true ->
  FS.isdir (fs w) cs = true ->
  exists w',
    Linked.clean_build_dir islink b w = (Ok tt, w')
    /\ cwd w' = cwd w
    /\ spawned w' = spawned w
    /\ forall q,
         FS.stat (fs w') q
         = if existsb (fun t => is_prefix (cs ++ [t]) q) cleaned_names
           then None else FS.stat (fs w) q.
Proof.
  intros Hno Hcwd Hcs Hdir. apply forallb_Forall in Hcs.
  rewrite (linked_clean_build_dir islink b w cs Hno Hcwd Hcs Hdir).
  now apply clean_build_dir_run.
Qed.

Lemma clean_build_dir_exact_witness :
  exists w',
    Linked.clean_build_dir no_link (sample_builder false false) build_world
    = (Ok tt, w')
    /\ FS.stat (fs w') ["b"; "bin"] = None
    /\ FS.stat (fs w') ["b"; "bin"; "opencv.js"] = None
    /\ FS.stat (fs w') ["b"; "CMakeCache.txt"] = None
    /\ FS.stat (fs w') ["b"; "keep.txt"] = Some FS.IsFile
    /\ FS.stat (fs w') ["src"] = Some FS.IsDir.
Proof.
  destruct (clean_build_dir_exact no_link (sample_builder false false)
              build_world ["b"] (fun _ => eq_refl) eq_refl eq_refl eq_refl)
    as (w' & Hrun & _ & _ & Hq).
  exists w'. split; [exact Hrun |].
  rewrite !Hq. repeat split.
Defined.

(** C7, as stated, fails: in a build directory that holds [CMakeCache.txt],
    [modules] and a symbolic link [bin] to a directory, and lacks the other
    targets, cleaning fails.  [os.path.isdir] follows the link,
    [shutil.rmtree] refuses it, and the [OSError] ends [clean_build_dir]
    with [bin] and [modules] still there. *)
Lemma clean_build_dir_link_raises :
  bin_is_link ["b"; "bin"] = true
  /\ FS.isdir (fs linked_world) ["b"; "bin"] = true
  /\ FS.exists_ (fs linked_world) ["b"; "libs"] = false
  /\ fst (Linked.clean_build_dir bin_is_link (sample_builder false false)
            linked_world)
     = Raise (OSError Linked.no_errno "Cannot call rmtree on a symbolic link")
  /\ (let w' := snd (Linked.clean_build_dir bin_is_link
                       (sample_builder false false) linked_world) in
      FS.stat (fs w') ["b"; "CMakeCache.txt"] = None
      /\ FS.stat (fs w') ["b"; "bin"] = Some FS.IsDir
      /\ FS.stat (fs w') ["b"; "modules"] = Some FS.IsDir).
Proof. vm_compute. repeat split. Qed.

(** ** Reasoning about the monad *)

Lemma wp_bind {A B} (c : M A) (k : A -> M B) Q w :
  wp c (fun r w' =>
          match r with
          | Ok a => wp (k a) Q w'
          | Raise e => Q (Raise e) w'
          end) w ->
  wp (bind c k) Q w.
Proof.
  unfold wp, bind. destruct (c w) as [[a | e] w']; simpl; auto.
Qed.

Lemma wp_bind_eq {A B} (c : M A) (k : A -> M B) Q w a w' :
  c w = (Ok a, w') -> wp (k a) Q w' -> wp (bind c k) Q w.
Proof. unfold wp, bind. now intros ->. Qed.

Lemma wp_ret {A} (a : A) (Q : result A -> world -> Prop) w :
  Q (Ok a) w -> wp (ret a) Q w.
Proof. auto. Qed.

Lemma wp_raise {A} e (Q : result A -> world -> Prop) w :
  Q (Raise e) w -> wp (raise e) Q w.
Proof. auto. Qed.

Lemma wp_eq {A} (c : M A) Q w r w' : c w = (r, w') -> Q r w' -> wp c Q w.
Proof. unfold wp. now intros ->. Qed.

Lemma wp_plain {A} (c : M A) Q w :
  plain c ->
  (forall r w',
     c w = (r, w') ->
     spawned w' = spawned w ->
     (forall code, r <> Raise (SystemExit code)) ->
     Q r w') ->
  wp c Q w.
Proof.
  intros Hp H. destruct (Hp w) as [Hs Hne].
  apply H; [apply surjective_pairing | exact Hs | exact Hne].
Qed.

Lemma plain_ret {A} (a : A) : plain (ret a).
Proof. intros w. split; [reflexivity | discriminate]. Qed.

Lemma plain_bind {A B} (c : M A) (k : A -> M B) :
  plain c -> (forall a, plain (k a)) -> plain (bind c k).
Proof.
  intros Hc Hk w. unfold bind.
  destruct (Hc w) as [Hs Hne].
  destruct (c w) as [[a | e] w']; simpl in *.
  - destruct (Hk a w') as [Hs' Hne']. split; [congruence | exact Hne'].
  - split; [exact Hs |].
    intros code H. apply (Hne code). now injection H as ->.
Qed.

Lemma plain_if {A} (b : bool) (c1 c2 : M A) :
  plain c1 -> plain c2 -> plain (if b then c1 else c2).
Proof. now destruct b. Qed.

Lemma plain_when (b : bool) (c : M unit) : plain c -> plain (when b c).
Proof. intros H. unfold when. apply plain_if; [exact H | apply plain_ret]. Qed.

Lemma plain_for_each {A} (l : list A) (body : A -> M unit) :
  (forall x, plain (body x)) -> plain (for_each l body).
Proof.
  intros H. induction l as [| x l IH]; simpl.
  - apply plain_ret.
  - apply plain_bind; [apply H | intros _; exact IH].
Qed.

Lemma plain_Fail {A} (t : option string) : plain (@raise A (Fail t)).
Proof. intros w. split; [reflexivity | discriminate]. Qed.

Lemma plain_TypeError {A} : plain (@raise A TypeError).
Proof. intros w. split; [reflexivity | discriminate]. Qed.

Lemma plain_log (l : level) (f : string) (args : list pyval) :
  plain (log_call l f args).
Proof. intros w. split; [reflexivity | discriminate]. Qed.

Lemma plain_path_abspath (d : string) : plain (Os.path_abspath d).
Proof. intros w. split; [reflexivity | discriminate]. Qed.

Lemma plain_path_exists (d : string) : plain (Os.path_exists d).
Proof. intros w. split; [reflexivity | discriminate]. Qed.

Lemma plain_path_isdir (d : string) : plain (Os.path_isdir d).
Proof. intros w. split; [reflexivity | discriminate]. Qed.

Lemma plain_path_isfile (d : string) : plain (Os.path_isfile d).
Proof. intros w. split; [reflexivity | discriminate]. Qed.

Lemma plain_glob_star (d : string) : plain (Os.glob_star d).
Proof. intros w. split; [reflexivity | discriminate]. Qed.

Lemma plain_walk (d : string) : plain (Os.walk d).
Proof. intros w. split; [reflexivity | discriminate]. Qed.

Lemma plain_makedirs (d : string) : plain (Os.makedirs d).
Proof.
  intros w. unfold Os.makedirs, Os.oserror, raise.
  destruct (FS.mkdirs _ _); split; (reflexivity || discriminate).
Qed.

Lemma plain_rmtree (d : string) : plain (Os.rmtree d).
Proof.
  intros w. unfold Os.rmtree, Os.oserror, raise.
  destruct (FS.stat _ _) as [[|] |]; [| destruct (Os.key _ _) |];
    split; (reflexivity || discriminate).
Qed.

Lemma plain_remove (d : string) : plain (Os.remove d).
Proof.
  intros w. unfold Os.remove, Os.oserror, raise.
  destruct (FS.stat _ _) as [[|] |]; split; (reflexivity || discriminate).
Qed.

Lemma plain_chdir (d : string) : plain (Os.chdir d).
Proof.
  intros w. unfold Os.chdir, Os.oserror, raise.
  destruct (FS.stat _ _) as [[|] |]; split; (reflexivity || discriminate).
Qed.

Lemma plain_log_info (f : string) (args : list pyval) :
  plain (log_info f args).
Proof. apply plain_log. Qed.

Lemma plain_log_debug (f : string) (args : list pyval) :
  plain (log_debug f args).
Proof. apply plain_log. Qed.

Create HintDb plain.
#[local] Hint Resolve plain_ret plain_Fail plain_TypeError plain_log
  plain_log_info plain_log_debug plain_path_abspath plain_path_exists
  plain_path_isdir plain_path_isfile plain_glob_star plain_walk
  plain_makedirs plain_rmtree plain_remove plain_chdir : plain.

Ltac plain_steps :=
  repeat first
    [ solve [auto with plain]
    | apply plain_bind; [| intros ?]
    | apply plain_when
    | apply plain_if
    | apply plain_for_each; intros ? ].

Lemma plain_rm_one (d : string) : plain (rm_one d).
Proof. unfold rm_one. plain_steps. Qed.
#[local] Hint Resolve plain_rm_one : plain.

Lemma plain_check_dir (d : string) (create clean : bool) :
  plain (check_dir d create clean).
Proof. unfold check_dir. plain_steps. Qed.
#[local] Hint Resolve plain_check_dir : plain.

Lemma plain_check_file (d : option string) : plain (check_file d).
Proof.
  unfold check_file, Os.path_abspath_opt. destruct d; plain_steps.
Qed.
#[local] Hint Resolve plain_check_file : plain.

Lemma plain_find_file (name path : string) : plain (find_file name path).
Proof. unfold find_file. plain_steps. Qed.
#[local] Hint Resolve plain_find_file : plain.

Lemma plain_init (a : Args.t) : plain (Builder.init a).
Proof.
  unfold Builder.init. destruct (Args.emscripten_dir a); plain_steps.
Qed.
#[local] Hint Resolve plain_init : plain.

Lemma plain_clean_build_dir (b : Builder.t) : plain (Builder.clean_build_dir b).
Proof. unfold Builder.clean_build_dir. plain_steps. Qed.
#[local] Hint Resolve plain_clean_build_dir : plain.

Lemma plain_banner (line : string) (args : list pyval) :
  plain (banner line args).
Proof. unfold banner. plain_steps. Qed.
#[local] Hint Resolve plain_banner : plain.

(** ** The main program *)

Lemma execute_spec (E : Env) (cmd : list string) (shell : bool) (w : world) :
  spawned (snd (execute E cmd shell w)) = (spawned w ++ [cmd])%list
  /\ forall code, fst (execute E cmd shell w) <> Raise (SystemExit code).
Proof.
  rewrite execute_run. cbn [fst snd spawned]. split; [reflexivity |].
  intros code.
  destruct (fst (child E cmd shell _)) as [retcode | errno msg];
    [| discriminate].
  destruct (retcode <? 0)%Z; [discriminate |].
  destruct (retcode >? 0)%Z; discriminate.
Qed.

Lemma wp_execute (E : Env) (cmd : list string) (shell : bool) Q w :
  (forall r w',
     spawned w' = (spawned w ++ [cmd])%list ->
     (forall code, r <> Raise (SystemExit code)) ->
     Q r w') ->
  wp (execute E cmd shell) Q w.
Proof.
  intros H. destruct (execute_spec E cmd shell w) as [Hs Hne]. now apply H.
Qed.

(** *** Facts about the steps *)

Lemma check_dir_ok (d : string) (create : bool) (w : world) (x : string)
    (w' : world) :
  check_dir d create false w = (Ok x, w') ->
  x = Posixpath.abspath (cwd w) d
  /\ cwd w' = cwd w
  /\ spawned w' = spawned w
  /\ (create = false -> fs w' = fs w)
  /\ (create = true -> FS.stat (fs w') (Os.key (cwd w) x) = Some FS.IsDir).
Proof.
  rewrite check_dir_run. cbv zeta.
  destruct (FS.stat (fs w) _) as [[|] |] eqn:Hst; [discriminate | |].
  - intros [= <- <-]. repeat split. intros _. exact Hst.
  - destruct create.
    + destruct (FS.mkdirs _ _) as [e | n] eqn:Hmk; [discriminate |].
      intros [= <- <-]. repeat split; [discriminate |]. intros _.
      cbn [fs Os.set_fs]. now apply (mkdirs_isdir _ _ _ Hmk).
    + intros [= <- <-]. repeat split. discriminate.
Qed.

Lemma init_ok (a : Args.t) (w : world) (b : Builder.t) (w' : world) :
  Builder.init a w = (Ok b, w') ->
  Builder.options b = a
  /\ Builder.build_dir b = Posixpath.abspath (cwd w) (Args.build_dir a)
  /\ Args.emscripten_dir a <> None
  /\ cwd w' = cwd w
  /\ FS.stat (fs w') (Os.key (cwd w) (Builder.build_dir b)) = Some FS.IsDir.
Proof.
  unfold Builder.init, bind, ret.
  destruct (check_dir (Args.build_dir a) true false w) as [[x1 | e] w1] eqn:H1;
    [| discriminate].
  destruct (check_dir (Args.opencv_dir a) false false w1)
    as [[x2 | e] w2] eqn:H2; [| discriminate].
  destruct (Args.emscripten_dir a) as [d |]; [| discriminate].
  destruct (check_dir d false false w2) as [[x3 | e] w3] eqn:H3;
    [| discriminate].
  intros [= <- <-]. cbn [Builder.options Builder.build_dir].
  apply check_dir_ok in H1, H2, H3.
  destruct H1 as (-> & Hc1 & _ & _ & Hd1).
  destruct H2 as (_ & Hc2 & _ & Hf2 & _).
  destruct H3 as (_ & Hc3 & _ & Hf3 & _).
  repeat split; try congruence.
  rewrite (Hf3 eq_refl), (Hf2 eq_refl). exact (Hd1 eq_refl).
Qed.

Lemma chdir_ok (d : string) (w : world) :
  FS.stat (fs w) (Os.key (cwd w) d) = Some FS.IsDir ->
  Os.chdir d w
  = (Ok tt,
     World (fs w) (Posixpath.abs_of (Os.key (cwd w) d)) (log w) (spawned w)).
Proof. unfold Os.chdir. now intros ->. Qed.

Lemma check_file_some (p : string) (w : world) :
  check_file (Some p) w
  = (Ok (FS.isfile (fs w) (Os.key (cwd w) (Posixpath.abspath (cwd w) p))), w).
Proof.
  unfold check_file, bind, Os.path_abspath_opt, Os.path_abspath,
    Os.path_exists, Os.path_isfile, ret, FS.exists_, FS.isfile.
  cbn [fst snd].
  destruct (FS.stat (fs w) _) as [[|] |] eqn:Hst; cbn [fst snd];
    rewrite ?Hst; reflexivity.
Qed.

Lemma find_file_tutorial (b : Builder.t) (w : world) :
  find_file "tutorial_js_root.html"
    (Posixpath.join (Builder.build_dir b) ["doc"; "doxygen"; "html"]) w
  = (Ok (tutorial_page b w), w).
Proof. reflexivity. Qed.

Lemma tutorial_page_log (b : Builder.t) (w : world) (l : list log_record)
    (s : list (list string)) :
  tutorial_page b (World (fs w) (cwd w) l s) = tutorial_page b w.
Proof. reflexivity. Qed.

Lemma wp_execute_ok (E : Env) (cmd : list string) (shell : bool) Q w :
  children_succeed E ->
  (forall w',
     spawned w' = (spawned w ++ [cmd])%list ->
     cwd w' = cwd w ->
     w' = snd (execute E cmd shell w) ->
     Q (Ok tt) w') ->
  wp (execute E cmd shell) Q w.
Proof.
  intros Hc H. unfold wp.
  assert (Hr : fst (execute E cmd shell w) = Ok tt)
    by (rewrite execute_run; cbn [fst]; now rewrite Hc).
  rewrite Hr. apply H; [| | reflexivity];
    rewrite execute_run; reflexivity.
Qed.

(** One step of symbolic execution: the first command of the program is
    replaced by what is known about its result. *)
Ltac wp_step :=
  lazymatch goal with
  | |- wp (bind _ _) _ _ => apply wp_bind; wp_step
  | |- wp (execute _ _ _) _ _ =>
      apply wp_execute; intros [[] | ?e] ?w' ?Hs ?Hne
  | |- wp (Builder.config _ _) _ _ => unfold Builder.config; wp_step
  | |- wp (Builder.build_opencvjs _ _) _ _ =>
      unfold Builder.build_opencvjs; wp_step
  | |- wp (Builder.build_test _ _) _ _ => unfold Builder.build_test; wp_step
  | |- wp (Builder.build_doc _ _) _ _ => unfold Builder.build_doc; wp_step
  | |- wp (when (negb ?f) _) _ _ =>
      destruct f eqn:?; cbn [when negb]; wp_step
  | |- wp (when ?f _) _ _ =>
      first [ apply wp_plain;
              [solve [plain_steps] | intros [?x | ?e] ?w' _ ?Hs ?Hne]
            | destruct f eqn:?; cbn [when]; wp_step ]
  | |- wp (sys_exit _) _ _ => apply wp_raise
  | |- wp (ret _) _ _ => apply wp_ret
  | |- wp _ _ _ =>
      apply wp_plain; [solve [plain_steps] | intros [?x | ?e] ?w' _ ?Hs ?Hne]
  end; cbv beta iota.

Ltac use_spawned :=
  repeat match goal with
         | H : spawned ?w = _ |- context [spawned ?w] => rewrite H; clear H
         end;
  cbn [spawned].

Ltac trace_is k :=
  exists k; split; [first [assumption | reflexivity] |];
  unfold expected_steps;
  repeat match goal with
         | H : ?f = _ |- context [if ?f then _ else _] => rewrite H
         end;
  cbn [firstn app]; rewrite <- ?app_assoc; rewrite ?app_nil_r;
  reflexivity.

Ltac safety_leaf a :=
  split;
  [ use_spawned;
    first [ match goal with b : Builder.t |- _ => exists b end
          | exists (Builder.Make a EmptyString EmptyString EmptyString) ];
    first [trace_is 0 | trace_is 1 | trace_is 2 | trace_is 3 | trace_is 4]
  | let code := fresh "code" in
    let Hc := fresh "Hc" in
    intros code Hc;
    first [ discriminate Hc
          | exfalso;
            match goal with
            | H : forall c, _ <> Raise (SystemExit c) |- _ =>
                injection Hc as ->; apply (H code); reflexivity
            end
          | injection Hc as <-; left; split;
            [reflexivity | first [assumption | reflexivity]]
          | injection Hc as <-; right; split;
            [reflexivity | first [assumption | reflexivity]] ] ].

(** Whatever the children and the file system do: the commands started are
    an initial segment of the steps the options ask for, and [sys.exit] is
    reached only with 0 after [--config_only], or with -1 when no Emscripten
    directory is known. *)
Lemma main_safety (E : Env) (argv : Argv.t) (w : world) :
  wp (main E argv)
    (fun r w' =>
       (exists b k,
          Builder.options b = args_of E argv w
          /\ spawned w'
             = (spawned w
                ++ firstn k (expected_steps E (args_of E argv w) b))%list)
       /\ forall code, r = Raise (SystemExit code) ->
            (code = 0%Z /\ Args.config_only (args_of E argv w) = true)
            \/ (code = (-1)%Z
                /\ Args.emscripten_dir (args_of E argv w) = None))
    w.
Proof.
  unfold main. cbv zeta.
  eapply wp_bind_eq; [reflexivity |].
  fold (args_of E argv w). set (a := args_of E argv w).
  eapply wp_bind_eq; [reflexivity |].
  apply wp_bind.
  destruct (Args.emscripten_dir a) eqn:Hem; cbn [when].
  2:{ eapply wp_bind_eq; [reflexivity |]. apply wp_raise. cbv beta iota.
      safety_leaf a. }
  apply wp_ret. cbv beta iota.
  apply wp_bind. apply wp_plain; [solve [plain_steps] |].
  intros [b | e] w1 Hinit Hs1 Hne1; cbv beta iota; [| safety_leaf a].
  pose proof (init_ok _ _ _ _ Hinit) as (Hopt & _).
  repeat (wp_step; try solve [safety_leaf a]).
Qed.

(** *** When every step succeeds *)

Lemma wp_clean_ok (b : Builder.t) (ks : list string) Q w :
  cwd w = Posixpath.abs_of ks ->
  Forall (fun c => Posixpath.valid_name c = true) ks ->
  (forall w', spawned w' = spawned w -> cwd w' = cwd w -> Q (Ok tt) w') ->
  wp (Builder.clean_build_dir b) Q w.
Proof.
  intros Hcwd Hks H.
  destruct (clean_build_dir_run b w ks Hcwd Hks) as (w' & Heq & Hc & Hs & _).
  unfold wp. rewrite Heq. now apply H.
Qed.

Ltac live_step E :=
  lazymatch goal with
  | |- wp (bind (banner _ _) _) _ _ => eapply wp_bind_eq; [reflexivity |]
  | |- wp (bind (log_info _ _) _) _ _ => eapply wp_bind_eq; [reflexivity |]
  | |- wp (bind (check_file (Some _)) _) _ _ =>
      eapply wp_bind_eq; [apply check_file_some |]
  | |- wp (bind (find_file _ _) _) _ _ =>
      eapply wp_bind_eq; [apply find_file_tutorial |]
  | |- wp (bind (check_file (tutorial_page ?b ?w)) _) _ _ =>
      destruct (tutorial_page b w) eqn:?; live_step E
  | |- wp (bind _ _) _ _ => apply wp_bind; live_step E
  | |- wp (execute _ _ _) _ _ =>
      apply wp_execute_ok; [assumption | intros ?w' ?Hs ?Hcwd ?Hw']
  | |- wp (Builder.config _ _) _ _ => unfold Builder.config; live_step E
  | |- wp (Builder.build_opencvjs _ _) _ _ =>
      unfold Builder.build_opencvjs; live_step E
  | |- wp (Builder.build_test _ _) _ _ =>
      unfold Builder.build_test; live_step E
  | |- wp (Builder.build_doc _ _) _ _ => unfold Builder.build_doc; live_step E
  | |- wp (Builder.clean_build_dir _) _ _ =>
      eapply wp_clean_ok;
      [cbn [cwd]; repeat match goal with H : cwd _ = _ |- _ => rewrite H end;
       cbn [cwd]; reflexivity
      | assumption
      | intros ?w' ?Hs ?Hcwd]
  | |- wp (when (negb ?f) _) _ _ =>
      destruct f eqn:?; cbn [when negb]; live_step E
  | |- wp (when ?f _) _ _ => destruct f eqn:?; cbn [when]; live_step E
  | |- wp (sys_exit _) _ _ => apply wp_raise
  | |- wp (ret _) _ _ => apply wp_ret
  | |- wp (log_info _ _) _ _ => eapply wp_eq; [reflexivity |]
  | |- wp (check_file None) _ _ => eapply wp_eq; [reflexivity |]
  end; cbv beta iota; cbn [fs cwd log spawned] in *.

Ltac use_flags :=
  repeat match goal with
         | H : ?f = _ |- context [if ?f then _ else _] => rewrite H
         end.

Ltac live_leaf :=
  cbn [fst snd fs cwd log spawned] in *;
  rewrite ?tutorial_page_log in *;
  split;
  [ use_spawned; unfold expected_steps; use_flags; cbn [app];
    rewrite <- ?app_assoc; rewrite ?app_nil_r; reflexivity
  | split;
    [ intros ?; first [reflexivity | discriminate]
    | split;
      [ intros ? ?; first [discriminate | eexists; eassumption]
      | intros ?; first [ discriminate
                        | use_flags;
                          repeat match goal with
                                 | H : tutorial_page _ _ = _ |- _ =>
                                     rewrite H
                                 end;
                          reflexivity ] ] ] ].

Lemma main_liveness (E : Env) (argv : Argv.t) (w : world)
    (cs : list string) (b : Builder.t) (w2 : world) :
  cwd w = Posixpath.abs_of cs ->
  Forall (fun c => Posixpath.valid_name c = true) cs ->
  children_succeed E ->
  Builder.init (args_of E argv w) (world_at_init E argv w) = (Ok b, w2) ->
  wp (main E argv)
    (fun r w' =>
       let a := args_of E argv w in
       spawned w' = (spawned w ++ expected_steps E a b)%list
       /\ (Args.config_only a = true -> r = Raise (SystemExit 0))
       /\ (Args.config_only a = true -> Args.skip_config a = false ->
           exists wc, w' = snd (execute E (configure_cmd b) false wc))
       /\ (Args.config_only a = false ->
           r = if Args.build_doc a
               then match tutorial_page b w' with
                    | None => Raise TypeError
                    | Some _ => Ok tt
                    end
               else Ok tt))
    w.
Proof.
  intros Hcwd Hcs Hch Hinit. cbv zeta.
  pose proof (init_ok _ _ _ _ Hinit) as (Hopt & Hbd & Hem & Hc2 & Hdir).
  assert (Hs2 : spawned w2 = spawned w)
    by (destruct (plain_init (args_of E argv w) (world_at_init E argv w))
          as [Hs _]; now rewrite Hinit in Hs).
  change (cwd (world_at_init E argv w)) with (cwd w) in *.
  destruct (key_abspath cs (cwd w2)
              (Args.build_dir (args_of E argv w))) as (ks & Hks & Hkey).
  rewrite <- Hcwd, <- Hbd in Hkey.
  unfold main. cbv zeta.
  eapply wp_bind_eq; [reflexivity |].
  fold (args_of E argv w). set (a := args_of E argv w) in *.
  eapply wp_bind_eq; [reflexivity |].
  destruct (Args.emscripten_dir a) eqn:Hemd; [| contradiction].
  cbn [when]. eapply wp_bind_eq; [reflexivity |].
  eapply wp_bind_eq; [exact Hinit |].
  eapply wp_bind_eq;
    [apply chdir_ok; rewrite Hc2; exact Hdir |].
  rewrite Hkey.
  repeat (live_step E).
  all: solve [live_leaf].
Qed.

(** ** The claims about the main program *)

Lemma run_script_world (E : Env) (argv : Argv.t) (w : world) :
  snd (run_script E argv w) = snd (main E argv w).
Proof.
  unfold run_script. destruct (main E argv w) as [[u | []] w']; reflexivity.
Qed.

Lemma run_script_outcome (E : Env) (argv : Argv.t) (w : world) :
  fst (run_script E argv w)
  = match fst (main E argv w) with
    | Ok _ => Exit 0
    | Raise (SystemExit code) => Exit code
    | Raise e => Traceback e
    end.
Proof.
  unfold run_script. destruct (main E argv w) as [[u | []] w']; reflexivity.
Qed.

Lemma configure_is_not_make (E : Env) (b : Builder.t) (t : string) :
  configure_cmd b <> Builder.make_cmd E t.
Proof.
  unfold configure_cmd. rewrite get_cmake_cmd_unfold. discriminate.
Qed.

Lemma main_early_exit (E : Env) (argv : Argv.t) (w : world) :
  unresolved E argv ->
  main E argv w = (Raise (SystemExit (-1)), world_at_early_exit E argv w).
Proof.
  intros [Ha He].
  unfold main, bind, Os.path_abspath, log_debug, log_info, log_call, when,
    sys_exit, raise, world_at_early_exit, args_of, parse_args.
  cbn [fst snd Args.emscripten_dir fs cwd log spawned].
  rewrite Ha, He. reflexivity.
Qed.

(** C8.  When the Emscripten directory is given neither by the option nor
    by the environment, the script ends through [sys.exit(-1)], exit status
    255, in a world that differs from the initial one only by two log lines:
    no child process was started, [check_dir] was not called, the file
    system is untouched.  No other run on a parsed command line ends with
    that status: a run that succeeds ends with 0 and an exception ends it
    with 1. *)
Theorem unresolved_emscripten_exits_early (E : Env) (argv : Argv.t)
    (w : world) :
  (unresolved E argv ->
   run_script E argv w = (Exit (-1), world_at_early_exit E argv w))
  /\ (exit_status (fst (run_script E argv w)) = 255%Z <-> unresolved E argv)
  /\ (exit_status (fst (run_script E argv w)) = 0%Z
      \/ exit_status (fst (run_script E argv w)) = 1%Z
      \/ exit_status (fst (run_script E argv w)) = 255%Z).
Proof.
  assert (Hearly : unresolved E argv ->
                   run_script E argv w
                   = (Exit (-1), world_at_early_exit E argv w)).
  { intros H. unfold run_script. now rewrite (main_early_exit E argv w H). }
  pose proof (main_safety E argv w) as [_ Hcodes]. unfold wp in Hcodes.
  rewrite run_script_outcome.
  split; [exact Hearly |]. split; [split |].
  - destruct (fst (main E argv w)) as [u | e]; [discriminate |].
    destruct e; try discriminate.
    destruct (Hcodes code eq_refl) as [[-> _] | [-> Hnone]];
      [discriminate |].
    intros _. unfold args_of, parse_args in Hnone.
    cbn [Args.emscripten_dir] in Hnone. unfold unresolved.
    destruct (Argv.emscripten_dir argv); [discriminate |].
    split; [reflexivity | exact Hnone].
  - intros H. rewrite <- run_script_outcome, (Hearly H). reflexivity.
  - destruct (fst (main E argv w)) as [u | e]; [now left |].
    destruct e; try (right; left; reflexivity).
    destruct (Hcodes code eq_refl) as [[-> _] | [-> _]];
      [now left | now right; right].
Qed.

Lemma unresolved_emscripten_exits_early_witness :
  run_script (sample_env None (Returned 0))
    (sample_argv true true false false) sample_world
  = (Exit (-1),
     world_at_early_exit (sample_env None (Returned 0))
       (sample_argv true true false false) sample_world)
  /\ exit_status
       (fst (run_script (sample_env None (Returned 0))
               (sample_argv true true false false) sample_world)) = 255%Z.
Proof.
  destruct (unresolved_emscripten_exits_early (sample_env None (Returned 0))
              (sample_argv true true false false) sample_world)
    as (Hrun & Hiff & _).
  split; [exact (Hrun (conj eq_refl eq_refl)) |].
  exact (proj2 Hiff (conj eq_refl eq_refl)).
Defined.



(** C5.  With [--build_wasm] and [--build_test] and no other flag, whatever
    happens, the commands started are an initial segment of: the configure
    command, [make opencv.js], [make opencv_js_test].  The configure command
    carries "-s WASM=1" in both compiler-flag arguments, and the
    documentation build is not among the three.  When validation and the
    children succeed, exactly these three are started, in this order, and
    the script ends with status 0. *)
Theorem wasm_test_sequence (E : Env) (argv : Argv.t) (w : world) :
  only_wasm_and_test argv = true ->
  let a := args_of E argv w in
  let out := fst (run_script E argv w) in
  let w' := snd (run_script E argv w) in
  (exists b k,
     Builder.options b = a
     /\ spawned w' = (spawned w ++ firstn k (wasm_test_steps E b))%list)
  /\ (forall b,
        Builder.options b = a ->
        In "-DCMAKE_C_FLAGS='-s USE_PTHREADS=0 -s WASM=1 '" (configure_cmd b)
        /\ In "-DCMAKE_CXX_FLAGS='-s USE_PTHREADS=0 -s WASM=1 '"
             (configure_cmd b)
        /\ ~ In (Builder.make_cmd E "doxygen") (wasm_test_steps E b))
  /\ (forall cs b w2,
        cwd w = Posixpath.abs_of cs ->
        forallb Posixpath.valid_name cs = true ->
        children_succeed E ->
        Builder.init a (world_at_init E argv w) = (Ok b, w2) ->
        out = Exit 0
        /\ spawned w' = (spawned w ++ wasm_test_steps E b)%list).
Proof.
  intros Hflags a out w'. subst out w'. rewrite run_script_world.
  unfold only_wasm_and_test in Hflags.
  repeat (apply andb_prop in Hflags; destruct Hflags as [Hflags ?]).
  repeat match goal with
         | H : negb _ = true |- _ => apply negb_true_iff in H
         end.
  assert (Hsteps : forall b, expected_steps E a b = wasm_test_steps E b).
  { intros b. unfold expected_steps, wasm_test_steps, a, args_of, parse_args.
    cbn [Args.skip_config Args.config_only Args.build_test Args.build_doc].
    repeat match goal with H : _ = _ |- _ => rewrite H end. reflexivity. }
  split; [| split].
  - pose proof (main_safety E argv w) as [(b & k & Hopt & Htr) _].
    exists b, k. split; [exact Hopt |]. now rewrite <- Hsteps.
  - intros b Hopt.
    assert (Hf : Builder.get_build_flags b = "-s USE_PTHREADS=0 -s WASM=1 ").
    { unfold Builder.get_build_flags. rewrite Hopt.
      unfold a, args_of, parse_args.
      cbn [Args.build_wasm Args.disable_wasm Args.enable_exception].
      repeat match goal with H : _ = _ |- _ => rewrite H end. reflexivity. }
    unfold configure_cmd. rewrite get_cmake_cmd_unfold, Hf.
    split; [| split].
    + apply in_or_app. left. do 3 (apply in_or_app; right). now left.
    + apply in_or_app. left. do 3 (apply in_or_app; right). right. now left.
    + unfold wasm_test_steps.
      intros [Hc | [Hc | [Hc | []]]];
        [now apply configure_is_not_make in Hc | discriminate Hc
        | discriminate Hc].
  - intros cs b w2 Hcwd Hcs Hch Hinit. apply forallb_Forall in Hcs.
    pose proof (main_liveness E argv w cs b w2 Hcwd Hcs Hch Hinit)
      as (Htr & _ & _ & Hend).
    fold a in Htr, Hend. rewrite Hsteps in Htr.
    rewrite run_script_outcome. split; [| exact Htr].
    unfold a, args_of, parse_args in Hend.
    cbn [Args.config_only Args.build_doc] in Hend.
    repeat match goal with
           | H : ?f = false |- _ => rewrite H in Hend
           end.
    now rewrite (Hend eq_refl).
Qed.

Lemma wasm_test_sequence_witness :
  fst (run_script (sample_env (Some "/em") (Returned 0))
         (sample_argv true true false false) sample_world) = Exit 0
  /\ spawned (snd (run_script (sample_env (Some "/em") (Returned 0))
                     (sample_argv true true false false) sample_world))
     = wasm_test_steps (sample_env (Some "/em") (Returned 0))
         (Builder.Make
            (args_of (sample_env (Some "/em") (Returned 0))
               (sample_argv true true false false) sample_world)
            "/b" "/src" "/em").
Proof.
  destruct (wasm_test_sequence (sample_env (Some "/em") (Returned 0))
              (sample_argv true true false false) sample_world eq_refl)
    as (_ & _ & Hlive).
  exact (Hlive [] _ _ eq_refl eq_refl (fun _ _ _ => eq_refl) eq_refl).
Defined.

(** C2.  After a build in which validation and every step succeeded, the
    report ends the script with status 0 whether or not the main artifact
    and the test bundle are there, except with [--build_doc] when the
    documentation root page is not found: [find_file] then returns [None],
    [check_file(None)] raises [TypeError] in [os.path.abspath], and the
    script ends with a traceback and status 1. *)
Theorem report_after_build (E : Env) (argv : Argv.t) (w : world)
    (cs : list string) (b : Builder.t) (w2 : world) :
  Argv.config_only argv = false ->
  cwd w = Posixpath.abs_of cs ->
  forallb Posixpath.valid_name cs = true ->
  children_succeed E ->
  Builder.init (args_of E argv w) (world_at_init E argv w) = (Ok b, w2) ->
  let out := fst (run_script E argv w) in
  let w' := snd (run_script E argv w) in
  out = (if Argv.build_doc argv
         then match tutorial_page b w' with
              | None => Traceback TypeError
              | Some _ => Exit 0
              end
         else Exit 0)
  /\ (Argv.build_doc argv = true -> tutorial_page b w' = None ->
      exit_status out = 1%Z)
  /\ check_file None w' = (Raise TypeError, w').
Proof.
  intros Hco Hcwd Hcs Hch Hinit out w'. subst out w'.
  apply forallb_Forall in Hcs.
  pose proof (main_liveness E argv w cs b w2 Hcwd Hcs Hch Hinit)
    as (_ & _ & _ & Hend).
  unfold args_of, parse_args in Hend.
  cbn [Args.config_only Args.build_doc] in Hend.
  specialize (Hend Hco).
  rewrite run_script_outcome, run_script_world, Hend.
  split; [| split].
  - destruct (Argv.build_doc argv); [| reflexivity].
    now destruct (tutorial_page b _).
  - intros -> ->. reflexivity.
  - reflexivity.
Qed.

Lemma report_after_build_witness :
  run_script (sample_env (Some "/em") (Returned 0))
    (sample_argv false false true false) sample_world
  = (Traceback TypeError,
     snd (main (sample_env (Some "/em") (Returned 0))
            (sample_argv false false true false) sample_world))
  /\ exit_status
       (fst (run_script (sample_env (Some "/em") (Returned 0))
               (sample_argv false false true false) sample_world)) = 1%Z.
Proof.
  destruct (report_after_build (sample_env (Some "/em") (Returned 0))
              (sample_argv false false true false) sample_world [] _ _
              eq_refl eq_refl eq_refl (fun _ _ _ => eq_refl) eq_refl)
    as (Hout & Hstatus & _).
  split.
  - rewrite (surjective_pairing (run_script _ _ _)), Hout, run_script_world.
    reflexivity.
  - exact (Hstatus eq_refl eq_refl).
Defined.

(* ------------------------------------------------------------------------- *)
(** * Further properties *)

(** ** execute *)

(** X1.  [execute] of a command the kernel is asked to run (a list that is
    not empty, no null character in an argument) translates every failure
    into [Fail]: it returns normally exactly when the child returned 0, and
    otherwise raises [Fail] with a message, never [OSError] or anything
    else.  In both cases the command is recorded once, one line is logged
    and the working directory is kept. *)
Theorem execute_raises_only_fail (E : Env) (cmd : list string) (shell : bool)
    (w : world) :
  launchable cmd = true ->
  let r := fst (execute E cmd shell w) in
  let w' := snd (execute E cmd shell w) in
  (r = Ok tt \/ exists msg, r = Raise (Fail (Some msg)))
  /\ (r = Ok tt
      <-> fst (child E cmd shell (world_at_call cmd w)) = Returned 0)
  /\ spawned w' = (spawned w ++ [cmd])%list
  /\ cwd w' = cwd w
  /\ log w' = (log w ++ [LogRecord INFO "Executing: %s" [PList cmd]])%list.
Proof.
  intros _. cbv zeta. rewrite execute_run. cbn [fst snd spawned cwd log].
  split; [| split; [| repeat split]].
  - destruct (fst (child E cmd shell _)) as [retcode | errno msg];
      [| right; eexists; reflexivity].
    destruct (retcode <? 0)%Z; [right; eexists; reflexivity |].
    destruct (retcode >? 0)%Z; [right; eexists; reflexivity | now left].
  - destruct (fst (child E cmd shell _)) as [retcode | errno msg];
      [| split; discriminate].
    destruct (Z.ltb_spec retcode 0);
      [split; [discriminate | intros [= ->]; lia] |].
    destruct (Z.gtb_spec retcode 0);
      [split; [discriminate | intros [= ->]; lia] |].
    split; [intros _; f_equal; lia | reflexivity].
Qed.

Lemma execute_raises_only_fail_witness :
  fst (execute (sample_env None (LaunchError 2 "No such file or directory"))
         ["make"; "-j"; "4"] false sample_world)
  <> Ok tt
  /\ spawned (snd (execute
                     (sample_env None
                        (LaunchError 2 "No such file or directory"))
                     ["make"; "-j"; "4"] false sample_world))
     = [["make"; "-j"; "4"]].
Proof.
  destruct (execute_raises_only_fail
              (sample_env None (LaunchError 2 "No such file or directory"))
              ["make"; "-j"; "4"] false sample_world eq_refl)
    as (_ & Hiff & Hs & _).
  split; [| exact Hs].
  intros H. apply Hiff in H. discriminate H.
Defined.

(** ** check_dir *)



(** X3.  [check_dir] can be repeated: after a call that succeeded, the same
    call again returns the same path and changes nothing but the log, also
    when the first call had to create the directory. *)
Theorem check_dir_twice (d : string) (create : bool) (w w1 : world)
    (a : string) :
  check_dir d create false w = (Ok a, w1) ->
  check_dir d create false w1 = (Ok a, world_at_check d create false w1)
  /\ fs (world_at_check d create false w1) = fs w1.
Proof.
  intros H. split; [| reflexivity].
  pose proof (check_dir_ok _ _ _ _ _ H) as (-> & Hc & _ & Hf & Hd).
  rewrite check_dir_run in H |- *. cbv zeta in *. rewrite Hc.
  destruct create.
  - now rewrite (Hd eq_refl).
  - rewrite (Hf eq_refl).
    destruct (FS.stat (fs w) _) as [[|] |]; [discriminate | |]; reflexivity.
Qed.

Lemma check_dir_twice_witness :
  exists w1,
    check_dir "/new/dir/" true false sample_world = (Ok "/new/dir", w1)
    /\ FS.isdir (fs w1) ["new"; "dir"] = true
    /\ fst (check_dir "/new/dir/" true false w1) = Ok "/new/dir"
    /\ fs (snd (check_dir "/new/dir/" true false w1)) = fs w1.
Proof.
  eexists. split; [reflexivity |]. split; [reflexivity |].
  destruct (check_dir_twice "/new/dir/" true sample_world _ _ eq_refl)
    as [H2 Hfs].
  rewrite H2. split; [reflexivity | exact Hfs].
Defined.

(** ** rm_one *)

(** One call of [rm_one] on a path that is not the root. *)
Lemma rm_one_at (d : string) (w : world) :
  let p := Os.key (cwd w) (Posixpath.abspath (cwd w) d) in
  p <> [] ->
  exists w',
    rm_one d w = (Ok tt, w')
    /\ cwd w' = cwd w
    /\ spawned w' = spawned w
    /\ (forall q,
          FS.stat (fs w') q
          = if is_prefix p q then None else FS.stat (fs w) q)
    /\ (FS.exists_ (fs w) p = false -> w' = w).
Proof.
  intros p Hne.
  unfold rm_one, bind, Os.path_abspath, Os.path_exists, Os.path_isdir,
    Os.path_isfile, Os.rmtree, Os.remove, log_info, log_call, ret,
    FS.exists_, FS.isdir, FS.isfile.
  cbn [fst snd fs cwd log spawned]. fold p.
  destruct (FS.stat (fs w) p) as [[|] |] eqn:Hst;
    repeat (progress (cbn [fst snd fs cwd log spawned];
                      fold p; rewrite ?Hst)).
  - eexists. split; [reflexivity |]. cbn [fs cwd spawned Os.set_fs].
    split; [reflexivity |]. split; [reflexivity |].
    split; [intros q; now apply stat_unlink | discriminate].
  - destruct p as [| x l] eqn:Hp; [contradiction |].
    eexists. split; [reflexivity |]. cbn [fs cwd spawned Os.set_fs].
    split; [reflexivity |]. split; [reflexivity |].
    split; [intros q; now apply stat_unlink | discriminate].
  - eexists. split; [reflexivity |].
    split; [reflexivity |]. split; [reflexivity |].
    split; [| reflexivity]. intros q.
    destruct (is_prefix p q) eqn:Hpre; [| reflexivity].
    apply is_prefix_app in Hpre. destruct Hpre as (r & ->).
    now apply stat_below_absent.
Qed.

(** X4.  [rm_one] on an argument that does not name the root, in a file
    system of directories, regular files and symbolic links to them.  A
    relative argument when the working directory is gone ends in the
    [FileNotFoundError] of [os.getcwd], with nothing done.  Otherwise, on a
    symbolic link to a directory the [OSError] of [shutil.rmtree] ends the
    call and the file system is as it was.  Where nothing is a symbolic
    link the call does not raise: the object the normalised path leads to
    disappears with all that is below it, every other path keeps its
    status, and when there is nothing at the path the world is left as it
    is.  A second call then changes nothing, unless the first one removed
    the working directory that a relative argument needs: then it ends in
    [FileNotFoundError]. *)
Theorem rm_one_removes (islink : list string -> bool) (d : string)
    (w : world) :
  let p := Os.key (cwd w) (Posixpath.abspath (cwd w) d) in
  let here := Posixpath.components (cwd w) in
  let gone := Raise (OSError FS.ENOENT "No such file or directory") in
  p <> [] ->
  (Posixpath.isabs d = false -> FS.isdir (fs w) here = false ->
   Linked.rm_one islink d w = (gone, w))
  /\ (Posixpath.isabs d = true \/ FS.isdir (fs w) here = true ->
      (islink p = true -> FS.isdir (fs w) p = true ->
       exists w',
         Linked.rm_one islink d w = (Raise Linked.symlink_error, w')
         /\ fs w' = fs w /\ cwd w' = cwd w /\ spawned w' = spawned w)
      /\ ((forall q, islink q = false) ->
          exists w',
            Linked.rm_one islink d w = (Ok tt, w')
            /\ cwd w' = cwd w
            /\ spawned w' = spawned w
            /\ (forall q,
                  FS.stat (fs w') q
                  = if is_prefix p q then None else FS.stat (fs w) q)
            /\ (FS.exists_ (fs w) p = false -> w' = w)
            /\ (Posixpath.isabs d = true \/ is_prefix p here = false ->
                Linked.rm_one islink d w' = (Ok tt, w'))
            /\ (Posixpath.isabs d = false -> is_prefix p here = true ->
                Linked.rm_one islink d w' = (gone, w')))).
Proof.
  intros p here gone Hne. split.
  - intros Hd Hgone. unfold Linked.rm_one. unfold bind at 1.
    now rewrite (linked_path_abspath_gone d w Hd Hgone).
  - intros Hcw. split.
    + intros Hl Hdir. unfold Linked.rm_one. unfold bind at 1.
      rewrite (linked_path_abspath d w Hcw).
      unfold bind, Os.path_abspath, Os.path_exists, Os.path_isdir,
        Linked.rmtree, log_info, log_call, ret, raise, FS.exists_, FS.isdir.
      cbn [fst snd fs cwd log spawned]. fold p.
      unfold FS.isdir in Hdir.
      destruct (FS.stat (fs w) p) as [[|] |] eqn:Hst; try discriminate.
      cbn [fst snd fs cwd log spawned]. fold p. rewrite Hst.
      cbn [fst snd fs cwd log spawned]. fold p. rewrite Hl.
      eexists. split; [reflexivity |]. now repeat split.
    + intros Hno. rewrite (linked_rm_one_plain islink d w Hno Hcw).
      destruct (rm_one_at d w Hne) as (w' & Hr & Hc & Hs & Hq & Habs).
      fold p in Hq, Habs.
      exists w'. split; [exact Hr |]. split; [exact Hc |].
      split; [exact Hs |]. split; [exact Hq |]. split; [exact Habs |].
      split.
      * intros Hd2.
        assert (Hcw' : Posixpath.isabs d = true
                       \/ FS.isdir (fs w') (Posixpath.components (cwd w'))
                          = true).
        { destruct Hd2 as [Hd2 | Hd2]; [now left |].
          destruct Hcw as [Hcw | Hcw]; [now left | right].
          rewrite Hc. fold here. unfold FS.isdir in *.
          now rewrite Hq, Hd2. }
        rewrite (linked_rm_one_plain islink d w' Hno Hcw').
        pose proof (rm_one_at d w') as H2. cbv zeta in H2. rewrite Hc in H2.
        fold p in H2. destruct (H2 Hne) as (w'' & Hr2 & _ & _ & _ & Habs2).
        rewrite Hr2. f_equal. apply Habs2.
        unfold FS.exists_. rewrite Hq.
        assert (Hpp : is_prefix p p = true)
          by (apply is_prefix_app; exists []; now rewrite app_nil_r).
        now rewrite Hpp.
      * intros Hd Hpre. unfold Linked.rm_one. unfold bind at 1.
        rewrite (linked_path_abspath_gone d w' Hd); [reflexivity |].
        rewrite Hc. fold here. unfold FS.isdir. now rewrite Hq, Hpre.
Qed.

Lemma rm_one_removes_witness :
  (exists w2,
     Linked.rm_one no_link "bin" build_world = (Ok tt, w2)
     /\ FS.stat (fs w2) ["b"; "bin"; "opencv.js"] = None
     /\ FS.stat (fs w2) ["b"; "keep.txt"] = Some FS.IsFile
     /\ Linked.rm_one no_link "bin" w2 = (Ok tt, w2))
  /\ (exists w3,
        Linked.rm_one no_link "." build_world = (Ok tt, w3)
        /\ FS.stat (fs w3) ["b"] = None
        /\ fst (Linked.rm_one no_link "." w3)
           = Raise (OSError 2 "No such file or directory"))
  /\ fst (Linked.rm_one bin_is_link "bin" linked_world)
     = Raise (OSError 0 "Cannot call rmtree on a symbolic link").
Proof.
  split; [| split].
  - destruct (rm_one_removes no_link "bin" build_world) as [_ H];
      [discriminate |].
    destruct (H (or_intror eq_refl)) as [_ H'].
    destruct (H' (fun _ => eq_refl))
      as (w2 & Hr & _ & _ & Hq & _ & Hagain & _).
    exists w2. split; [exact Hr |]. rewrite !Hq.
    split; [reflexivity |]. split; [reflexivity |].
    apply Hagain. now right.
  - destruct (rm_one_removes no_link "." build_world) as [_ H];
      [discriminate |].
    destruct (H (or_intror eq_refl)) as [_ H'].
    destruct (H' (fun _ => eq_refl))
      as (w3 & Hr & _ & _ & Hq & _ & _ & Hgone).
    exists w3. split; [exact Hr |]. rewrite Hq.
    split; [reflexivity |]. now rewrite Hgone.
  - destruct (rm_one_removes bin_is_link "bin" linked_world) as [_ H];
      [discriminate |].
    destruct (H (or_intror eq_refl)) as [H' _].
    destruct (H' eq_refl eq_refl) as (w' & Hr & _).
    now rewrite Hr.
Defined.

(** ** get_build_flags *)

(** X5.  The target format in the compiler flags: "WASM=1" appears exactly
    when [--build_wasm] is given, and "WASM=0" exactly when [--disable_wasm]
    is given without [--build_wasm]; so [--build_wasm] wins when both are
    given, and the two settings never appear together.  The setting
    "DISABLE_EXCEPTION_CATCHING=0" appears exactly with
    [--enable_exception], and "USE_PTHREADS=0" always. *)
Theorem get_build_flags_settings (b : Builder.t) :
  let o := Builder.options b in
  let flags := Builder.get_build_flags b in
  contains flags "WASM=1" = Args.build_wasm o
  /\ contains flags "WASM=0"
     = negb (Args.build_wasm o) && Args.disable_wasm o
  /\ contains flags "WASM=1" && contains flags "WASM=0" = false
  /\ contains flags "DISABLE_EXCEPTION_CATCHING=0" = Args.enable_exception o
  /\ contains flags "USE_PTHREADS=0" = true.
Proof.
  cbv zeta. unfold Builder.get_build_flags.
  destruct (Args.build_wasm (Builder.options b)),
    (Args.disable_wasm (Builder.options b)),
    (Args.enable_exception (Builder.options b));
    vm_compute; repeat split.
Qed.

(** ** Builder.__init__ *)

Lemma assoc_app_other (x y : string) (c : FS.node)
    (es : list (string * FS.node)) :
  String.eqb x y = false ->
  FS.assoc y (es ++ [(x, c)]) = FS.assoc y es.
Proof.
  intros Hxy. induction es as [| [z e] es IH]; simpl.
  - now rewrite Hxy.
  - destruct (String.eqb z y); [reflexivity | exact IH].
Qed.

Lemma stat_mkchain_off (p : list string) :
  forall q, is_prefix q p = false -> FS.stat (FS.mkchain p) q = None.
Proof.
  induction p as [| x p IH]; intros [| y q] H; try discriminate.
  - reflexivity.
  - simpl FS.mkchain. rewrite stat_dir_cons. simpl.
    simpl in H. rewrite String.eqb_sym.
    destruct (String.eqb y x); [now apply IH | reflexivity].
Qed.

(** [mkdirs] changes the status of no path but those on the way to [p]. *)
Lemma mkdirs_frame (p : list string) :
  forall n n' q,
    FS.mkdirs p n = inr n' -> is_prefix q p = false ->
    FS.stat n' q = FS.stat n q.
Proof.
  induction p as [| x p IH]; intros n n' q H Hq.
  - destruct n; discriminate.
  - destruct n as [| es]; [discriminate |]. simpl in H.
    destruct q as [| y q]; [discriminate |].
    simpl in Hq. rewrite String.eqb_sym in Hq.
    destruct (FS.assoc x es) as [c |] eqn:Hx.
    + destruct (FS.mkdirs p c) as [e | c'] eqn:Hc; [discriminate |].
      injection H as <-. rewrite !stat_dir_cons.
      destruct (String.eqb x y) eqn:Hxy.
      * apply String.eqb_eq in Hxy. subst y.
        rewrite (assoc_update_eq _ _ _ _ Hx), Hx. now apply (IH c).
      * now rewrite assoc_update_ne.
    + injection H as <-. rewrite !stat_dir_cons.
      destruct (String.eqb x y) eqn:Hxy.
      * apply String.eqb_eq in Hxy. subst y.
        rewrite (assoc_app_new _ _ _ Hx), Hx. now apply stat_mkchain_off.
      * now rewrite assoc_app_other.
Qed.

(** What a call of [check_dir] without cleaning does to the file system and
    how it can end. *)
Lemma check_dir_effect (d : string) (create : bool) (w : world)
    (r : result string) (w' : world) :
  check_dir d create false w = (r, w') ->
  let a := Posixpath.abspath (cwd w) d in
  let p := Os.key (cwd w) a in
  cwd w' = cwd w
  /\ (forall q, is_prefix q p = false -> FS.stat (fs w') q = FS.stat (fs w) q)
  /\ (forall q k, FS.stat (fs w) q = Some k -> FS.stat (fs w') q = Some k)
  /\ (create = false -> fs w' = fs w)
  /\ match r with
     | Ok x =>
         x = a /\ FS.isfile (fs w') p = false
         /\ (create = true -> FS.isdir (fs w') p = true)
     | Raise e =>
         fs w' = fs w
         /\ (e = Fail (Some ("Not a directory: " ++ a))
             \/ exists errno, e = OSError errno (Os.strerror errno))
     end.
Proof.
  rewrite check_dir_run. cbv zeta.
  set (a := Posixpath.abspath (cwd w) d).
  set (p := Os.key (cwd w) a).
  unfold FS.isfile, FS.isdir.
  destruct (FS.stat (fs w) p) as [[|] |] eqn:Hst.
  - intros [= <- <-]. cbn [fs cwd world_at_check snd log_info log_call].
    repeat split; auto.
  - intros [= <- <-]. cbn [fs cwd world_at_check snd log_info log_call].
    rewrite Hst. repeat split; auto.
  - destruct create.
    + destruct (FS.mkdirs p (fs w)) as [e | n] eqn:Hmk.
      * intros [= <- <-]. cbn [fs cwd world_at_check snd log_info log_call].
        repeat split; auto; try discriminate. right. now exists e.
      * intros [= <- <-].
        cbn [fs cwd Os.set_fs world_at_check snd log_info log_call].
        rewrite (mkdirs_isdir _ _ _ Hmk).
        split; [reflexivity |].
        split; [intros q Hq; now apply (mkdirs_frame p) |].
        split; [intros q k; now apply (mkdirs_keeps p) |].
        split; [discriminate |]. repeat split.
    + intros [= <- <-]. cbn [fs cwd world_at_check snd log_info log_call].
      rewrite Hst. repeat split; auto; try discriminate.
Qed.

(** X6.  When [Builder(options)] succeeds, its three directories are the
    absolute normalised forms of the options, the build directory exists as
    a directory, neither of the other two is a regular file, no child
    process was started and the working directory is the same.  The file
    system has changed at most on the way to the build directory: every
    other path has the status it had, and nothing that existed is gone. *)
Theorem builder_init_postcondition (a : Args.t) (w : world) (b : Builder.t)
    (w' : world) :
  Builder.init a w = (Ok b, w') ->
  (exists e,
     Args.emscripten_dir a = Some e
     /\ b = Builder.Make a
              (Posixpath.abspath (cwd w) (Args.build_dir a))
              (Posixpath.abspath (cwd w) (Args.opencv_dir a))
              (Posixpath.abspath (cwd w) e))
  /\ cwd w' = cwd w
  /\ spawned w' = spawned w
  /\ FS.isdir (fs w') (Os.key (cwd w) (Builder.build_dir b)) = true
  /\ FS.isfile (fs w') (Os.key (cwd w) (Builder.opencv_dir b)) = false
  /\ FS.isfile (fs w') (Os.key (cwd w) (Builder.emscripten_dir b)) = false
  /\ (forall q,
        is_prefix q (Os.key (cwd w) (Builder.build_dir b)) = false ->
        FS.stat (fs w') q = FS.stat (fs w) q)
  /\ (forall q k, FS.stat (fs w) q = Some k -> FS.stat (fs w') q = Some k).
Proof.
  intros Hinit.
  assert (Hsp : spawned w' = spawned w)
    by (destruct (plain_init a w) as [Hs _]; now rewrite Hinit in Hs).
  revert Hinit. unfold Builder.init, bind, ret.
  destruct (check_dir (Args.build_dir a) true false w) as [[x1 | e1] w1] eqn:H1;
    [| discriminate].
  destruct (check_dir (Args.opencv_dir a) false false w1)
    as [[x2 | e2] w2] eqn:H2; [| discriminate].
  destruct (Args.emscripten_dir a) as [e |]; [| discriminate].
  destruct (check_dir e false false w2) as [[x3 | e3] w3] eqn:H3;
    [| discriminate].
  intros [= <- <-].
  apply check_dir_effect in H1, H2, H3. cbv zeta in H1, H2, H3.
  destruct H1 as (Hc1 & Hfr1 & Hk1 & _ & -> & _ & Hd1).
  destruct H2 as (Hc2 & _ & _ & Hfs2 & -> & Hf2 & _).
  destruct H3 as (Hc3 & _ & _ & Hfs3 & -> & Hf3 & _).
  specialize (Hfs2 eq_refl). specialize (Hfs3 eq_refl).
  cbn [Builder.build_dir Builder.opencv_dir Builder.emscripten_dir].
  rewrite ?Hfs3, ?Hfs2, ?Hc3, ?Hc2, ?Hc1 in *.
  split; [exists e; split; reflexivity |].
  split; [congruence |]. split; [exact Hsp |].
  split; [exact (Hd1 eq_refl) |]. split; [exact Hf2 |].
  split; [exact Hf3 |]. split; [exact Hfr1 | exact Hk1].
Qed.

Lemma builder_init_postcondition_witness :
  exists b w',
    Builder.init (sample_args false false) sample_world = (Ok b, w')
    /\ b = sample_builder false false
    /\ FS.isdir (fs w') ["b"] = true
    /\ FS.stat (fs w') ["f"] = Some FS.IsFile.
Proof.
  assert (Hrun : Builder.init (sample_args false false) sample_world
                 = (Ok (sample_builder false false),
                    snd (Builder.init (sample_args false false) sample_world)))
    by reflexivity.
  destruct (builder_init_postcondition _ _ _ _ Hrun)
    as (_ & _ & _ & Hd & _ & _ & _ & Hk).
  exists (sample_builder false false),
    (snd (Builder.init (sample_args false false) sample_world)).
  split; [exact Hrun |]. split; [reflexivity |].
  split; [exact Hd | exact (Hk ["f"] _ eq_refl)].
Defined.

(** ** The main program, for every combination of options *)

Lemma wp_bind_raise {A B} (c : M A) (k : A -> M B)
    (Q : result B -> world -> Prop) w e w' :
  c w = (Raise e, w') -> Q (Raise e) w' -> wp (bind c k) Q w.
Proof. unfold wp, bind. now intros ->. Qed.

Lemma wp_exact {A} (c : M A) (w : world) (r : result A) (w' : world) :
  wp c (fun r0 w0 => r0 = r /\ w0 = w') w -> c w = (r, w').
Proof.
  unfold wp. intros [<- <-]. apply surjective_pairing.
Qed.

(** X7.  A failed validation ends the script at once: when the Emscripten
    directory is known and [Builder(args)] raises, that exception is the
    outcome of the script, with exit status 1, in the world the constructor
    left.  It is [Fail] for an existing non-directory or an [OSError] of
    [os.makedirs]; no child process was started and the working directory
    was not changed. *)
Theorem validation_failure_ends_script (E : Env) (argv : Argv.t) (w : world)
    (e : exn) (w2 : world) :
  Args.emscripten_dir (args_of E argv w) <> None ->
  Builder.init (args_of E argv w) (world_at_init E argv w) = (Raise e, w2) ->
  run_script E argv w = (Traceback e, w2)
  /\ exit_status (fst (run_script E argv w)) = 1%Z
  /\ spawned w2 = spawned w
  /\ cwd w2 = cwd w
  /\ ((exists msg, e = Fail (Some msg))
      \/ exists errno, e = OSError errno (Os.strerror errno)).
Proof.
  intros Hem Hinit.
  assert (Hkind : cwd w2 = cwd w
                  /\ ((exists msg, e = Fail (Some msg))
                      \/ exists errno, e = OSError errno (Os.strerror errno))).
  { revert Hinit. unfold Builder.init, bind, ret.
    change (cwd w) with (cwd (world_at_init E argv w)).
    generalize (world_at_init E argv w) as w0. intros w0.
    destruct (check_dir _ true false w0) as [[x1 | e1] w1] eqn:H1.
    - destruct (check_dir _ false false w1) as [[x2 | e2] w2'] eqn:H2.
      + destruct (Args.emscripten_dir (args_of E argv w)) as [d |];
          [| contradiction].
        destruct (check_dir d false false w2') as [[x3 | e3] w3] eqn:H3;
          [discriminate |].
        intros [= <- <-].
        apply check_dir_effect in H1, H2, H3. cbv zeta in H1, H2, H3.
        destruct H1 as (Hc1 & _). destruct H2 as (Hc2 & _).
        destruct H3 as (Hc3 & _ & _ & _ & _ & [He | He]).
        split; [congruence |]. left. eexists; exact He.
        split; [congruence |]. now right.
      + intros [= <- <-].
        apply check_dir_effect in H1, H2. cbv zeta in H1, H2.
        destruct H1 as (Hc1 & _).
        destruct H2 as (Hc2 & _ & _ & _ & _ & [He | He]).
        split; [congruence |]. left. eexists; exact He.
        split; [congruence |]. now right.
    - intros [= <- <-].
      apply check_dir_effect in H1. cbv zeta in H1.
      destruct H1 as (Hc1 & _ & _ & _ & _ & [He | He]).
      split; [congruence |]. left. eexists; exact He.
      split; [congruence |]. now right. }
  assert (Hmain : main E argv w = (Raise e, w2)).
  { apply wp_exact. unfold main. cbv zeta.
    eapply wp_bind_eq; [reflexivity |].
    fold (args_of E argv w).
    eapply wp_bind_eq; [reflexivity |].
    destruct (Args.emscripten_dir (args_of E argv w)) eqn:Hemd;
      [| contradiction].
    cbn [when]. eapply wp_bind_eq; [reflexivity |].
    eapply wp_bind_raise; [exact Hinit |]. now split. }
  assert (Hs : spawned w2 = spawned w)
    by (destruct (plain_init (args_of E argv w) (world_at_init E argv w))
          as [Hs _]; now rewrite Hinit in Hs).
  assert (Hrun : run_script E argv w = (Traceback e, w2)).
  { unfold run_script. rewrite Hmain.
    destruct Hkind as (_ & [(msg & ->) | (errno & ->)]); reflexivity. }
  rewrite Hrun. destruct Hkind as (Hc & Hk). repeat split; assumption.
Qed.

Lemma validation_failure_ends_script_witness :
  fst (run_script (sample_env (Some "/em") (Returned 0)) bad_source_argv
         sample_world)
  = Traceback (Fail (Some "Not a directory: /f"))
  /\ spawned (snd (run_script (sample_env (Some "/em") (Returned 0))
                     bad_source_argv sample_world)) = []
  /\ FS.isdir (fs (snd (run_script (sample_env (Some "/em") (Returned 0))
                          bad_source_argv sample_world))) ["b"] = true.
Proof.
  destruct (validation_failure_ends_script
              (sample_env (Some "/em") (Returned 0)) bad_source_argv
              sample_world (Fail (Some "Not a directory: /f"))
              (snd (Builder.init
                      (args_of (sample_env (Some "/em") (Returned 0))
                         bad_source_argv sample_world)
                      (world_at_init (sample_env (Some "/em") (Returned 0))
                         bad_source_argv sample_world))))
    as (Hrun & _ & Hs & _); [discriminate | reflexivity |].
  rewrite Hrun. cbn [fst snd]. split; [reflexivity |].
  split; [exact Hs | reflexivity].
Defined.





(** *** When a step fails *)

Lemma wp_execute_fail (E : Env) (cmd : list string) (shell : bool)
    (Q : result unit -> world -> Prop) w :
  children_fail E ->
  (forall w' msg,
     spawned w' = (spawned w ++ [cmd])%list ->
     Q (Raise (Fail (Some msg))) w') ->
  wp (execute E cmd shell) Q w.
Proof.
  intros Hf H. unfold wp. rewrite execute_run. cbn [fst snd].
  specialize (Hf cmd shell (world_at_call cmd w)).
  destruct (fst (child E cmd shell (world_at_call cmd w)))
    as [retcode | errno msg].
  - destruct (Z.ltb_spec retcode 0); [now apply H |].
    destruct (Z.gtb_spec retcode 0); [now apply H | lia].
  - now apply H.
Qed.

Ltac fail_step :=
  lazymatch goal with
  | |- wp (bind _ _) _ _ => apply wp_bind; fail_step
  | |- wp (execute _ _ _) _ _ =>
      apply wp_execute_fail; [assumption | intros ?w' ?msg ?Hs]
  | |- wp (Builder.config _ _) _ _ => unfold Builder.config; fail_step
  | |- wp (Builder.build_opencvjs _ _) _ _ =>
      unfold Builder.build_opencvjs; fail_step
  | |- wp (Builder.build_test _ _) _ _ => unfold Builder.build_test; fail_step
  | |- wp (Builder.build_doc _ _) _ _ => unfold Builder.build_doc; fail_step
  | |- wp (when (negb ?f) _) _ _ =>
      destruct f eqn:?; cbn [when negb]; fail_step
  | |- wp (when ?f _) _ _ =>
      first [ apply wp_plain;
              [solve [plain_steps] | intros [?x | ?e] ?w' _ ?Hs ?Hne]
            | destruct f eqn:?; cbn [when]; fail_step ]
  | |- wp (sys_exit _) _ _ => apply wp_raise
  | |- wp (ret _) _ _ => apply wp_ret
  | |- wp _ _ _ =>
      apply wp_plain; [solve [plain_steps] | intros [?x | ?e] ?w' _ ?Hs ?Hne]
  end; cbv beta iota.

Ltac fail_leaf :=
  first
    [ right; eexists; eexists; split; [use_spawned; reflexivity | reflexivity]
    | left; split;
      [ use_spawned; reflexivity
      | split;
        [ intros ?; discriminate
        | let Hx := fresh "Hx" in
          intros Hx;
          first [ discriminate Hx
                | exfalso;
                  match goal with
                  | H : forall c, _ <> Raise (SystemExit c) |- _ =>
                      injection Hx as ->; apply (H 0%Z); reflexivity
                  end
                | split; first [assumption | reflexivity] ] ] ] ].

Lemma main_failing (E : Env) (argv : Argv.t) (w : world) :
  children_fail E ->
  wp (main E argv)
    (fun r w' =>
       (spawned w' = spawned w
        /\ (forall u, r <> Ok u)
        /\ (r = Raise (SystemExit 0) ->
            Args.config_only (args_of E argv w) = true
            /\ Args.skip_config (args_of E argv w) = true))
       \/ exists c msg,
            spawned w' = (spawned w ++ [c])%list
            /\ r = Raise (Fail (Some msg)))
    w.
Proof.
  intros Hf. unfold main. cbv zeta.
  eapply wp_bind_eq; [reflexivity |].
  fold (args_of E argv w). set (a := args_of E argv w).
  eapply wp_bind_eq; [reflexivity |].
  repeat (fail_step; try solve [fail_leaf]).
Qed.

(** X10.  A failing step is fatal: if every child process fails, the script
    starts at most one command; once one is started the script ends with the
    [Fail] raised for it, exit status 1, and nothing is started after it.
    The script can end with status 0 only when it had nothing to start,
    under [--config_only] with [--skip_config]. *)
Theorem failing_step_is_fatal (E : Env) (argv : Argv.t) (w : world) :
  children_fail E ->
  let out := fst (run_script E argv w) in
  let w' := snd (run_script E argv w) in
  (spawned w' = spawned w
   /\ (out = Exit 0 ->
       Argv.config_only argv = true /\ Argv.skip_config argv = true))
  \/ exists c msg,
       spawned w' = (spawned w ++ [c])%list
       /\ out = Traceback (Fail (Some msg))
       /\ exit_status out = 1%Z.
Proof.
  intros Hf. cbv zeta. rewrite run_script_world, run_script_outcome.
  destruct (main_failing E argv w Hf) as [(Hs & Hok & Hex) | (c & msg & Hs & Hr)].
  - left. split; [exact Hs |].
    destruct (fst (main E argv w)) as [u | e]; [now destruct (Hok u) |].
    destruct e; try discriminate. intros [= ->]. exact (Hex eq_refl).
  - right. exists c, msg. rewrite Hr. repeat split. exact Hs.
Qed.

Lemma failing_step_is_fatal_witness :
  fst (run_script (sample_env (Some "/em") (Returned 2))
         (sample_argv true true true false) sample_world)
  = Traceback (Fail (Some "Child returned: 2"))
  /\ length (spawned (snd (run_script (sample_env (Some "/em") (Returned 2))
                             (sample_argv true true true false)
                             sample_world))) = 1.
Proof.
  destruct (failing_step_is_fatal (sample_env (Some "/em") (Returned 2))
              (sample_argv true true true false) sample_world)
    as [(_ & _) | (c & msg & Hs & Hout & _)].
  - intros cmd shell w0. discriminate.
  - split; reflexivity.
  - split; [reflexivity |]. rewrite Hs. reflexivity.
Defined.

(** ** Paths in normal form *)

Section NormalPaths.
Import Str Posixpath.

(** A normal path: one or two separators, then names. *)
Lemma normpath_normal (i : nat) (comps : list string) :
  i = 1 \/ i = 2 ->
  Forall (fun c => valid_name c = true) comps ->
  normpath (seps i ++ join_sep comps) = seps i ++ join_sep comps.
Proof.
  intros Hi H. destruct comps as [| c cs].
  - destruct Hi as [-> | ->]; reflexivity.
  - destruct Hi as [-> | ->].
    + change (seps 1 ++ join_sep (c :: cs)) with (abs_of (c :: cs)).
      rewrite <- (append_nil_r (abs_of (c :: cs))) at 1.
      apply (normpath_abs_of (c :: cs) 0); [discriminate | assumption].
    + destruct (names_head (c :: cs)) as (a & t & Hj & Ha);
        [discriminate | assumption |].
      unfold normpath.
      change (seps 2 ++ join_sep (c :: cs))
        with (String "/" (String "/" (join_sep (c :: cs)))).
      change (String "/" (String "/" (join_sep (c :: cs))) =? EmptyString)
        with false. cbv iota.
      assert (Hi2 : initial_slashes
                      (String "/" (String "/" (join_sep (c :: cs)))) = 2).
      { rewrite Hj. unfold initial_slashes.
        change (startswith (String "/" (String "/" (String a t))) "/")
          with true.
        change (startswith (String "/" (String "/" (String a t))) "//")
          with true.
        change (startswith (String "/" (String "/" (String a t))) "///")
          with (Ascii.eqb "/" "/" && (Ascii.eqb "/" "/"
                                       && (Ascii.eqb "/" a && true))).
        now rewrite (Ascii.eqb_sym "/" a), Ha. }
      rewrite Hi2.
      change (split_sep (String "/" (String "/" (join_sep (c :: cs)))))
        with (EmptyString :: EmptyString :: split_sep (join_sep (c :: cs))).
      rewrite split_sep_join
        by first [discriminate | apply valid_names_no_sep; assumption].
      change (fold_left (normpath_step 2)
                (EmptyString :: EmptyString :: c :: cs) [])
        with (fold_left (normpath_step 2) (c :: cs) []).
      rewrite (normpath_fold_names 2 (c :: cs) []) by assumption.
      reflexivity.
Qed.

(** What [abspath] returns from a working directory in normal form. *)
Lemma abspath_normal_form (cs : list string) (d : string) :
  exists i comps,
    (i = 1 \/ i = 2)
    /\ Forall (fun c => valid_name c = true) comps
    /\ abspath (abs_of cs) d = seps i ++ join_sep comps.
Proof.
  assert (Habs : isabs (if isabs d then d else join (abs_of cs) [d]) = true).
  { destruct (isabs d) eqn:Hd; [exact Hd |].
    unfold isabs in *. unfold join. simpl fold_left. unfold join2.
    rewrite Hd. destruct (_ || _); reflexivity. }
  exact (normpath_absolute _ Habs).
Qed.

Lemma endswith_sep_normal (i : nat) (comps : list string) :
  i = 1 \/ i = 2 ->
  Forall (fun c => valid_name c = true) comps ->
  endswith_sep (seps i ++ join_sep comps)
  = match comps with [] => true | _ => false end.
Proof.
  intros Hi H. destruct comps as [| c cs].
  - destruct Hi as [-> | ->]; reflexivity.
  - destruct (names_head (c :: cs)) as (a & t & Hj & _);
      [discriminate | assumption |].
    rewrite endswith_sep_app by (rewrite Hj; discriminate).
    pose proof (endswith_sep_names (c :: cs)) as He. unfold abs_of in He.
    rewrite endswith_sep_app in He by (rewrite Hj; discriminate).
    apply He; [discriminate | assumption].
Qed.

(** [join] of a normal path and a name. *)
Lemma join_normal_name (i : nat) (comps : list string) (x : string) :
  i = 1 \/ i = 2 ->
  Forall (fun c => valid_name c = true) comps ->
  valid_name x = true ->
  join2 (seps i ++ join_sep comps) x = seps i ++ join_sep (comps ++ [x]).
Proof.
  intros Hi H Hx. unfold join2.
  destruct (valid_name_head x Hx) as (a & t & Hxt & Ha).
  rewrite (startswith_sep_head x a t Hxt Ha).
  rewrite (endswith_sep_normal i comps Hi H).
  assert (Ht : truthy (seps i ++ join_sep comps) = true)
    by (destruct Hi as [-> | ->]; reflexivity).
  rewrite Ht. cbn [negb orb].
  destruct comps as [| c cs].
  - simpl. now rewrite append_nil_r.
  - rewrite join_sep_app by discriminate.
    now rewrite !append_assoc.
Qed.

Lemma join_normal (i : nat) (l comps : list string) :
  i = 1 \/ i = 2 ->
  Forall (fun c => valid_name c = true) comps ->
  Forall (fun c => valid_name c = true) l ->
  join (seps i ++ join_sep comps) l = seps i ++ join_sep (comps ++ l).
Proof.
  intros Hi. unfold join. revert comps.
  induction l as [| x l IH]; intros comps H Hl.
  - simpl. now rewrite app_nil_r.
  - inversion Hl as [| ? ? Hx Hl']; subst. simpl fold_left.
    rewrite join_normal_name by assumption.
    rewrite IH; [| apply Forall_app; split; [assumption | now constructor]
                 | assumption].
    now rewrite <- app_assoc.
Qed.

Lemma key_normal (c : string) (i : nat) (comps : list string) :
  i = 1 \/ i = 2 ->
  Forall (fun c => valid_name c = true) comps ->
  Os.key c (seps i ++ join_sep comps) = comps
  /\ abspath c (seps i ++ join_sep comps) = seps i ++ join_sep comps.
Proof.
  intros Hi H. destruct (components_normal i comps Hi H) as [Habs Hc].
  unfold Os.key, abspath. rewrite Habs. split; [exact Hc |].
  now apply normpath_normal.
Qed.

End NormalPaths.

(** X11.  For a builder made from a working directory in normal form, the
    toolchain file named in the configure command lies in the validated
    Emscripten directory: the kernel reads its path as the names of that
    directory followed by [cmake], [Modules], [Platform],
    [Emscripten.cmake], however the directory was written on the command
    line. *)
Theorem toolchain_file_in_emscripten_dir (a : Args.t) (w : world)
    (cs : list string) (b : Builder.t) (w' : world) :
  cwd w = Posixpath.abs_of cs ->
  Builder.init a w = (Ok b, w') ->
  forall c,
    Os.key c (Builder.get_toolchain_file b)
    = (Os.key c (Builder.emscripten_dir b)
       ++ ["cmake"; "Modules"; "Platform"; "Emscripten.cmake"])%list
    /\ Posixpath.abspath c (Builder.get_toolchain_file b)
       = Builder.get_toolchain_file b.
Proof.
  intros Hcwd Hinit c.
  unfold Builder.init, bind, ret in Hinit.
  destruct (check_dir (Args.build_dir a) true false w) as [[x1 | e1] w1] eqn:H1;
    [| discriminate].
  destruct (check_dir (Args.opencv_dir a) false false w1)
    as [[x2 | e2] w2] eqn:H2; [| discriminate].
  destruct (Args.emscripten_dir a) as [e |]; [| discriminate].
  destruct (check_dir e false false w2) as [[x3 | e3] w3] eqn:H3;
    [| discriminate].
  injection Hinit as <- <-.
  apply check_dir_effect in H1, H2, H3. cbv zeta in H1, H2, H3.
  destruct H1 as (Hc1 & _). destruct H2 as (Hc2 & _).
  destruct H3 as (_ & _ & _ & _ & -> & _).
  rewrite Hc2, Hc1, Hcwd.
  unfold Builder.get_toolchain_file. cbn [Builder.emscripten_dir].
  destruct (abspath_normal_form cs e) as (i & comps & Hi & Hv & ->).
  rewrite join_normal by (assumption || now repeat constructor).
  destruct (key_normal c i comps Hi Hv) as [-> _].
  apply key_normal; [exact Hi |].
  apply Forall_app. split; [exact Hv | now repeat constructor].
Qed.

Lemma toolchain_file_in_emscripten_dir_witness :
  Os.key "/"
    (Builder.get_toolchain_file
       (Builder.Make (sample_args false false) "/b" "/src" "/em"))
  = ["em"; "cmake"; "Modules"; "Platform"; "Emscripten.cmake"].
Proof.
  exact (proj1 (toolchain_file_in_emscripten_dir (sample_args false false)
                  sample_world [] (sample_builder false false)
                  (snd (Builder.init (sample_args false false) sample_world))
                  eq_refl eq_refl "/")).
Defined.

(** ** check_dir with [clean=True] *)

(** The loop [for x in ...: rm_one(x)] over entries of one directory. *)
Lemma for_each_rm_one (i : nat) (comps xs : list string) (w : world) :
  i = 1 \/ i = 2 ->
  Forall (fun c => Posixpath.valid_name c = true) comps ->
  Forall (fun c => Posixpath.valid_name c = true) xs ->
  exists w',
    for_each
      (map (fun x => Posixpath.join (Str.seps i ++ Str.join_sep comps) [x]) xs)
      rm_one w
    = (Ok tt, w')
    /\ cwd w' = cwd w
    /\ spawned w' = spawned w
    /\ (forall q,
          FS.stat (fs w') q
          = if existsb (fun x => is_prefix (comps ++ [x]) q) xs
            then None else FS.stat (fs w) q).
Proof.
  intros Hi Hv Hxs. revert w.
  induction Hxs as [| x l Hx Hl IH]; intros w.
  - exists w. now repeat split.
  - cbn [map for_each]. unfold bind.
    rewrite (join_normal i [x] comps Hi Hv) by now repeat constructor.
    pose proof (rm_one_at (Str.seps i ++ Str.join_sep (comps ++ [x])) w)
      as Hrm. cbv zeta in Hrm.
    assert (Hvx : Forall (fun c => Posixpath.valid_name c = true)
                    (comps ++ [x]))
      by (apply Forall_app; split; [assumption | now constructor]).
    destruct (key_normal (cwd w) i (comps ++ [x]) Hi Hvx) as [Hk Ha].
    rewrite Ha, Hk in Hrm.
    destruct Hrm as (w1 & Hr & Hc1 & Hs1 & Hq1 & _);
      [now destruct comps |].
    rewrite Hr.
    destruct (IH w1) as (w' & Hf & Hc & Hs & Hq).
    exists w'. split; [exact Hf |].
    split; [now rewrite Hc |]. split; [now rewrite Hs |].
    intros q. rewrite Hq, Hq1. cbn [existsb].
    destruct (is_prefix (comps ++ [x]) q);
      destruct (existsb _ l); reflexivity.
Qed.

Lemma existsb_filter {A} (f g : A -> bool) (l : list A) :
  existsb g (filter f l) = existsb (fun x => f x && g x) l.
Proof.
  induction l as [| x l IH]; [reflexivity |].
  simpl. destruct (f x); simpl; now rewrite IH.
Qed.

(** The [clean=True] branch of [check_dir] where nothing is a symbolic
    link. *)
Lemma check_dir_clean_run (d : string) (create : bool) (w : world)
    (cs : list string) :
  let a := Posixpath.abspath (cwd w) d in
  let p := Os.key (cwd w) a in
  cwd w = Posixpath.abs_of cs ->
  FS.isdir (fs w) p = true ->
  Forall (fun x => Posixpath.valid_name x = true) (entry_names (fs w) p) ->
  exists w',
    check_dir d create true w = (Ok a, w')
    /\ cwd w' = cwd w
    /\ spawned w' = spawned w
    /\ (forall q,
          FS.stat (fs w') q
          = if existsb (fun x => negb (hidden x) && is_prefix (p ++ [x]) q)
                 (entry_names (fs w) p)
            then None else FS.stat (fs w) q)
    /\ FS.isdir (fs w') p = true
    /\ (forall x r,
          hidden x = true ->
          FS.stat (fs w') (p ++ x :: r) = FS.stat (fs w) (p ++ x :: r))
    /\ (forall x,
          In x (entry_names (fs w) p) -> hidden x = false ->
          FS.exists_ (fs w') (p ++ [x]) = false).
Proof.
  intros a p Hcwd Hd Hnames.
  assert (Hmain : exists w',
    check_dir d create true w = (Ok a, w')
    /\ cwd w' = cwd w
    /\ spawned w' = spawned w
    /\ (forall q,
          FS.stat (fs w') q
          = if existsb (fun x => negb (hidden x) && is_prefix (p ++ [x]) q)
                 (entry_names (fs w) p)
            then None else FS.stat (fs w) q)).
  { subst p a. revert Hd Hnames. rewrite Hcwd.
    destruct (abspath_normal_form cs d) as (i & comps & Hi & Hv & Ha).
    rewrite Ha.
    destruct (key_normal (Posixpath.abs_of cs) i comps Hi Hv) as [Hk _].
    rewrite Hk. intros Hd Hnames.
    unfold check_dir, bind, Os.path_abspath, Os.path_exists, Os.path_isdir,
      Os.glob_star, log_info, log_call, when, ret, FS.exists_.
    cbn [fst snd fs cwd log spawned].
    rewrite Hcwd, Ha, Hk.
    unfold FS.isdir in Hd.
    destruct (FS.stat (fs w) comps) as [[|] |] eqn:Hst; try discriminate.
    unfold FS.isdir. cbn [fst snd fs cwd log spawned].
    rewrite Hk, Hst. cbn [negb fst snd fs cwd log spawned]. rewrite ?Hk.
    fold (entry_names (fs w) comps).
    set (w0 := World (fs w) (Posixpath.abs_of cs) _ (spawned w)).
    assert (Hxs : Forall (fun c => Posixpath.valid_name c = true)
                    (filter (fun x => negb (Str.startswith x "."))
                       (entry_names (fs w) comps))).
    { apply Forall_forall. intros x Hx. apply filter_In in Hx.
      rewrite Forall_forall in Hnames. now apply Hnames. }
    destruct (for_each_rm_one i comps _ w0 Hi Hv Hxs)
      as (w' & Hf & Hc & Hs & Hq).
    rewrite Hf. exists w'. split; [reflexivity |].
    split; [exact Hc |]. split; [exact Hs |].
    intros q. rewrite Hq, existsb_filter. reflexivity. }
  destruct Hmain as (w' & Hrun & Hc & Hs & Hq).
  exists w'. split; [exact Hrun |]. split; [exact Hc |].
  split; [exact Hs |]. split; [exact Hq |].
  split; [| split].
  - unfold FS.isdir in *. rewrite Hq.
    replace (existsb _ _) with false; [exact Hd |].
    symmetry. apply not_true_is_false. intros He.
    apply existsb_exists in He. destruct He as (x & _ & Hx).
    now rewrite is_prefix_longer, andb_false_r in Hx.
  - intros x r Hx. rewrite Hq.
    replace (existsb _ _) with false; [reflexivity |].
    symmetry. apply not_true_is_false. intros He.
    apply existsb_exists in He. destruct He as (y & _ & Hy).
    rewrite is_prefix_app_same in Hy. cbn [is_prefix] in Hy.
    rewrite andb_true_r in Hy. apply andb_prop in Hy.
    destruct Hy as [Hh Hy]. apply String.eqb_eq in Hy. subst y.
    now rewrite Hx in Hh.
  - intros x Hin Hx. unfold FS.exists_. rewrite Hq.
    replace (existsb _ _) with true; [reflexivity |].
    symmetry. apply existsb_exists. exists x. split; [exact Hin |].
    rewrite Hx. cbn [negb andb].
    apply is_prefix_app. exists []. now rewrite app_nil_r.
Qed.

Lemma isabs_join (a x : string) :
  Posixpath.isabs a = true -> Posixpath.isabs (Posixpath.join a [x]) = true.
Proof.
  intros Ha. unfold Posixpath.join. cbn [fold_left].
  unfold Posixpath.join2, Posixpath.isabs in *.
  destruct (Str.startswith x "/") eqn:Hx; [exact Hx |].
  destruct a as [| c a']; [discriminate |].
  destruct (_ || _); exact Ha.
Qed.

Lemma linked_for_each_abs (islink : list string -> bool) (xs : list string) :
  (forall q, islink q = false) ->
  Forall (fun x => Posixpath.isabs x = true) xs ->
  forall w, for_each xs (Linked.rm_one islink) w = for_each xs rm_one w.
Proof.
  intros Hno Hxs. induction Hxs as [| x xs Hx _ IH]; intros w; [reflexivity |].
  cbn [for_each]. unfold bind.
  rewrite (linked_rm_one_plain islink x w Hno (or_introl Hx)).
  destruct (rm_one x w) as [[u | e] w1]; [apply IH | reflexivity].
Qed.

(** Where nothing is a symbolic link and the working directory is in place,
    [check_dir] is the function of the first part. *)
Lemma linked_check_dir_plain (islink : list string -> bool) (d : string)
    (create clean : bool) (w : world) :
  (forall q, islink q = false) ->
  Posixpath.isabs d = true
  \/ FS.isdir (fs w) (Posixpath.components (cwd w)) = true ->
  Posixpath.isabs (Posixpath.abspath (cwd w) d) = true ->
  Linked.check_dir islink d create clean w = check_dir d create clean w.
Proof.
  intros Hno Hd Habs. unfold Linked.check_dir, check_dir.
  unfold bind at 1. rewrite (linked_path_abspath d w Hd).
  unfold bind, Os.path_abspath, Os.path_exists, Os.path_isdir,
    Os.glob_star, log_info, log_call, when, ret, raise, FS.exists_,
    FS.isdir.
  cbn [fst snd fs cwd log spawned].
  destruct (FS.stat (fs w) _) as [[|] |] eqn:Hst;
    cbn [fst snd fs cwd log spawned]; rewrite ?Hst;
    cbn [negb fst snd fs cwd log spawned]; try reflexivity.
  destruct clean; [| reflexivity].
  cbn [fst snd fs cwd log spawned].
  rewrite linked_for_each_abs; [reflexivity | exact Hno |].
  apply Forall_forall. intros x Hx. apply in_map_iff in Hx.
  destruct Hx as (y & <- & _). now apply isabs_join.
Qed.

(** X12.  [check_dir(d, clean=True)] on an existing directory, from a
    working directory in normal form, in a file system of directories and
    regular files without symbolic links: the call returns the absolute
    path and empties the directory of everything [glob] lists.  Each entry
    whose name does not start with a dot is removed with all that is below
    it; the directory itself, the entries starting with a dot and every
    path outside the directory keep their status.  ([glob] reads [*], [?]
    and [[] in the directory's path as a pattern, so the path is taken free
    of them; entry names are names a file system can hold; a relative [d]
    needs the working directory to be there.) *)
Theorem check_dir_clean (islink : list string -> bool) (d : string)
    (create : bool) (w : world) (cs : list string) :
  let a := Posixpath.abspath (cwd w) d in
  let p := Os.key (cwd w) a in
  (forall q, islink q = false) ->
  cwd w = Posixpath.abs_of cs ->
  Posixpath.isabs d = true
  \/ FS.isdir (fs w) (Posixpath.components (cwd w)) = true ->
  has_magic a = false ->
  FS.isdir (fs w) p = true ->
  Forall (fun x => Posixpath.valid_name x = true) (entry_names (fs w) p) ->
  exists w',
    Linked.check_dir islink d create true w = (Ok a, w')
    /\ cwd w' = cwd w
    /\ spawned w' = spawned w
    /\ (forall q,
          FS.stat (fs w') q
          = if existsb (fun x => negb (hidden x) && is_prefix (p ++ [x]) q)
                 (entry_names (fs w) p)
            then None else FS.stat (fs w) q)
    /\ FS.isdir (fs w') p = true
    /\ (forall x r,
          hidden x = true ->
          FS.stat (fs w') (p ++ x :: r) = FS.stat (fs w) (p ++ x :: r))
    /\ (forall x,
          In x (entry_names (fs w) p) -> hidden x = false ->
          FS.exists_ (fs w') (p ++ [x]) = false).
Proof.
  intros a p Hno Hcwd Hhere _ Hd Hnames.
  rewrite linked_check_dir_plain.
  - now apply (check_dir_clean_run d create w cs).
  - exact Hno.
  - exact Hhere.
  - rewrite Hcwd.
    destruct (abspath_normal_form cs d) as (i & comps & Hi & Hv & ->).
    now destruct (components_normal i comps Hi Hv).
Qed.

Lemma check_dir_clean_witness :
  exists w',
    Linked.check_dir no_link "." false true dotted_world = (Ok "/b", w')
    /\ FS.stat (fs w') ["b"] = Some FS.IsDir
    /\ FS.stat (fs w') ["b"; ".cache"; "x"] = Some FS.IsFile
    /\ FS.stat (fs w') ["b"; "bin"; "opencv.js"] = None
    /\ FS.stat (fs w') ["b"; "keep.txt"] = None
    /\ FS.stat (fs w') ["em"] = Some FS.IsDir.
Proof.
  destruct (check_dir_clean no_link "." false dotted_world ["b"])
    as (w' & Hr & _ & _ & Hq & _);
    [reflexivity | reflexivity | now right | reflexivity | reflexivity
     | vm_compute; repeat constructor |].
  exists w'. split; [exact Hr |]. rewrite !Hq. now repeat split.
Defined.

(** ** find_file and check_file *)

Lemma node_induction (P : FS.node -> Prop) :
  P FS.File ->
  (forall es, Forall (fun e => P (snd e)) es -> P (FS.Dir es)) ->
  forall n, P n.
Proof.
  intros HF HD. fix IH 1. intros [| es]; [exact HF |]. apply HD.
  induction es as [| [x c] es IHes]; constructor; [apply IH | exact IHes].
Qed.

Lemma find_file_loop_app (name : string)
    (a b : list (string * list string * list string)) :
  find_file_loop name (a ++ b)
  = match find_file_loop name a with
    | Some f => Some f
    | None => find_file_loop name b
    end.
Proof.
  induction a as [| [[root dirs] files] a IH]; [reflexivity |].
  simpl. destruct (Str.mem name files); [reflexivity | exact IH].
Qed.

Lemma find_file_loop_flat_map {A} (name : string)
    (f : A -> list (string * list string * list string)) (l : list A)
    (r : string) :
  find_file_loop name (flat_map f l) = Some r ->
  exists e, In e l /\ find_file_loop name (f e) = Some r.
Proof.
  induction l as [| a l IH]; simpl; [discriminate |].
  rewrite find_file_loop_app.
  destruct (find_file_loop name (f a)) eqn:Ha.
  - intros [= <-]. exists a. now split; [left |].
  - intros H. destruct (IH H) as (e & Hin & He).
    exists e. now split; [right |].
Qed.

Lemma find_file_loop_flat_map_some {A} (name : string)
    (f : A -> list (string * list string * list string)) (l : list A)
    (e : A) :
  In e l ->
  find_file_loop name (f e) <> None ->
  find_file_loop name (flat_map f l) <> None.
Proof.
  induction l as [| a l IH]; simpl; [contradiction |].
  intros [<- | Hin] Hne; rewrite find_file_loop_app.
  - destruct (find_file_loop name (f a)); [discriminate | contradiction].
  - destruct (find_file_loop name (f a)); [discriminate | now apply IH].
Qed.

Lemma assoc_In (x : string) (c : FS.node) (es : list (string * FS.node)) :
  FS.assoc x es = Some c -> In (x, c) es.
Proof.
  induction es as [| [y d] es IH]; simpl; [discriminate |].
  destruct (String.eqb y x) eqn:E.
  - intros [= ->]. apply String.eqb_eq in E. subst. now left.
  - intros H. right. now apply IH.
Qed.

Lemma assoc_nodup (x : string) (c : FS.node) (es : list (string * FS.node)) :
  nodupb (map fst es) = true -> In (x, c) es -> FS.assoc x es = Some c.
Proof.
  induction es as [| [y d] es IH]; simpl; [contradiction |].
  intros Hnd Hin. apply andb_prop in Hnd. destruct Hnd as [Hm Hnd].
  destruct Hin as [[= -> ->] | Hin].
  - now rewrite String.eqb_refl.
  - destruct (String.eqb y x) eqn:E; [| now apply IH].
    apply String.eqb_eq in E. subst y.
    assert (Hx : Str.mem x (map fst es) = true)
      by (apply mem_In; exact (in_map fst _ _ Hin)).
    rewrite Hx in Hm. discriminate.
Qed.

Lemma files_of_In (x : string) (es : list (string * FS.node)) :
  In x (FS.files_of es) <-> In (x, FS.File) es.
Proof.
  unfold FS.files_of. rewrite in_map_iff. split.
  - intros ([y c] & <- & Hin). apply filter_In in Hin.
    destruct Hin as [Hin Hc]. simpl in *.
    destruct c; [assumption | discriminate].
  - intros Hin. exists (x, FS.File). split; [reflexivity |].
    apply filter_In. now split.
Qed.

Lemma lookup_app (p q : list string) (n : FS.node) :
  FS.lookup (p ++ q) n
  = match FS.lookup p n with
    | Some c => FS.lookup q c
    | None => None
    end.
Proof.
  revert n. induction p as [| x p IH]; intros n; [reflexivity |].
  simpl. destruct n as [| es]; [reflexivity |].
  destruct (FS.assoc x es); [apply IH | reflexivity].
Qed.

Lemma isfile_lookup (root : FS.node) (p : list string) :
  FS.isfile root p = true <-> FS.lookup p root = Some FS.File.
Proof.
  unfold FS.isfile, FS.stat.
  destruct (FS.lookup p root) as [[| es] |]; simpl; split;
    congruence.
Qed.

Lemma tree_ok_dir (es : list (string * FS.node)) :
  tree_ok (FS.Dir es)
  = nodupb (map fst es)
    && forallb (fun e => Posixpath.valid_name (fst e) && tree_ok (snd e)) es.
Proof. reflexivity. Qed.

Lemma tree_ok_entry (es : list (string * FS.node)) (x : string)
    (c : FS.node) :
  tree_ok (FS.Dir es) = true ->
  In (x, c) es ->
  nodupb (map fst es) = true
  /\ Posixpath.valid_name x = true /\ tree_ok c = true.
Proof.
  rewrite tree_ok_dir. intros H Hin. apply andb_prop in H.
  destruct H as [Hnd H]. rewrite forallb_forall in H.
  split; [exact Hnd |]. apply andb_prop. exact (H _ Hin).
Qed.

Lemma tree_ok_lookup (p : list string) :
  forall root n,
    tree_ok root = true -> FS.lookup p root = Some n -> tree_ok n = true.
Proof.
  induction p as [| x p IH]; intros root n Hok Hl.
  - simpl in Hl. now injection Hl as <-.
  - simpl in Hl. destruct root as [| es]; [discriminate |].
    destruct (FS.assoc x es) as [c |] eqn:Ha; [| discriminate].
    apply assoc_In in Ha.
    destruct (tree_ok_entry es x c Hok Ha) as (_ & _ & Hc).
    exact (IH c n Hc Hl).
Qed.

Lemma walk_dir (top : string) (es : list (string * FS.node)) :
  FS.walk top (FS.Dir es)
  = (top, FS.dirs_of es, FS.files_of es)
    :: flat_map (fun e => FS.walk (Posixpath.join top [fst e]) (snd e)) es.
Proof. reflexivity. Qed.

(** What the loop of [find_file] returns is a regular file of that name. *)
Lemma find_file_loop_sound (name : string) (n : FS.node) :
  tree_ok n = true ->
  forall i ts f,
    i = 1 \/ i = 2 ->
    Forall (fun c => Posixpath.valid_name c = true) ts ->
    find_file_loop name (FS.walk (Str.seps i ++ Str.join_sep ts) n) = Some f ->
    exists sub,
      Forall (fun c => Posixpath.valid_name c = true) (sub ++ [name])
      /\ f = Str.seps i ++ Str.join_sep (ts ++ sub ++ [name])
      /\ FS.lookup (sub ++ [name]) n = Some FS.File.
Proof.
  induction n as [| es IH] using node_induction;
    intros Hok i ts f Hi Hts Hf; [discriminate |].
  rewrite walk_dir in Hf. cbn [find_file_loop] in Hf.
  destruct (Str.mem name (FS.files_of es)) eqn:Hm.
  - injection Hf as <-. apply mem_In, files_of_In in Hm.
    destruct (tree_ok_entry es name FS.File Hok Hm) as (Hnd & Hv & _).
    exists []. split; [now repeat constructor |]. split.
    + apply (join_normal i [name] ts);
        [assumption | assumption | now repeat constructor].
    + simpl. now rewrite (assoc_nodup name FS.File es Hnd Hm).
  - apply find_file_loop_flat_map in Hf. destruct Hf as ([x c] & Hin & Hf).
    rewrite Forall_forall in IH. specialize (IH _ Hin).
    cbn [fst snd] in IH, Hf.
    destruct (tree_ok_entry es x c Hok Hin) as (Hnd & Hv & Hc).
    rewrite join_normal in Hf
      by (assumption || now repeat constructor).
    assert (Htx : Forall (fun c => Posixpath.valid_name c = true)
                    (ts ++ [x]))
      by (apply Forall_app; split; [assumption | now repeat constructor]).
    destruct (IH Hc i (ts ++ [x])%list f Hi Htx Hf) as (sub & Hs & -> & Hl).
    exists (x :: sub). split; [now constructor |]. split.
    + now rewrite <- app_assoc.
    + cbn [app FS.lookup]. now rewrite (assoc_nodup x c es Hnd Hin).
Qed.

(** A regular file of that name below the top is not missed. *)
Lemma find_file_loop_complete (name : string) (sub : list string) :
  forall n top,
    FS.lookup (sub ++ [name]) n = Some FS.File ->
    find_file_loop name (FS.walk top n) <> None.
Proof.
  induction sub as [| x sub IH]; intros n top Hl.
  - simpl in Hl. destruct n as [| es]; [discriminate |].
    destruct (FS.assoc name es) as [c |] eqn:Ha; [| discriminate].
    injection Hl as ->. apply assoc_In, files_of_In, mem_In in Ha.
    rewrite walk_dir. cbn [find_file_loop]. rewrite Ha. discriminate.
  - cbn [app FS.lookup] in Hl. destruct n as [| es]; [discriminate |].
    destruct (FS.assoc x es) as [c |] eqn:Ha; [| discriminate].
    rewrite walk_dir. cbn [find_file_loop].
    destruct (Str.mem name (FS.files_of es)); [discriminate |].
    apply assoc_In in Ha.
    apply (find_file_loop_flat_map_some name _ es (x, c) Ha).
    cbn [fst snd]. now apply IH.
Qed.

(** [find_file] and [check_file] where nothing is a symbolic link. *)
Lemma find_file_run (name : string) (i : nat)
    (ts : list string) (w : world) :
  i = 1 \/ i = 2 ->
  Forall (fun c => Posixpath.valid_name c = true) ts ->
  tree_ok (fs w) = true ->
  exists r,
    find_file name (Str.seps i ++ Str.join_sep ts) w = (Ok r, w)
    /\ match r with
       | Some f =>
           exists sub,
             f = Str.seps i ++ Str.join_sep (ts ++ sub ++ [name])
             /\ FS.isfile (fs w) (ts ++ sub ++ [name]) = true
             /\ check_file (Some f) w = (Ok true, w)
       | None =>
           forall sub, FS.isfile (fs w) (ts ++ sub ++ [name]) = false
       end.
Proof.
  intros Hi Hts Hok.
  unfold find_file, bind, Os.walk, ret. cbn [fst snd].
  destruct (key_normal (cwd w) i ts Hi Hts) as [Hk _]. rewrite Hk.
  eexists. split; [reflexivity |].
  destruct (FS.lookup ts (fs w)) as [n |] eqn:Hn.
  - destruct (find_file_loop name (FS.walk _ n)) as [f |] eqn:Hf.
    + pose proof (tree_ok_lookup ts (fs w) n Hok Hn) as Hokn.
      destruct (find_file_loop_sound name n Hokn i ts f Hi Hts Hf)
        as (sub & Hv & -> & Hl).
      exists sub.
      assert (Hfile : FS.isfile (fs w) (ts ++ sub ++ [name]) = true)
        by (apply isfile_lookup; now rewrite lookup_app, Hn).
      split; [reflexivity |]. split; [exact Hfile |].
      rewrite check_file_some.
      assert (Hall : Forall (fun c => Posixpath.valid_name c = true)
                       (ts ++ sub ++ [name]))
        by (apply Forall_app; now split).
      destruct (key_normal (cwd w) i _ Hi Hall) as [Hk2 Ha2].
      now rewrite Ha2, Hk2, Hfile.
    + intros sub. apply not_true_is_false. intros Hfile.
      apply isfile_lookup in Hfile. rewrite lookup_app, Hn in Hfile.
      exact (find_file_loop_complete name sub n _ Hfile Hf).
  - intros sub. apply not_true_is_false. intros Hfile.
    apply isfile_lookup in Hfile. rewrite lookup_app, Hn in Hfile.
    discriminate.
Qed.

Lemma linked_walk_tree_plain (islink : list string -> bool) :
  (forall q, islink q = false) ->
  forall n top p, Linked.walk_tree islink top p n = FS.walk top n.
Proof.
  intros Hno.
  induction n as [| es IH] using node_induction; intros top p;
    [reflexivity |].
  cbn [Linked.walk_tree]. rewrite walk_dir. f_equal.
  induction IH as [| [x c] es Hc _ IHes]; [reflexivity |].
  cbn [flat_map fst snd]. rewrite Hno. cbn [snd] in Hc.
  now rewrite Hc, IHes.
Qed.

Lemma linked_find_file_plain (islink : list string -> bool)
    (name path : string) (w : world) :
  (forall q, islink q = false) ->
  Linked.find_file islink name path w = find_file name path w.
Proof.
  intros Hno. unfold Linked.find_file, find_file, bind, Linked.walk, Os.walk.
  destruct (FS.lookup _ (fs w)); [| reflexivity].
  now rewrite (linked_walk_tree_plain islink Hno).
Qed.

Lemma linked_check_file_abs (f : string) (w : world) :
  Posixpath.isabs f = true ->
  Linked.check_file (Some f) w = check_file (Some f) w.
Proof.
  intros Hf. unfold Linked.check_file, check_file.
  unfold bind at 1. unfold Linked.path_abspath_opt.
  now rewrite (linked_path_abspath f w (or_introl Hf)).
Qed.

(** X13.  [find_file(name, path)] for a path in normal form, in a file
    system of directories and regular files without symbolic links, whose
    directories hold valid and distinct names.  The call changes nothing and
    raises nothing.  When it returns a path, that path is [path] followed
    by directory names and [name], it leads to a regular file, and
    [check_file] answers [True] for it from any working directory; when it
    returns [None], no regular file called [name] exists anywhere below
    [path].  ([path] holds no null character.) *)
Theorem find_file_finds_regular_file (islink : list string -> bool)
    (name : string) (i : nat) (ts : list string) (w : world) :
  (forall q, islink q = false) ->
  i = 1 \/ i = 2 ->
  Forall (fun c => Posixpath.valid_name c = true) ts ->
  has_nul (Str.seps i ++ Str.join_sep ts) = false ->
  tree_ok (fs w) = true ->
  exists r,
    Linked.find_file islink name (Str.seps i ++ Str.join_sep ts) w = (Ok r, w)
    /\ match r with
       | Some f =>
           exists sub,
             f = Str.seps i ++ Str.join_sep (ts ++ sub ++ [name])
             /\ FS.isfile (fs w) (ts ++ sub ++ [name]) = true
             /\ Linked.check_file (Some f) w = (Ok true, w)
       | None =>
           forall sub, FS.isfile (fs w) (ts ++ sub ++ [name]) = false
       end.
Proof.
  intros Hno Hi Hts _ Hok.
  destruct (find_file_run name i ts w Hi Hts Hok) as (r & Hr & Hspec).
  exists r. rewrite (linked_find_file_plain islink _ _ w Hno).
  split; [exact Hr |].
  destruct r as [f |]; [| exact Hspec].
  destruct Hspec as (sub & Hf & Hfile & Hcheck).
  exists sub. split; [exact Hf |]. split; [exact Hfile |].
  rewrite linked_check_file_abs; [exact Hcheck |].
  rewrite Hf. destruct Hi as [-> | ->]; reflexivity.
Qed.

Lemma find_file_finds_regular_file_witness :
  Linked.find_file no_link "page.html" "/b/doc" doc_world
  = (Ok (Some "/b/doc/js/html/page.html"), doc_world)
  /\ FS.isfile (fs doc_world) ["b"; "doc"; "js"; "html"; "page.html"] = true
  /\ fst (Linked.find_file no_link "other.html" "/b/doc" doc_world)
     = Ok None.
Proof.
  destruct (find_file_finds_regular_file no_link "page.html" 1 ["b"; "doc"]
              doc_world)
    as (r & Hr & Hspec);
    [reflexivity | now left | now repeat constructor | reflexivity
     | reflexivity |].
  change (Str.seps 1 ++ Str.join_sep ["b"; "doc"]) with "/b/doc" in Hr.
  assert (Hr' : r = Some "/b/doc/js/html/page.html")
    by (vm_compute in Hr; congruence).
  subst r. destruct Hspec as (sub & _ & _ & _).
  split; [exact Hr |]. split; reflexivity.
Defined.

(** ** What the script leaves alone *)

Lemma keeps_ret {A} (a : A) : keeps_files (ret a).
Proof. now intros w q _. Qed.

Lemma keeps_raise {A} (e : exn) : keeps_files (@raise A e).
Proof. now intros w q _. Qed.

Lemma keeps_bind {A B} (c : M A) (k : A -> M B) :
  keeps_files c -> (forall a, keeps_files (k a)) -> keeps_files (bind c k).
Proof.
  intros Hc Hk w q Hq. unfold bind. specialize (Hc w q Hq).
  destruct (c w) as [[a | e] w1]; cbn [snd] in *; [| exact Hc].
  rewrite <- Hc. apply Hk. now rewrite Hc.
Qed.

Lemma keeps_if {A} (b : bool) (c1 c2 : M A) :
  keeps_files c1 -> keeps_files c2 -> keeps_files (if b then c1 else c2).
Proof. now destruct b. Qed.

Lemma keeps_when (b : bool) (c : M unit) :
  keeps_files c -> keeps_files (when b c).
Proof. intros H. unfold when. apply keeps_if; [exact H | apply keeps_ret]. Qed.

Lemma keeps_when_false (c : M unit) : keeps_files (when false c).
Proof. apply keeps_ret. Qed.

Lemma keeps_try {A} (body : M A) (handler : Z -> string -> M A) :
  keeps_files body ->
  (forall errno msg, keeps_files (handler errno msg)) ->
  keeps_files (try_except_OSError body handler).
Proof.
  intros Hb Hh w q Hq. unfold try_except_OSError. specialize (Hb w q Hq).
  destruct (body w) as [[a | []] w1]; cbn [snd] in *; try exact Hb.
  rewrite <- Hb. apply Hh. now rewrite Hb.
Qed.

Lemma keeps_log (l : level) (f : string) (args : list pyval) :
  keeps_files (log_call l f args).
Proof. now intros w q _. Qed.

Lemma keeps_log_info (f : string) (args : list pyval) :
  keeps_files (log_info f args).
Proof. apply keeps_log. Qed.

Lemma keeps_log_debug (f : string) (args : list pyval) :
  keeps_files (log_debug f args).
Proof. apply keeps_log. Qed.

Lemma keeps_path_abspath (d : string) : keeps_files (Os.path_abspath d).
Proof. now intros w q _. Qed.

Lemma keeps_path_exists (d : string) : keeps_files (Os.path_exists d).
Proof. now intros w q _. Qed.

Lemma keeps_path_isdir (d : string) : keeps_files (Os.path_isdir d).
Proof. now intros w q _. Qed.

Lemma keeps_path_isfile (d : string) : keeps_files (Os.path_isfile d).
Proof. now intros w q _. Qed.

Lemma keeps_walk (d : string) : keeps_files (Os.walk d).
Proof. now intros w q _. Qed.

Lemma keeps_makedirs (d : string) : keeps_files (Os.makedirs d).
Proof.
  intros w q Hq. unfold Os.makedirs.
  destruct (FS.mkdirs _ (fs w)) as [e | n] eqn:Hm; [reflexivity |].
  cbn [snd fs Os.set_fs].
  destruct (FS.stat (fs w) q) as [k |] eqn:Hs; [| contradiction].
  exact (mkdirs_keeps _ _ _ _ _ Hm Hs).
Qed.

Lemma keeps_chdir (d : string) : keeps_files (Os.chdir d).
Proof.
  intros w q _. unfold Os.chdir.
  now destruct (FS.stat (fs w) _) as [[|] |].
Qed.

Create HintDb keeps.
#[local] Hint Resolve keeps_ret keeps_raise keeps_log keeps_log_info
  keeps_log_debug keeps_path_abspath keeps_path_exists keeps_path_isdir
  keeps_path_isfile keeps_walk keeps_makedirs keeps_chdir : keeps.

Ltac keeps_steps :=
  repeat first
    [ solve [auto with keeps]
    | apply keeps_bind; [| intros ?]
    | apply keeps_when_false
    | apply keeps_when
    | apply keeps_try; [| intros ? ?]
    | apply keeps_if ].

Lemma keeps_check_dir (d : string) (create : bool) :
  keeps_files (check_dir d create false).
Proof. unfold check_dir. keeps_steps. Qed.
#[local] Hint Resolve keeps_check_dir : keeps.

Lemma keeps_check_file (d : option string) : keeps_files (check_file d).
Proof.
  unfold check_file, Os.path_abspath_opt. destruct d; keeps_steps.
Qed.
#[local] Hint Resolve keeps_check_file : keeps.

Lemma keeps_find_file (name path : string) :
  keeps_files (find_file name path).
Proof. unfold find_file. keeps_steps. Qed.
#[local] Hint Resolve keeps_find_file : keeps.

Lemma keeps_init (a : Args.t) : keeps_files (Builder.init a).
Proof.
  unfold Builder.init. destruct (Args.emscripten_dir a); keeps_steps.
Qed.
#[local] Hint Resolve keeps_init : keeps.

Lemma keeps_banner (line : string) (args : list pyval) :
  keeps_files (banner line args).
Proof. unfold banner. keeps_steps. Qed.
#[local] Hint Resolve keeps_banner : keeps.

Lemma keeps_subprocess_call (E : Env) (cmd : list string) (shell : bool) :
  children_keep E -> keeps_files (Os.subprocess_call E cmd shell).
Proof.
  intros HE w q Hq. unfold Os.subprocess_call.
  specialize (HE cmd shell w q Hq).
  destruct (child E cmd shell w) as [[retcode | errno msg] n];
    exact HE.
Qed.

Lemma keeps_execute (E : Env) (cmd : list string) (shell : bool) :
  children_keep E -> keeps_files (execute E cmd shell).
Proof.
  intros HE. unfold execute.
  pose proof (keeps_subprocess_call E cmd shell HE).
  keeps_steps.
Qed.

Lemma keeps_main (E : Env) (argv : Argv.t) :
  children_keep E ->
  Argv.clean_build_dir argv = false ->
  keeps_files (main E argv).
Proof.
  intros HE Hflag.
  pose proof (keeps_execute E) as Hex.
  unfold main, sys_exit, Builder.config, Builder.build_opencvjs,
    Builder.build_test, Builder.build_doc.
  cbv zeta. cbn [parse_args Args.clean_build_dir]. rewrite Hflag.
  keeps_steps.
Qed.

(** X14.  Without [--clean_build_dir] the script removes nothing: when the
    child processes leave what exists in place, every path that led to a
    file or a directory before the run leads to the same kind of object
    after it, however the run ends. *)
Theorem script_removes_nothing (E : Env) (argv : Argv.t) (w : world)
    (q : list string) :
  children_keep E ->
  Argv.clean_build_dir argv = false ->
  FS.stat (fs w) q <> None ->
  FS.stat (fs (snd (run_script E argv w))) q = FS.stat (fs w) q.
Proof.
  intros HE Hflag Hq. rewrite run_script_world.
  exact (keeps_main E argv HE Hflag w q Hq).
Qed.

Lemma script_removes_nothing_witness :
  FS.stat
    (fs (snd (run_script (sample_env (Some "/em") (Returned 1))
                (sample_argv true false false false) sample_world)))
    ["f"]
  = Some FS.IsFile.
Proof.
  apply (script_removes_nothing (sample_env (Some "/em") (Returned 1))
           (sample_argv true false false false) sample_world ["f"]).
  - intros cmd shell w q _. reflexivity.
  - reflexivity.
  - discriminate.
Defined.

(** ** The default source directory *)

Section DefaultSource.
Import Str Posixpath.

Lemma Forall_removelast {A} (P : A -> Prop) (l : list A) :
  Forall P l -> Forall P (removelast l).
Proof.
  induction 1 as [| x l Hx Hl IH]; [constructor |].
  simpl. destruct l; [constructor | now constructor].
Qed.

Lemma normpath_step_dotdot (acc : list string) :
  Forall (fun c => valid_name c = true) acc ->
  normpath_step 1 acc ".." = removelast acc.
Proof.
  intros H. unfold normpath_step, last_is_dotdot.
  change (".." =? EmptyString) with false.
  change (".." =? ".") with false.
  change (".." =? "..") with true.
  cbn [negb orb andb Nat.eqb].
  destruct acc as [| x acc]; [reflexivity |].
  assert (Hl : valid_name (last (x :: acc) EmptyString) = true).
  { rewrite Forall_forall in H. apply H.
    destruct (exists_last (l := x :: acc)) as (l' & y & ->);
      [discriminate |].
    rewrite last_last. apply in_or_app. right. now left. }
  apply valid_name_inv in Hl. destruct Hl as (_ & _ & -> & _).
  reflexivity.
Qed.

(** [abspath(join(d, "../.."))] for a directory in normal form. *)
Lemma two_levels_up (c : string) (ds : list string) :
  Forall (fun x => valid_name x = true) ds ->
  abspath c (join (abs_of ds) ["../.."])
  = abs_of (removelast (removelast ds)).
Proof.
  intros Hv. destruct ds as [| d0 ds0] eqn:Hds; [reflexivity |].
  rewrite <- Hds in *. assert (Hne : ds <> []) by (subst; discriminate).
  clear Hds.
  unfold join. cbn [fold_left]. unfold join2.
  change (startswith "../.." "/") with false. cbv iota.
  rewrite (endswith_sep_names ds Hne Hv).
  change (truthy (abs_of ds)) with true. cbn [negb orb].
  destruct (names_head ds Hne Hv) as (a & t & Hj & Ha).
  assert (Hshape : abs_of ds ++ "/" ++ "../.."
                   = String "/" (join_sep (ds ++ [".."; ".."]))).
  { rewrite join_sep_app by (assumption || discriminate).
    reflexivity. }
  rewrite Hshape. unfold abspath.
  change (isabs (String "/" (join_sep (ds ++ [".."; ".."])))) with true.
  cbv iota. unfold normpath.
  change (String "/" (join_sep (ds ++ [".."; ".."])) =? EmptyString)
    with false. cbv iota.
  assert (Hj2 : join_sep (ds ++ [".."; ".."])
                = String a (t ++ "/" ++ "../..")).
  { rewrite join_sep_app by (assumption || discriminate).
    now rewrite Hj. }
  rewrite (initial_slashes_one _ a _ Hj2 Ha).
  change (split_sep (String "/" (join_sep (ds ++ [".."; ".."]))))
    with (EmptyString :: split_sep (join_sep (ds ++ [".."; ".."]))).
  rewrite split_sep_join.
  - change (fold_left (normpath_step 1)
              (EmptyString :: ds ++ [".."; ".."]) [])
      with (fold_left (normpath_step 1) (ds ++ [".."; ".."]) []).
    rewrite fold_left_app, (normpath_fold_names 1 ds []) by assumption.
    cbn [app fold_left].
    rewrite (normpath_step_dotdot ds) by assumption.
    rewrite (normpath_step_dotdot (removelast ds))
      by now apply Forall_removelast.
    reflexivity.
  - now destruct ds.
  - apply Forall_app. split; [now apply valid_names_no_sep |].
    now repeat constructor.
Qed.

End DefaultSource.

(** X15.  The default of [--opencv_dir]: when the script lies in the
    directory [/d1/.../dn] and the option is not given, the source directory
    the script works with is [/d1/.../d(n-2)], two levels above the script,
    and the root when the script is less than two levels deep; the working
    directory plays no part. *)
Theorem default_opencv_dir (E : Env) (argv : Argv.t) (w : world)
    (ds : list string) :
  SCRIPT_DIR E = Posixpath.abs_of ds ->
  Forall (fun x => Posixpath.valid_name x = true) ds ->
  Argv.opencv_dir argv = None ->
  Args.opencv_dir (args_of E argv w)
  = Posixpath.abs_of (removelast (removelast ds)).
Proof.
  intros Hsd Hv Hnone. unfold args_of, parse_args.
  cbn [Args.opencv_dir]. rewrite Hnone, Hsd.
  now apply two_levels_up.
Qed.

Lemma default_opencv_dir_witness :
  Args.opencv_dir
    (args_of (sample_env None (Returned 0))
       (sample_argv false false false false) build_world)
  = "/src".
Proof.
  exact (default_opencv_dir (sample_env None (Returned 0))
           (sample_argv false false false false) build_world
           ["src"; "platforms"; "js"] eq_refl
           ltac:(repeat constructor) eq_refl).
Defined.
